(** * rename2date: renaming files to a date prefix

    A shallow embedding of [rename2date.py] and the properties of its
    filename transformation, collision resolution, skip rule and the two
    runs (preview, rename).

    Python values are modelled as follows.
    - [str] is [string], read as ASCII text: [lower] and [strip] act on the
      ASCII letters and the ASCII white space only.
    - [int] is [Z]; [f"{i}"] is stdpp's decimal printer [pretty].  A time
      stamp is a whole number of seconds.
    - The file system is a finite map from path strings to nodes: regular
      files, directories, special files and symbolic links that lead
      nowhere.  A path names a node by its exact spelling; the [os] calls
      below are the ones the program makes, on that map.  A rename also
      sets the modification time of the directories it changes, and it
      fails where a directory is missing or read-only, where the new name
      is too long, and wherever the platform refuses it.
    - An exception is a value of [exn]; a call that can raise returns a
      [result].  [datetime.fromtimestamp] raises for an instant that the
      platform cannot represent as a date.
    - [while True] is a loop with fuel; [None] means that the fuel ran out
      before the loop returned.
    - What [os.walk] and [os.scandir] yield is an input: a finite sequence
      of entries and, for [os.scandir], the exception that ends it, if
      any.  So is the answer of [filedialog.askdirectory].  The dialog of
      [messagebox.showerror] is not modelled.
    - A callback that ends with an exception which it does not catch is
      [Some (Raise e)]. *)

From stdpp Require Import gmap strings pretty list fin_maps.
From Stdlib Require Import ZArith Ascii.

Local Open Scope Z_scope.

(** ** Python's [str] methods *)

Module pystr.

Definition len (s : string) : Z := Z.of_nat (String.length s).

Fixpoint take (n : nat) (s : string) : string :=
  match n, s with
  | S k, String a r => String a (take k r)
  | _, _ => ""
  end.

Fixpoint drop (n : nat) (s : string) : string :=
  match n, s with
  | S k, String _ r => drop k r
  | _, _ => s
  end.

(** A slice bound as Python clips it: negative bounds count from the end. *)
Definition clip (s : string) (i : Z) : nat :=
  Z.to_nat (if i <? 0 then Z.max 0 (len s + i) else Z.min i (len s)).

(** [s[:i]], [s[i:]] and [s[i:j]]. *)
Definition upto (s : string) (i : Z) : string := take (clip s i) s.
Definition from (s : string) (i : Z) : string := drop (clip s i) s.
Definition slice (s : string) (i j : Z) : string :=
  take (clip s j - clip s i) (drop (clip s i) s).

(** [s.rfind(c)] for a one-character [c]: the highest index, or [-1]. *)
Fixpoint rfind (s : string) (c : ascii) : Z :=
  match s with
  | "" => -1
  | String a r =>
      let k := rfind r c in
      if 0 <=? k then 1 + k else if Ascii.eqb a c then 0 else -1
  end.

Fixpoint startswith (s p : string) {struct p} : bool :=
  match p, s with
  | "", _ => true
  | String b p', String a s' => Ascii.eqb a b && startswith s' p'
  | String _ _, "" => false
  end.

Definition endswith (s p : string) : bool :=
  (String.length p <=? String.length s)%nat
  && String.eqb (drop (String.length s - String.length p) s) p.

(** [c * n] *)
Fixpoint times (c : ascii) (n : nat) : string :=
  match n with O => "" | S k => String c (times c k) end.

(** [s.rstrip(c)] and [s.lstrip(c)] for a set of characters [f]. *)
Fixpoint rstrip_by (f : ascii → bool) (s : string) : string :=
  match s with
  | "" => ""
  | String a r =>
      let r' := rstrip_by f r in
      if String.eqb r' "" && f a then "" else String a r'
  end.

Fixpoint lstrip_by (f : ascii → bool) (s : string) : string :=
  match s with
  | "" => ""
  | String a r => if f a then lstrip_by f r else s
  end.

Definition rstrip (s : string) (c : ascii) : string := rstrip_by (Ascii.eqb c) s.

(** ASCII white space, as [str.isspace] has it. *)
Definition isspace (a : ascii) : bool :=
  let n := N_of_ascii a in
  ((9 <=? n) && (n <=? 13) || (28 <=? n) && (n <=? 32))%N.

Definition strip (s : string) : string := rstrip_by isspace (lstrip_by isspace s).

Definition lower_char (a : ascii) : ascii :=
  let n := N_of_ascii a in
  if ((65 <=? n) && (n <=? 90))%N then ascii_of_N (n + 32) else a.

Fixpoint lower (s : string) : string :=
  match s with
  | "" => ""
  | String a r => String (lower_char a) (lower r)
  end.

(** [s.split(c)] *)
Fixpoint split (s : string) (c : ascii) : list string :=
  match s with
  | "" => [""]
  | String a r =>
      if Ascii.eqb a c then "" :: split r c
      else match split r c with
           | w :: ws => String a w :: ws
           | [] => [String a ""]
           end
  end.

(** [sep.join(l)] *)
Fixpoint join (sep : string) (l : list string) : string :=
  match l with
  | [] => ""
  | [w] => w
  | w :: ws => w +:+ sep +:+ join sep ws
  end.

(** [c in s] *)
Fixpoint contains (s : string) (c : ascii) : bool :=
  match s with
  | "" => false
  | String a r => Ascii.eqb a c || contains r c
  end.

(** [repr(s)] for a string without quotes, backslashes or control characters. *)
Definition repr (s : string) : string := "'" +:+ s +:+ "'".

(** [str(b)] for a [bool]. *)
Definition of_bool (b : bool) : string := if b then "True" else "False".

End pystr.

(** ** [os.path] on POSIX *)

Module posixpath.
Import pystr.

Definition sep : ascii := "/"%char.
Definition extsep : ascii := "."%char.

Definition isabs (s : string) : bool := startswith s "/".

(** [join(a, b)]: one component joined to [a]. *)
Definition join (a b : string) : string :=
  if startswith b "/" then b
  else if String.eqb a "" || endswith a "/" then a +:+ b
  else a +:+ "/" +:+ b.

Definition split (p : string) : string * string :=
  let i := rfind p sep + 1 in
  let head := upto p i in
  let tail := from p i in
  let head :=
    if negb (String.eqb head "")
       && negb (String.eqb head (times sep (String.length head)))
    then rstrip head sep else head in
  (head, tail).

Definition basename (p : string) : string :=
  let i := rfind p sep + 1 in from p i.

(** The loop of [genericpath._splitext] that skips leading dots: [true]
    when a character that is not a dot lies between [filenameIndex] and
    [dotIndex]; [steps] is the distance between the two. *)
Fixpoint splitext_scan (p : string) (filenameIndex : Z) (steps : nat) : bool :=
  match steps with
  | O => false
  | S k =>
      if negb (String.eqb (slice p filenameIndex (filenameIndex + 1)) ".")
      then true
      else splitext_scan p (filenameIndex + 1) k
  end.

Definition splitext (p : string) : string * string :=
  let sepIndex := rfind p sep in
  let dotIndex := rfind p extsep in
  if (sepIndex <? dotIndex)
     && splitext_scan p (sepIndex + 1) (Z.to_nat (dotIndex - (sepIndex + 1)))
  then (upto p dotIndex, from p dotIndex)
  else (p, upto p 0).

(** One round of the loop of [normpath] over the components. *)
Definition normpath_step (initial_slashes : Z) (new_comps : list string)
    (comp : string) : list string :=
  if String.eqb comp "" || String.eqb comp "." then new_comps
  else if negb (String.eqb comp "..")
          || ((initial_slashes =? 0) && bool_decide (new_comps = []))
          || (bool_decide (new_comps ≠ [])
              && bool_decide (last new_comps = Some ".."))
  then new_comps ++ [comp]
  else removelast new_comps.

Definition normpath (path : string) : string :=
  if String.eqb path "" then "."
  else
    let initial_slashes :=
      if startswith path "/" then
        if startswith path "//" && negb (startswith path "///") then 2 else 1
      else 0 in
    let comps := pystr.split path sep in
    let new_comps := fold_left (normpath_step initial_slashes) comps [] in
    let path := pystr.join "/" new_comps in
    let path := times sep (Z.to_nat initial_slashes) +:+ path in
    if String.eqb path "" then "." else path.

Definition abspath (cwd path : string) : string :=
  let path := if negb (isabs path) then join cwd path else path in
  normpath path.

End posixpath.

(** ** Exceptions and results *)

Inductive exn :=
  | OSError (errno : Z) (strerror : string) (filename : string) (filename2 : option string)
  | ValueError (msg : string)
  | OverflowError (msg : string).

Inductive result (A : Type) :=
  | Ok (a : A)
  | Raise (e : exn).
Arguments Ok {A} a.
Arguments Raise {A} e.

Definition is_ok {A} (r : result A) : bool :=
  match r with Ok _ => true | Raise _ => false end.

(** [str(e)] *)
Definition str_exn (e : exn) : string :=
  match e with
  | OSError errno strerror filename filename2 =>
      "[Errno " +:+ pretty errno +:+ "] " +:+ strerror +:+ ": " +:+ pystr.repr filename
      +:+ match filename2 with
          | Some f2 => " -> " +:+ pystr.repr f2
          | None => ""
          end
  | ValueError msg => msg
  | OverflowError msg => msg
  end.

(** ** The file system *)

Inductive node :=
  | File (mtime : Z)                   (* a regular file, or a link to one *)
  | Dir (mtime : Z) (writable : bool)
  | Special (mtime : Z)                (* a socket, a device, a pipe *)
  | Broken.                            (* a symbolic link that leads nowhere *)

(** What [os.stat] reads of the modification time: nothing for a link
    that leads nowhere. *)
Definition node_mtime (n : node) : option Z :=
  match n with
  | File m | Dir m _ | Special m => Some m
  | Broken => None
  end.

Record world := World {
  fs : gmap string node;   (* what the names of the file system hold, by path *)
  cwd : string;            (* os.getcwd() *)
  clock : Z                (* time.time(), which does not advance during a run *)
}.

(** ** Dates and the platform *)

Record datetime := {
  year : Z; month : Z; day : Z; hour : Z; minute : Z; second : Z
}.

(** The platform: its time zone and the dates it can represent
    ([datetime.fromtimestamp] raises for an instant outside of them), its
    formatting, and the reasons it may have, beyond those that [os.rename]
    below works out, to refuse a rename (an input or output error, a file
    system that is read-only or full, ...). *)
Class Platform := {
  fromtimestamp : Z → result datetime;
  strftime : datetime → string → result string;
  refuses : gmap string node → string → string → option exn
}.

(** A pattern is accepted or refused as a whole: whether [strftime] raises
    depends on the pattern, not on the instant. *)
Class Uniform `{Platform} : Prop :=
  strftime_uniform : ∀ d d' pattern,
    is_ok (strftime d pattern) = true → is_ok (strftime d' pattern) = true.

(** ** The [os] calls *)

Module os.

Definition EPERM : Z := 1.
Definition ENOENT : Z := 2.
Definition EACCES : Z := 13.
Definition ENOTDIR : Z := 20.
Definition EISDIR : Z := 21.
Definition ENAMETOOLONG : Z := 36.

(** The longest name of a directory entry, in bytes. *)
Definition NAME_MAX : nat := 255.

(** [os.path.exists], [isfile], [isdir] and [getmtime] follow links: a
    link that leads nowhere does not exist for them. *)
Definition path_exists (fs : gmap string node) (p : string) : bool :=
  match fs !! p with
  | Some (File _) | Some (Dir _ _) | Some (Special _) => true
  | Some Broken | None => false
  end.

Definition path_isfile (fs : gmap string node) (p : string) : bool :=
  match fs !! p with Some (File _) => true | _ => false end.

Definition path_isdir (fs : gmap string node) (p : string) : bool :=
  match fs !! p with Some (Dir _ _) => true | _ => false end.

Definition path_getmtime (fs : gmap string node) (p : string) : result Z :=
  match fs !! p ≫= node_mtime with
  | Some m => Ok m
  | None => Raise (OSError ENOENT "No such file or directory" p None)
  end.

(** Whether an entry may be added to or removed from the directory [d];
    the empty name is the working directory, taken to be writable. *)
Definition check_dir (fs : gmap string node) (d src dst : string) : result unit :=
  if String.eqb d "" then Ok tt
  else match fs !! d with
       | None | Some Broken =>
           Raise (OSError ENOENT "No such file or directory" src (Some dst))
       | Some (Dir _ true) => Ok tt
       | Some (Dir _ false) => Raise (OSError EACCES "Permission denied" src (Some dst))
       | Some _ => Raise (OSError ENOTDIR "Not a directory" src (Some dst))
       end.

(** A directory whose entries change is modified at that instant. *)
Definition touch (fs : gmap string node) (d : string) (now : Z) : gmap string node :=
  match fs !! d with
  | Some (Dir _ writable) => <[d := Dir now writable]> fs
  | _ => fs
  end.

Section rename.
Context `{Platform}.

(** [os.rename(src, dst)] of a regular file at the instant [now]: the
    node moves, with its modification time, and replaces what [dst] holds
    unless that is a directory; the directories of the two names are
    modified.  The call fails where a directory is missing or read-only,
    where the new name is too long, and where the platform refuses.  The
    program calls it on paths that passed [os.path.isfile]; other sources
    are refused. *)
Definition rename (fs : gmap string node) (now : Z) (src dst : string)
    : result (gmap string node) :=
  match fs !! src with
  | None => Raise (OSError ENOENT "No such file or directory" src (Some dst))
  | Some (File m) =>
      match check_dir fs (posixpath.split src).1 src dst with
      | Raise e => Raise e
      | Ok _ =>
          match check_dir fs (posixpath.split dst).1 src dst with
          | Raise e => Raise e
          | Ok _ =>
              if (NAME_MAX <? String.length (posixpath.basename dst))%nat then
                Raise (OSError ENAMETOOLONG "File name too long" src (Some dst))
              else
                match fs !! dst with
                | Some (Dir _ _) => Raise (OSError EISDIR "Is a directory" src (Some dst))
                | _ =>
                    match refuses fs src dst with
                    | Some e => Raise e
                    | None =>
                        Ok (touch (touch (<[dst := File m]> (delete src fs))
                                     (posixpath.split src).1 now)
                              (posixpath.split dst).1 now)
                    end
                end
          end
      end
  | Some _ => Raise (OSError EPERM "Operation not permitted" src (Some dst))
  end.

End rename.

End os.

(** ** Listings

    What [os.walk] and [os.scandir] yield for a directory.  The order and
    the moment at which a directory is read are the platform's; the
    program sees only the sequences.  [os.walk] passes over the errors of
    its own reading; [os.scandir] raises where the directory cannot be
    opened or read, and so does [DirEntry.is_file] where the entry cannot
    be examined. *)
Record DirEntry := {
  entry_name : string;
  entry_path : string;
  entry_is_file : result bool
}.

Record enumerator := {
  walk : string → list (string * list string * list string);
  (* the entries read, and the exception that ends the reading, if any *)
  scandir : string → list DirEntry * option exn
}.

(** ** The program *)

Definition APP_TITLE : string := "Rename Files by Date Prefix".
Definition DEFAULT_PATTERN : string := "%Y-%m-%d-%H-%M-%S".

Definition normalize_ext (ext : string) : string :=
  let ext := pystr.strip ext in
  if String.eqb ext "" then ""
  else
    let ext := if negb (pystr.startswith ext ".") then "." +:+ ext else ext in
    pystr.lower ext.

(** The loop of [iter_files] over the entries of [os.scandir]: the paths
    it yields, up to the entry at which [is_file] raises, if any. *)
Fixpoint scan (entries : list DirEntry) : list string :=
  match entries with
  | [] => []
  | entry :: rest =>
      match entry_is_file entry with
      | Ok true => entry_path entry :: scan rest
      | Ok false => scan rest
      | Raise _ => []
      end
  end.

(** The exception that ends that loop, if any: the first that [is_file]
    raises, or else the one [last] that ends the reading. *)
Fixpoint scan_raises (entries : list DirEntry) (last : option exn) : option exn :=
  match entries with
  | [] => last
  | entry :: rest =>
      match entry_is_file entry with
      | Ok _ => scan_raises rest last
      | Raise e => Some e
      end
  end.

(** A generator is the sequence that it yields and the exception that
    ends it, if any.  [iter_files] gives the paths yielded, and
    [iter_files_raises] the exception raised once they are consumed. *)
Definition iter_files (en : enumerator) (base_dir : string) (recursive : bool)
    : list string :=
  if recursive then
    flat_map (λ '(root, dirs, files), map (λ name, posixpath.join root name) files)
             (walk en base_dir)
  else
    scan (scandir en base_dir).1.

Definition iter_files_raises (en : enumerator) (base_dir : string) (recursive : bool)
    : option exn :=
  if recursive then None
  else scan_raises (scandir en base_dir).1 (scandir en base_dir).2.

Definition build_prefixed_name (path prefix : string) : string :=
  let '(directory, filename) := posixpath.split path in
  let new_name := prefix +:+ "_" +:+ filename in
  posixpath.join directory new_name.

(** The candidate that the loop of [ensure_unique_path] probes at [i]. *)
Definition candidate (directory stem ext : string) (i : Z) : string :=
  posixpath.join directory (stem +:+ "-" +:+ pretty i +:+ ext).

Fixpoint ensure_unique_loop (fuel : nat) (fs : gmap string node)
    (directory stem ext : string) (i : Z) : option string :=
  match fuel with
  | O => None
  | S fuel' =>
      let candidate := candidate directory stem ext i in
      if negb (os.path_exists fs candidate) then Some candidate
      else ensure_unique_loop fuel' fs directory stem ext (i + 1)
  end.

Definition ensure_unique_path (fuel : nat) (fs : gmap string node)
    (target_path : string) : option string :=
  if negb (os.path_exists fs target_path) then Some target_path
  else
    let '(directory, filename) := posixpath.split target_path in
    let '(stem, ext) := posixpath.splitext filename in
    ensure_unique_loop fuel fs directory stem ext 1.

Section Program.
Context `{Platform}.

Definition get_modification_prefix (w : world) (path pattern : string)
    : result string :=
  match
    match os.path_getmtime (fs w) path with
    | Ok ts => Ok ts
    | Raise (OSError _ _ _ _) => Ok (clock w)   (* except OSError *)
    | Raise e => Raise e
    end
  with
  | Raise e => Raise e
  | Ok ts =>
      match fromtimestamp ts with
      | Raise e => Raise e
      | Ok dt => strftime dt pattern
      end
  end.

End Program.

Definition should_skip_already_prefixed (filename prefix : string) : bool :=
  pystr.startswith filename (prefix +:+ "_").

(** ** The application *)

Record App := {
  dir_var : string;
  ext_var : string;
  pattern_var : string;
  recursive_var : bool;
  skip_already_prefixed_var : bool;
  log : list string          (* the lines of the log pane, oldest first *)
}.

Definition _log (self : App) (msg : string) : App :=
  {| dir_var := dir_var self; ext_var := ext_var self;
     pattern_var := pattern_var self; recursive_var := recursive_var self;
     skip_already_prefixed_var := skip_already_prefixed_var self;
     log := log self ++ [msg] |}.

(** The state in which [_build_ui] leaves the application: the variables
    of the entries and check boxes, and the first line of the log. *)
Definition _build_ui : App := {|
  dir_var := "";
  ext_var := "jpg";
  pattern_var := DEFAULT_PATTERN;
  recursive_var := true;
  skip_already_prefixed_var := true;
  log := ["Ready. Select a directory, extension, and pattern, then click 'Rename Files'."]
|}.

(** [_browse_dir], with the answer [d] of the directory dialog (empty when
    the dialog is cancelled). *)
Definition _browse_dir (d : string) (self : App) : App :=
  if negb (String.eqb d "") then
    {| dir_var := d; ext_var := ext_var self;
       pattern_var := pattern_var self; recursive_var := recursive_var self;
       skip_already_prefixed_var := skip_already_prefixed_var self;
       log := log self |}
  else self.

(** [_clear_log]: the log pane is emptied. *)
Definition _clear_log (self : App) : App :=
  {| dir_var := dir_var self; ext_var := ext_var self;
     pattern_var := pattern_var self; recursive_var := recursive_var self;
     skip_already_prefixed_var := skip_already_prefixed_var self;
     log := [] |}.

Definition set_fs (w : world) (fs' : gmap string node) : world :=
  {| fs := fs'; cwd := cwd w; clock := clock w |}.

(** The guard of [_collect_targets] on one path. *)
Definition is_target (fs : gmap string node) (ext path : string) : bool :=
  os.path_isfile fs path
  && String.eqb (pystr.lower (posixpath.splitext path).2) ext.

(** [_collect_targets] over a file system that does not change while the
    generator is consumed. *)
Definition _collect_targets (fs : gmap string node) (en : enumerator)
    (directory ext : string) (recursive : bool) : list string :=
  filter (λ path, is_target fs ext path = true) (iter_files en directory recursive).

(** The counters of [_on_rename]. *)
Record tally := Tally { count : Z; skipped : Z; errors : Z }.

Inductive verdict := Renamed | Skipped.

(** A computation that may raise, or loop beyond its fuel.  For a
    callback, [Raise] is the exception that ends it; what it did before
    is done, but the model does not return it. *)
Definition comp (A : Type) : Type := option (result A).

Definition ret {A} (a : A) : comp A := Some (Ok a).
Definition bind {A B} (m : comp A) (k : A → comp B) : comp B :=
  match m with
  | None => None
  | Some (Raise e) => Some (Raise e)
  | Some (Ok a) => k a
  end.
Definition call {A} (r : result A) : comp A := Some r.
Definition looping {A} (o : option A) : comp A :=
  match o with Some a => Some (Ok a) | None => None end.
(** The end of a generator that is consumed to its last item. *)
Definition exhausted (e : option exn) : comp unit :=
  match e with Some e => Some (Raise e) | None => Some (Ok tt) end.

Notation "x <~ m ;; k" := (bind m (λ x, k))
  (at level 100, m at next level, right associativity).

Section Application.
Context `{Platform}.

Definition _validate_inputs (self : App) (w : world)
    : bool * string * string * string :=
  let directory := pystr.strip (dir_var self) in
  if String.eqb directory "" then (false, "", "", "Select a directory.")
  else if negb (os.path_isdir (fs w) directory) then
    (false, "", "", "Directory does not exist: " +:+ directory)
  else
    let ext := normalize_ext (ext_var self) in
    if String.eqb ext "" then
      (false, "", "", "Enter a file extension (e.g., jpg or .jpg).")
    else
      let pattern :=
        if String.eqb (pystr.strip (pattern_var self)) "" then DEFAULT_PATTERN
        else pystr.strip (pattern_var self) in
      (* [datetime.now()] is [datetime.fromtimestamp(time.time())] *)
      match
        match fromtimestamp (clock w) with
        | Raise e => Raise e
        | Ok now => strftime now pattern
        end
      with
      | Raise e => (false, "", "", "Invalid strftime pattern: " +:+ str_exn e)
      | Ok _ => (true, directory, ext, pattern)
      end.

(** The loop of [_on_preview] from [preview_count] on. *)
Fixpoint preview_loop (fuel : nat) (skip : bool) (pattern : string) (w : world)
    (targets : list string) (preview_count : Z) (self : App) : comp (Z * App) :=
  match targets with
  | [] => ret (preview_count, self)
  | path :: rest =>
      let '(directory_name, filename) := posixpath.split path in
      prefix <~ call (get_modification_prefix w path pattern);;
      if skip && should_skip_already_prefixed filename prefix then
        preview_loop fuel skip pattern w rest preview_count self
      else
        let new_path := build_prefixed_name path prefix in
        unique_path <~ looping (ensure_unique_path fuel (fs w) new_path);;
        let note :=
          if negb (String.eqb unique_path new_path)
          then " (collision -> will use unique name)" else "" in
        let self :=
          _log self (filename +:+ " -> " +:+ posixpath.basename unique_path +:+ note) in
        let preview_count := preview_count + 1 in
        if 10 <=? preview_count then ret (preview_count, self)
        else preview_loop fuel skip pattern w rest preview_count self
  end.

Definition _on_preview (fuel : nat) (en : enumerator) (self : App) (w : world)
    : comp (App * world) :=
  let '(ok, directory, ext, pattern) := _validate_inputs self w in
  if negb ok then ret (_log self pattern, w)
  else
    let recursive := recursive_var self in
    let self :=
      _log self ("Preview (first 10) for directory=" +:+ directory +:+ ", ext="
                 +:+ ext +:+ ", pattern='" +:+ pattern +:+ "', recursive="
                 +:+ pystr.of_bool recursive) in
    r <~ preview_loop fuel (skip_already_prefixed_var self) pattern w
           (_collect_targets (fs w) en directory ext recursive) 0 self;;
    let '(preview_count, self) := r in
    (* without the [break], the generator was consumed to its end *)
    _ <~ (if 10 <=? preview_count then ret tt
          else exhausted (iter_files_raises en directory recursive));;
    if preview_count =? 0 then
      ret (_log self "No matching files found for preview.", w)
    else ret (self, w).

(** The [try] block of [_on_rename] for one path. *)
Definition rename_one (fuel : nat) (skip : bool) (pattern : string)
    (path : string) (self : App) (w : world) : comp (verdict * App * world) :=
  let '(dir_name, filename) := posixpath.split path in
  prefix <~ call (get_modification_prefix w path pattern);;
  if skip && should_skip_already_prefixed filename prefix then
    ret (Skipped, self, w)
  else
    target <~ looping (ensure_unique_path fuel (fs w) (build_prefixed_name path prefix));;
    if String.eqb (posixpath.abspath (cwd w) path) (posixpath.abspath (cwd w) target)
    then ret (Skipped, self, w)
    else
      fs' <~ call (os.rename (fs w) (clock w) path target);;
      let self :=
        _log self ("RENAMED: " +:+ filename +:+ " -> " +:+ posixpath.basename target) in
      ret (Renamed, self, set_fs w fs').

(** The loop of [_on_rename] over the paths that [iter_files] yields.  The
    generator of [_collect_targets] is consumed as the loop runs: its
    guard sees the file system of the moment. *)
Fixpoint rename_loop (fuel : nat) (skip : bool) (ext pattern : string)
    (paths : list string) (t : tally) (self : App) (w : world)
    : option (tally * App * world) :=
  match paths with
  | [] => Some (t, self, w)
  | path :: rest =>
      if negb (is_target (fs w) ext path) then
        rename_loop fuel skip ext pattern rest t self w
      else
        match rename_one fuel skip pattern path self w with
        | None => None
        | Some (Ok (Renamed, self', w')) =>
            rename_loop fuel skip ext pattern rest
              (Tally (count t + 1) (skipped t) (errors t)) self' w'
        | Some (Ok (Skipped, self', w')) =>
            rename_loop fuel skip ext pattern rest
              (Tally (count t) (skipped t + 1) (errors t)) self' w'
        | Some (Raise e) =>
            rename_loop fuel skip ext pattern rest
              (Tally (count t) (skipped t) (errors t + 1))
              (_log self ("ERROR: " +:+ path +:+ ": " +:+ str_exn e)) w
        end
  end.

Definition summary (t : tally) : string :=
  "Done. Renamed: " +:+ pretty (count t) +:+ ", Skipped: " +:+ pretty (skipped t)
  +:+ ", Errors: " +:+ pretty (errors t).

Definition _on_rename (fuel : nat) (en : enumerator) (self : App) (w : world)
    : comp (App * world) :=
  let '(ok, directory, ext, pattern) := _validate_inputs self w in
  if negb ok then ret (_log self pattern, w)
  else
    let recursive := recursive_var self in
    let self :=
      _log self ("Starting rename in " +:+ directory +:+ " (recursive="
                 +:+ pystr.of_bool recursive +:+ ") for extension " +:+ ext
                 +:+ " with pattern '" +:+ pattern +:+ "'") in
    r <~ looping (rename_loop fuel (skip_already_prefixed_var self) ext pattern
                    (iter_files en directory recursive) (Tally 0 0 0) self w);;
    let '(t, self, w) := r in
    (* the [for] statement is outside the [try] block *)
    _ <~ exhausted (iter_files_raises en directory recursive);;
    ret (_log self (summary t), w).

End Application.

(** ** A platform to compute with

    UTC as the local time zone, the years 1 to 9999, and a [strftime] that
    knows the numeric directives [%Y %m %d %H %M %S] and [%%] and refuses
    every other directive with [ValueError]. *)

Module utc.

(** The civil date of a day number counted from 1970-01-01. *)
Definition civil_from_days (days : Z) : Z * Z * Z :=
  let z := days + 719468 in
  let era := z / 146097 in
  let doe := z - era * 146097 in
  let yoe := (doe - doe / 1460 + doe / 36524 - doe / 146096) / 365 in
  let y := yoe + era * 400 in
  let doy := doe - (365 * yoe + yoe / 4 - yoe / 100) in
  let mp := (5 * doy + 2) / 153 in
  let d := doy - (153 * mp + 2) / 5 + 1 in
  let m := if mp <? 10 then mp + 3 else mp - 9 in
  (if m <=? 2 then y + 1 else y, m, d).

Definition fromtimestamp (ts : Z) : result datetime :=
  let '(y, m, d) := civil_from_days (ts / 86400) in
  if (y <? 1) || (9999 <? y) then
    Raise (ValueError ("year " +:+ pretty y +:+ " is out of range"))
  else
    let s := ts mod 86400 in
    Ok {| year := y; month := m; day := d;
          hour := s / 3600; minute := (s mod 3600) / 60; second := s mod 60 |}.

(** [n] in decimal, padded with zeros to [width] digits. *)
Definition zfill (width : nat) (n : Z) : string :=
  let s := pretty n in
  pystr.times "0" (width - String.length s) +:+ s.

Definition directive (d : datetime) (c : ascii) : option string :=
  match c with
  | "Y"%char => Some (zfill 4 (year d))
  | "m"%char => Some (zfill 2 (month d))
  | "d"%char => Some (zfill 2 (day d))
  | "H"%char => Some (zfill 2 (hour d))
  | "M"%char => Some (zfill 2 (minute d))
  | "S"%char => Some (zfill 2 (second d))
  | "%"%char => Some "%"
  | _ => None
  end.

Fixpoint strftime (d : datetime) (pattern : string) : result string :=
  match pattern with
  | "" => Ok ""
  | String a rest =>
      if Ascii.eqb a "%" then
        match rest with
        | "" => Raise (ValueError "Invalid format string")
        | String c rest' =>
            match directive d c, strftime d rest' with
            | Some s, Ok t => Ok (s +:+ t)
            | None, _ => Raise (ValueError "Invalid format string")
            | _, Raise e => Raise e
            end
        end
      else
        match strftime d rest with
        | Ok t => Ok (String a t)
        | Raise e => Raise e
        end
  end.

End utc.

(** ** The vocabulary of the properties *)

(** What [posixpath.split] keeps of the text before the last separator. *)
Definition split_head (head : string) : string :=
  if negb (String.eqb head "")
     && negb (String.eqb head (pystr.times posixpath.sep (String.length head)))
  then pystr.rstrip head posixpath.sep else head.

(** The shape of a directory part: separators only, or no separator at the end. *)
Definition is_head (d : string) : Prop :=
  d = pystr.times posixpath.sep (String.length d) ∨ pystr.rstrip d posixpath.sep = d.

Abbreviation nosep s := (pystr.contains s posixpath.sep = false).

(** [join] puts a fixed text before a name that does not start with a separator. *)
Definition join_prefix (d : string) : string :=
  if String.eqb d "" || pystr.endswith d "/" then d else d +:+ "/".

(** A character that no decimal digit equals. *)
Definition not_digit (c : ascii) : Prop :=
  ∀ n, Ascii.eqb (pretty_N_char n) c = false.

(** The name of a directory entry: not empty, not [.] or [..], no separator. *)
Definition is_entry_name (n : string) : bool :=
  negb (String.eqb n "") && negb (String.eqb n ".") && negb (String.eqb n "..")
  && negb (pystr.contains n posixpath.sep).

(** What C5 says of one path and one prefix: the new path splits into the
    directory of the original and the name [<prefix>_<filename>]. *)
Definition prefixed_in_place (path prefix : string) : Prop :=
  posixpath.split (build_prefixed_name path prefix)
  = ((posixpath.split path).1, prefix +:+ "_" +:+ (posixpath.split path).2).

(** [self] after the lines [lines] were logged. *)
Definition logged (self : App) (lines : list string) : App :=
  {| dir_var := dir_var self; ext_var := ext_var self;
     pattern_var := pattern_var self; recursive_var := recursive_var self;
     skip_already_prefixed_var := skip_already_prefixed_var self;
     log := log self ++ lines |}.

Definition error_line (path : string) (e : exn) : string :=
  "ERROR: " +:+ path +:+ ": " +:+ str_exn e.

Definition renamed_line (path target : string) : string :=
  "RENAMED: " +:+ (posixpath.split path).2 +:+ " -> " +:+ posixpath.basename target.

(** A text of dots only (the empty text included). *)
Fixpoint dots_only (s : string) : bool :=
  match s with
  | "" => true
  | String a r => Ascii.eqb a posixpath.extsep && dots_only r
  end.

(** The text of a path before its last component: empty, or ended by a
    separator. *)
Definition is_dir_prefix (pre : string) : Prop := pre = "" ∨ ∃ h, pre = h +:+ "/".

(** The modification times of the regular files, in the order of the map. *)
Definition files_of (fs : gmap string node) : list Z :=
  omap (λ n, match n with File m => Some m | _ => None end) (map_to_list fs).*2.

(** A node that is what it was, but for the modification time of a directory. *)
Definition kept (n n' : node) : Prop :=
  match n with
  | Dir _ writable => ∃ m', n' = Dir m' writable
  | _ => n' = n
  end.

(** One rename of a run over [paths] at the instant [now]: a target of
    the listing moves to a path at which nothing exists, and the
    directories of the two names are modified. *)
Inductive move (ext : string) (paths : list string) (now : Z) (fs : gmap string node)
    : gmap string node → Prop :=
  | Move src dst m :
      src ∈ paths → is_target fs ext src = true →
      fs !! src = Some (File m) → os.path_exists fs dst = false →
      move ext paths now fs
        (os.touch (os.touch (<[dst := File m]> (delete src fs))
                     (posixpath.split src).1 now)
           (posixpath.split dst).1 now).

(** *** The outcomes of a run, as the specification names them *)

Module report.

Inductive reason := already_prefixed | no_op_same_path.

Inductive outcome :=
  | Renamed (from to : string)
  | Skipped (path : string) (why : reason)
  | Errored (path message : string).

(** The line of the log for an outcome; a skip logs nothing. *)
Definition line (o : outcome) : list string :=
  match o with
  | Renamed from to =>
      ["RENAMED: " +:+ posixpath.basename from +:+ " -> " +:+ posixpath.basename to]
  | Skipped _ _ => []
  | Errored path message => ["ERROR: " +:+ path +:+ ": " +:+ message]
  end.

Definition is_renamed (o : outcome) : bool :=
  match o with Renamed _ _ => true | _ => false end.
Definition is_skipped (o : outcome) : bool :=
  match o with Skipped _ _ => true | _ => false end.
Definition is_errored (o : outcome) : bool :=
  match o with Errored _ _ => true | _ => false end.

Definition number (f : outcome → bool) (l : list outcome) : Z :=
  Z.of_nat (length (filter (λ o, f o = true) l)).

(** The last line of the log of a run with the outcomes [l]. *)
Definition summary (l : list outcome) : string :=
  "Done. Renamed: " +:+ pretty (number is_renamed l)
  +:+ ", Skipped: " +:+ pretty (number is_skipped l)
  +:+ ", Errors: " +:+ pretty (number is_errored l).

End report.

Section Vocabulary.
Context `{Platform}.

(** [datetime.fromtimestamp(ts).strftime(pattern)] *)
Definition format_timestamp (ts : Z) (pattern : string) : result string :=
  match fromtimestamp ts with
  | Raise e => Raise e
  | Ok dt => strftime dt pattern
  end.

(** The state machine of the specification for one candidate: the prefix,
    the skip rule, the unique target, the test of the same path and the
    rename; an exception of the prefix or of the rename is an error
    outcome with its message. *)
Definition process (fuel : nat) (skip : bool) (pattern : string) (w : world)
      (path : string) : option (report.outcome * world) :=
  match get_modification_prefix w path pattern with
  | Raise e => Some (report.Errored path (str_exn e), w)
  | Ok prefix =>
      if skip && should_skip_already_prefixed (posixpath.basename path) prefix then
        Some (report.Skipped path report.already_prefixed, w)
      else
        match ensure_unique_path fuel (fs w) (build_prefixed_name path prefix) with
        | None => None
        | Some target =>
            if String.eqb (posixpath.abspath (cwd w) path) (posixpath.abspath (cwd w) target)
            then Some (report.Skipped path report.no_op_same_path, w)
            else
              match os.rename (fs w) (clock w) path target with
              | Ok fs' => Some (report.Renamed path target, set_fs w fs')
              | Raise e => Some (report.Errored path (str_exn e), w)
              end
        end
  end.

(** The outcomes of a run over the listing [paths], one for each path that
    is a target when the run comes to it, and the world that it leaves. *)
Fixpoint outcomes (fuel : nat) (skip : bool) (ext pattern : string)
      (paths : list string) (w : world) : option (list report.outcome * world) :=
  match paths with
  | [] => Some ([], w)
  | path :: rest =>
      if is_target (fs w) ext path then
        match process fuel skip pattern w path with
        | None => None
        | Some (o, w') =>
            match outcomes fuel skip ext pattern rest w' with
            | None => None
            | Some (l, w'') => Some (o :: l, w'')
            end
        end
      else outcomes fuel skip ext pattern rest w
  end.

(** A target that the preview reports: one the skip rule does not skip. *)
Definition preview_qualifies (skip : bool) (pattern : string) (w : world)
      (path : string) : bool :=
  match get_modification_prefix w path pattern with
  | Ok prefix =>
      negb (skip && should_skip_already_prefixed (posixpath.split path).2 prefix)
  | Raise _ => false
  end.

(** The line that the preview logs for a target. *)
Definition preview_entry (fuel : nat) (pattern : string) (w : world)
      (path line : string) : Prop :=
  ∃ prefix unique_path,
    get_modification_prefix w path pattern = Ok prefix
    ∧ ensure_unique_path fuel (fs w) (build_prefixed_name path prefix) = Some unique_path
    ∧ line = (posixpath.split path).2 +:+ " -> " +:+ posixpath.basename unique_path
             +:+ (if negb (String.eqb unique_path (build_prefixed_name path prefix))
                  then " (collision -> will use unique name)" else "").

(** A file that carries the prefix of its own modification time. *)
Definition settled (pattern : string) (fs : gmap string node) (p : string) : Prop :=
  ∃ m prefix,
    fs !! p = Some (File m)
    ∧ format_timestamp m pattern = Ok prefix
    ∧ should_skip_already_prefixed (posixpath.split p).2 prefix = true.

(** A target that a run with the skip option has to rename: its name does
    not start with its prefix. *)
Definition needs_prefix (ext pattern : string) (w : world) (p : string) : bool :=
  is_target (fs w) ext p && preview_qualifies true pattern w p.

(** What holds of the file system [fs] while a run that started on [fs0]
    is under way: every target is settled, or is a file of the start that
    the run has not reached; and the targets of the start that the run has
    not reached are as they were. *)
Record twice_inv (ext pattern : string) (fs0 : gmap string node)
    (reached : list string) (fs : gmap string node) : Prop := {
  inv_targets : ∀ p, is_target fs ext p = true →
                     settled pattern fs p ∨ (fs !! p = fs0 !! p ∧ p ∉ reached);
  inv_start : ∀ p, is_target fs0 ext p = true → p ∉ reached → fs !! p = fs0 !! p
}.

(** What C3 says of two runs in a row over the listings [paths1] and
    [paths2]: the first run renames every target that needs its prefix (it
    counts and logs one rename for each, in the order of the listing, and
    no error; the file is, at the end of the run, at the new path, which
    carries its prefix), and the second renames nothing, counts no error
    and skips every target it is shown. *)
Definition renames_then_skips (fuel : nat) (ext pattern : string)
      (paths1 paths2 : list string) (self : App) (w : world) : Prop :=
  ∃ t1 lines w1,
    rename_loop fuel true ext pattern paths1 (Tally 0 0 0) self w
    = Some (t1, logged self lines, w1)
    ∧ count t1
      = Z.of_nat (length (filter (λ p, needs_prefix ext pattern w p = true) paths1))
    ∧ errors t1 = 0
    ∧ Forall2 (λ p line, ∃ target, line = renamed_line p target
                                   ∧ settled pattern (fs w1) target)
        (filter (λ p, needs_prefix ext pattern w p = true) paths1) lines
    ∧ rename_loop fuel true ext pattern paths2 (Tally 0 0 0) (logged self lines) w1
      = Some (Tally 0
                (Z.of_nat (length (filter (λ p, is_target (fs w1) ext p = true) paths2)))
                0, logged self lines, w1).

End Vocabulary.

Arguments inv_targets {_ _ _ _ _ _} _ _ _.
Arguments inv_start {_ _ _ _ _ _} _ _ _ _.

(** ** The worlds of the examples *)

Definition utc_platform : Platform := {|
  fromtimestamp := utc.fromtimestamp;
  strftime := utc.strftime;
  refuses := λ _ _ _, None
|}.

(** The file of the example: [photo.jpg], last modified 2024-03-05 14:30:00. *)
Definition w_photo : world :=
  World {[ "photo.jpg" := File 1709649000 ]} "/home/u" 1700000000.

(** A directory in which the name [a] and its first [n] numbered variants exist. *)
Fixpoint crowded (n : nat) : gmap string node :=
  match n with
  | O => {[ "a" := File 0 ]}
  | S k => <[ "a-" +:+ pretty (Z.of_nat (S k)) := File 0 ]> (crowded k)
  end.

(** A directory with four pictures, a subdirectory and a socket. *)
Definition fs_photos : gmap string node :=
  list_to_map
    [ ("d", Dir 10 true); ("d/sub", Dir 11 true);
      ("d/a.jpg", File 1709649000); ("d/b.JPG", File 1709649001);
      ("d/c.png", File 1709649002); ("d/e.jpeg", File 1709649003);
      ("d/sock.jpg", Special 12) ].

Definition en_photos : enumerator := {|
  walk := λ base_dir,
    [ (base_dir, ["sub"], ["a.jpg"; "b.JPG"; "c.png"; "e.jpeg"; "sock.jpg"]);
      (posixpath.join base_dir "sub", [], []) ];
  scandir := λ base_dir,
    ([ {| entry_name := "a.jpg"; entry_path := posixpath.join base_dir "a.jpg";
          entry_is_file := Ok true |};
       {| entry_name := "sub"; entry_path := posixpath.join base_dir "sub";
          entry_is_file := Ok false |};
       {| entry_name := "b.JPG"; entry_path := posixpath.join base_dir "b.JPG";
          entry_is_file := Ok true |};
       {| entry_name := "c.png"; entry_path := posixpath.join base_dir "c.png";
          entry_is_file := Ok true |};
       {| entry_name := "e.jpeg"; entry_path := posixpath.join base_dir "e.jpeg";
          entry_is_file := Ok true |};
       {| entry_name := "sock.jpg"; entry_path := posixpath.join base_dir "sock.jpg";
          entry_is_file := Ok false |} ], None)
|}.

(** A tree with a read-only directory. *)
Definition fs_mixed : gmap string node :=
  list_to_map
    [ ("top", Dir 1 true); ("top/ro", Dir 2 false); ("top/rw", Dir 3 true);
      ("top/ro/a.jpg", File 1709649000); ("top/rw/b.jpg", File 1709649000) ].

Definition en_mixed : enumerator := {|
  walk := λ base_dir,
    [ (base_dir, ["ro"; "rw"], []);
      (posixpath.join base_dir "ro", [], ["a.jpg"]);
      (posixpath.join base_dir "rw", [], ["b.jpg"]) ];
  scandir := λ base_dir, ([], None)
|}.

Definition app_mixed : App := {|
  dir_var := "top"; ext_var := "jpg"; pattern_var := "";
  recursive_var := true; skip_already_prefixed_var := true; log := []
|}.

Definition w_mixed : world := World fs_mixed "/home/u" 1700000000.

(** A directory with fifteen pictures. *)
Definition names_fifteen : list string :=
  (λ i, "f" +:+ utc.zfill 2 i +:+ ".jpg") <$> seqZ 1 15.

Definition fs_fifteen : gmap string node :=
  list_to_map
    (("p", Dir 1 true) :: ((λ name, ("p/" +:+ name, File 1709649000)) <$> names_fifteen)).

Definition en_fifteen : enumerator := {|
  walk := λ base_dir, [ (base_dir, [], names_fifteen) ];
  scandir := λ base_dir,
    ((λ name, {| entry_name := name; entry_path := posixpath.join base_dir name;
                 entry_is_file := Ok true |}) <$> names_fifteen, None)
|}.

Definition app_fifteen : App := {|
  dir_var := "p"; ext_var := ".JPG "; pattern_var := "%Y%m%d";
  recursive_var := false; skip_already_prefixed_var := true; log := []
|}.

Definition w_fifteen : world := World fs_fifteen "/home/u" 1700000000.

(** The listing of [d] after the first run over [fs_photos]. *)
Definition paths_photos_after : list string :=
  [ "d/2024-03-05-14-30-00_a.jpg"; "d/2024-03-05-14-30-01_b.JPG";
    "d/c.png"; "d/e.jpeg"; "d/sock.jpg" ].

(** A tree in which the pattern [%Y/%m] finds its directory. *)
Definition fs_sep : gmap string node :=
  list_to_map
    [ ("top", Dir 1 true); ("top/2024", Dir 2 true); ("top/a.jpg", File 1709649000) ].

Definition w_sep : world := World fs_sep "/home/u" 1700000000.

(** The same tree with a directory [2024] in the directory [2024]. *)
Definition w_sep_deep : world :=
  World (<[ "top/2024/2024" := Dir 3 true ]> fs_sep) "/home/u" 1700000000.

(** A directory that [os.path.isdir] accepts and [os.scandir] cannot open. *)
Definition en_unreadable : enumerator := {|
  walk := λ base_dir, [];
  scandir := λ base_dir, ([], Some (OSError 13 "Permission denied" base_dir None))
|}.

Definition app_flat : App := {|
  dir_var := "p"; ext_var := "jpg"; pattern_var := "";
  recursive_var := false; skip_already_prefixed_var := true; log := []
|}.

(** The fifteen pictures, and before them one whose modification time lies
    in the year 10000. *)
Definition w_far : world :=
  World (<[ "p/e00.jpg" := File 253402300800 ]> fs_fifteen) "/home/u" 1700000000.

Definition en_far : enumerator := {|
  walk := λ base_dir, [ (base_dir, [], "e00.jpg" :: names_fifteen) ];
  scandir := λ base_dir,
    ((λ name, {| entry_name := name; entry_path := posixpath.join base_dir name;
                 entry_is_file := Ok true |}) <$> "e00.jpg" :: names_fifteen, None)
|}.

(** A listing whose third entry cannot be examined. *)
Definition en_stale : enumerator := {|
  walk := λ base_dir, [];
  scandir := λ base_dir,
    ([ {| entry_name := "f01.jpg"; entry_path := posixpath.join base_dir "f01.jpg";
          entry_is_file := Ok true |};
       {| entry_name := "f02.jpg"; entry_path := posixpath.join base_dir "f02.jpg";
          entry_is_file := Ok true |};
       {| entry_name := "f03.jpg"; entry_path := posixpath.join base_dir "f03.jpg";
          entry_is_file :=
            Raise (OSError 116 "Stale file handle"
                     (posixpath.join base_dir "f03.jpg") None) |};
       {| entry_name := "f04.jpg"; entry_path := posixpath.join base_dir "f04.jpg";
          entry_is_file := Ok true |} ], None)
|}.

(** * Properties *)

Arguments posixpath.split : simpl never.
Arguments posixpath.splitext : simpl never.
Arguments posixpath.join : simpl never.
Arguments posixpath.basename : simpl never.
Arguments posixpath.normpath : simpl never.
Arguments posixpath.abspath : simpl never.
Arguments candidate : simpl never.
Arguments build_prefixed_name : simpl never.
Arguments should_skip_already_prefixed : simpl never.
Arguments pretty : simpl never.

(** ** Evaluations *)

Example split_ex1 : posixpath.split "dir/sub/photo.jpg" = ("dir/sub", "photo.jpg").
Proof. reflexivity. Qed.
Example split_ex2 : posixpath.split "/photo.jpg" = ("/", "photo.jpg").
Proof. reflexivity. Qed.
Example split_ex3 : posixpath.split "a//b" = ("a", "b").
Proof. reflexivity. Qed.
Example split_ex4 : posixpath.split "photo.jpg" = ("", "photo.jpg").
Proof. reflexivity. Qed.
Example splitext_ex1 : posixpath.splitext "a.b/photo.tar.gz" = ("a.b/photo.tar", ".gz").
Proof. reflexivity. Qed.
Example splitext_ex2 : posixpath.splitext "a.b/..bashrc" = ("a.b/..bashrc", "").
Proof. reflexivity. Qed.
Example splitext_ex3 : posixpath.splitext "a.b/c" = ("a.b/c", "").
Proof. reflexivity. Qed.
Example splitext_ex4 : posixpath.splitext "..x.y" = ("..x", ".y").
Proof. reflexivity. Qed.
Example normpath_ex1 : posixpath.normpath "/a/./b/../c//d/" = "/a/c/d".
Proof. reflexivity. Qed.
Example normpath_ex2 : posixpath.normpath "../../a/.." = "../..".
Proof. reflexivity. Qed.
Example normpath_ex3 : posixpath.normpath "//a/../.." = "//".
Proof. reflexivity. Qed.
Example abspath_ex1 : posixpath.abspath "/home/u" "d/../x.jpg" = "/home/u/x.jpg".
Proof. reflexivity. Qed.
Example strip_ex : pystr.strip "  .JPG " = ".JPG".
Proof. reflexivity. Qed.
Example lower_ex : pystr.lower ".JpG" = ".jpg".
Proof. reflexivity. Qed.

Example fromtimestamp_ex :
  utc.fromtimestamp 1709649000
  = Ok {| year := 2024; month := 3; day := 5; hour := 14; minute := 30; second := 0 |}.
Proof. reflexivity. Qed.

Example fromtimestamp_ex_last : is_ok (utc.fromtimestamp 253402300799) = true.
Proof. reflexivity. Qed.

Example fromtimestamp_ex_far :
  utc.fromtimestamp 253402300800 = Raise (ValueError "year 10000 is out of range").
Proof. vm_compute. reflexivity. Qed.

Example strftime_ex :
  @format_timestamp utc_platform 1709649000 DEFAULT_PATTERN = Ok "2024-03-05-14-30-00".
Proof. vm_compute. reflexivity. Qed.

(** ** Strings *)

Section StringFacts.
Implicit Types (s t p : string) (a c : ascii) (n : nat).

Lemma app_cons a s t : String a s +:+ t = String a (s +:+ t).
Proof. reflexivity. Qed.

Lemma app_nil_r s : s +:+ "" = s.
Proof. induction s as [|a s IH]; [done|]. by rewrite app_cons, IH. Qed.

Lemma app_assoc s t p : (s +:+ t) +:+ p = s +:+ t +:+ p.
Proof. induction s as [|a s IH]; [done|]. by rewrite !app_cons, IH. Qed.

Lemma length_app s t :
  String.length (s +:+ t) = (String.length s + String.length t)%nat.
Proof. induction s as [|a s IH]; [done|]. rewrite app_cons. simpl. by rewrite IH. Qed.

Lemma app_inv_tail s1 s2 t : s1 +:+ t = s2 +:+ t → s1 = s2.
Proof.
  revert s2. induction s1 as [|a s1 IH]; intros [|b s2] E.
  - done.
  - apply (f_equal String.length) in E.
    rewrite !length_app in E. simpl in E. lia.
  - apply (f_equal String.length) in E.
    rewrite !length_app in E. simpl in E. lia.
  - rewrite !app_cons in E. injection E as -> E. f_equal. by apply IH.
Qed.

Lemma take_app_length s t : pystr.take (String.length s) (s +:+ t) = s.
Proof. induction s as [|a s IH]; [by destruct t|]. rewrite app_cons. simpl. by rewrite IH. Qed.

Lemma drop_app_length s t : pystr.drop (String.length s) (s +:+ t) = t.
Proof. induction s as [|a s IH]; [by destruct t|]. by rewrite app_cons. Qed.

Lemma take_drop n s : pystr.take n s +:+ pystr.drop n s = s.
Proof.
  revert s. induction n as [|n IH]; intros [|a s]; try done.
  simpl. by rewrite app_cons, IH.
Qed.

Lemma take_app_ge n s t :
  (String.length s ≤ n)%nat →
  pystr.take n (s +:+ t) = s +:+ pystr.take (n - String.length s) t.
Proof.
  revert n. induction s as [|a s IH]; intros n Hn.
  - simpl. by rewrite Nat.sub_0_r.
  - destruct n as [|n]; simpl in Hn; [lia|].
    rewrite !app_cons. simpl. f_equal. apply IH. lia.
Qed.

Lemma contains_cons a s c :
  pystr.contains (String a s) c = Ascii.eqb a c || pystr.contains s c.
Proof. reflexivity. Qed.

Lemma contains_app s t c :
  pystr.contains (s +:+ t) c = pystr.contains s c || pystr.contains t c.
Proof.
  induction s as [|a s IH]; [done|].
  rewrite app_cons. simpl. rewrite IH. by rewrite orb_assoc.
Qed.

Lemma contains_take n s c :
  pystr.contains s c = false → pystr.contains (pystr.take n s) c = false.
Proof.
  revert s. induction n as [|n IH]; intros [|a s]; simpl; try done.
  intros [-> ?]%orb_false_iff. simpl. by apply IH.
Qed.

Lemma contains_drop n s c :
  pystr.contains s c = false → pystr.contains (pystr.drop n s) c = false.
Proof.
  revert s. induction n as [|n IH]; intros [|a s]; simpl; try done.
  intros [_ ?]%orb_false_iff. by apply IH.
Qed.

(** [startswith] and [endswith] name a prefix and a suffix. *)
Lemma startswith_app s p : pystr.startswith (p +:+ s) p = true.
Proof.
  induction p as [|b p IH]; [by destruct s|].
  rewrite app_cons. simpl. rewrite IH. by rewrite Ascii.eqb_refl.
Qed.

Lemma startswith_inv s p : pystr.startswith s p = true → ∃ r, s = p +:+ r.
Proof.
  revert s. induction p as [|b p IH]; intros s Hs.
  - by exists s.
  - destruct s as [|a s]; [done|]. simpl in Hs.
    apply andb_true_iff in Hs as [Hab Hs].
    apply Ascii.eqb_eq in Hab as ->.
    destruct (IH _ Hs) as [r ->]. by exists r.
Qed.

Lemma startswith_iff s p : pystr.startswith s p = true ↔ ∃ r, s = p +:+ r.
Proof.
  split; [apply startswith_inv|]. intros [r ->]. apply startswith_app.
Qed.

Lemma startswith_app_l s t p :
  pystr.startswith s p = true → pystr.startswith (s +:+ t) p = true.
Proof.
  intros [r ->]%startswith_inv. rewrite app_assoc. apply startswith_app.
Qed.

Lemma startswith_sep_contains s c :
  pystr.startswith s (String c "") = true → pystr.contains s c = true.
Proof.
  intros [r ->]%startswith_inv. rewrite app_cons. simpl.
  by rewrite Ascii.eqb_refl.
Qed.

Lemma endswith_app s p : pystr.endswith (s +:+ p) p = true.
Proof.
  unfold pystr.endswith. rewrite length_app.
  apply andb_true_iff; split; [apply Nat.leb_le; lia|].
  replace (String.length s + String.length p - String.length p)%nat
    with (String.length s) by lia.
  rewrite drop_app_length. apply String.eqb_refl.
Qed.

Lemma endswith_inv s p : pystr.endswith s p = true → ∃ h, s = h +:+ p.
Proof.
  unfold pystr.endswith. intros [_ E%String.eqb_eq]%andb_true_iff.
  exists (pystr.take (String.length s - String.length p) s).
  pose proof (take_drop (String.length s - String.length p) s) as T.
  by rewrite E in T.
Qed.

Lemma times_snoc c n : pystr.times c n +:+ String c "" = pystr.times c (S n).
Proof. induction n as [|n IH]; [done|]. simpl. rewrite app_cons. by rewrite IH. Qed.

End StringFacts.

Section IndexFacts.
Implicit Types (s t p h : string) (a c : ascii) (n : nat) (i : Z).

Lemma len_app s t : pystr.len (s +:+ t) = pystr.len s + pystr.len t.
Proof. unfold pystr.len. rewrite length_app. lia. Qed.

Lemma len_nonneg s : 0 ≤ pystr.len s.
Proof. unfold pystr.len. lia. Qed.

Lemma clip_inside s i : 0 ≤ i ≤ pystr.len s → pystr.clip s i = Z.to_nat i.
Proof.
  intros Hi. unfold pystr.clip.
  destruct (Z.ltb_spec i 0); [lia|]. f_equal. lia.
Qed.

Lemma upto_app s t : pystr.upto (s +:+ t) (pystr.len s) = s.
Proof.
  unfold pystr.upto. rewrite clip_inside.
  - unfold pystr.len. rewrite Nat2Z.id. apply take_app_length.
  - rewrite len_app. pose proof (len_nonneg s). pose proof (len_nonneg t). lia.
Qed.

Lemma from_app s t : pystr.from (s +:+ t) (pystr.len s) = t.
Proof.
  unfold pystr.from. rewrite clip_inside.
  - unfold pystr.len. rewrite Nat2Z.id. apply drop_app_length.
  - rewrite len_app. pose proof (len_nonneg s). pose proof (len_nonneg t). lia.
Qed.

Lemma upto_0 s : pystr.upto s 0 = "".
Proof. unfold pystr.upto, pystr.clip. simpl. by destruct s. Qed.

Lemma from_0 s : pystr.from s 0 = s.
Proof. unfold pystr.from, pystr.clip. simpl. by destruct s. Qed.

Lemma upto_from s i : pystr.upto s i +:+ pystr.from s i = s.
Proof. apply take_drop. Qed.

Lemma rfind_lower s c : -1 ≤ pystr.rfind s c.
Proof.
  induction s as [|a s IH]; simpl; [lia|].
  destruct (Z.leb_spec 0 (pystr.rfind s c)); [lia|].
  destruct (Ascii.eqb a c); lia.
Qed.

Lemma rfind_upper s c : pystr.rfind s c < pystr.len s.
Proof.
  unfold pystr.len. induction s as [|a s IH]; simpl; [lia|].
  destruct (Z.leb_spec 0 (pystr.rfind s c)); [lia|].
  destruct (Ascii.eqb a c); lia.
Qed.

Lemma rfind_none s c : pystr.contains s c = false → pystr.rfind s c = -1.
Proof.
  induction s as [|a s IH]; simpl; [done|].
  intros [-> Hs]%orb_false_iff. by rewrite (IH Hs).
Qed.

Lemma rfind_some s c : pystr.contains s c = true → 0 ≤ pystr.rfind s c.
Proof.
  induction s as [|a s IH]; simpl; [done|].
  destruct (Z.leb_spec 0 (pystr.rfind s c)); [lia|].
  destruct (Ascii.eqb a c); simpl; [lia|]. intros Hs. specialize (IH Hs). lia.
Qed.

Lemma rfind_app_r s t c :
  pystr.contains t c = true →
  pystr.rfind (s +:+ t) c = pystr.len s + pystr.rfind t c.
Proof.
  intros Ht. pose proof (rfind_some _ _ Ht) as H0.
  unfold pystr.len. induction s as [|a s IH].
  { change ("" +:+ t) with t. simpl. lia. }
  rewrite app_cons. simpl pystr.rfind. rewrite IH.
  destruct (Z.leb_spec 0 (Z.of_nat (String.length s) + pystr.rfind t c)); [|lia].
  simpl String.length. lia.
Qed.

Lemma rfind_app_l s t c :
  pystr.contains t c = false → pystr.rfind (s +:+ t) c = pystr.rfind s c.
Proof.
  intros Ht. induction s as [|a s IH].
  { change ("" +:+ t) with t. simpl. by apply rfind_none. }
  rewrite app_cons. simpl. by rewrite IH.
Qed.

Lemma rfind_last h t c :
  pystr.contains t c = false → pystr.rfind (h +:+ String c t) c = pystr.len h.
Proof.
  intros Ht. rewrite rfind_app_r by (simpl; by rewrite Ascii.eqb_refl).
  simpl. rewrite (rfind_none _ _ Ht). simpl. rewrite Ascii.eqb_refl. lia.
Qed.

(** The last occurrence of [c] cuts a string in two. *)
Lemma rfind_cut s c :
  pystr.contains s c = true →
  ∃ h t, s = h +:+ String c t ∧ pystr.contains t c = false.
Proof.
  induction s as [|a s IH]; [done|]. simpl.
  destruct (pystr.contains s c) eqn:Hs.
  - intros _. destruct (IH eq_refl) as (h & t & -> & Ht).
    exists (String a h), t. by rewrite app_cons.
  - rewrite orb_false_r. intros ->%Ascii.eqb_eq. by exists "", s.
Qed.

End IndexFacts.

Section StripFacts.
Implicit Types (s t : string) (a c : ascii) (f : ascii → bool).

Lemma rstrip_by_length f s :
  (String.length (pystr.rstrip_by f s) ≤ String.length s)%nat.
Proof.
  induction s as [|a s IH]; simpl; [done|].
  destruct (String.eqb _ "" && f a); simpl; lia.
Qed.

Lemma rstrip_by_app_drop f s t :
  pystr.rstrip_by f t = "" → pystr.rstrip_by f (s +:+ t) = pystr.rstrip_by f s.
Proof.
  intros Ht. induction s as [|a s IH]; [done|].
  rewrite app_cons. simpl. by rewrite IH.
Qed.

Lemma rstrip_by_idem f s :
  pystr.rstrip_by f (pystr.rstrip_by f s) = pystr.rstrip_by f s.
Proof.
  induction s as [|a s IH]; simpl; [done|].
  destruct (String.eqb_spec (pystr.rstrip_by f s) "") as [E|NE]; simpl.
  - destruct (f a) eqn:Fa; simpl; [done|]. rewrite E. simpl. by rewrite Fa.
  - rewrite IH. by destruct (String.eqb_spec (pystr.rstrip_by f s) "").
Qed.

Lemma rstrip_fixed_endswith s c :
  pystr.rstrip s c = s → s ≠ "" → pystr.endswith s (String c "") = false.
Proof.
  intros Hs Hne. destruct (pystr.endswith s (String c "")) eqn:E; [|done].
  apply endswith_inv in E as [h ->]. exfalso.
  unfold pystr.rstrip in Hs. rewrite rstrip_by_app_drop in Hs.
  - pose proof (rstrip_by_length (Ascii.eqb c) h) as L.
    rewrite Hs, length_app in L. simpl in L. lia.
  - simpl. by rewrite Ascii.eqb_refl.
Qed.

End StripFacts.

(** ** Paths *)

Section PathFacts.
Implicit Types (p h t d name : string).

Lemma split_nosep p : nosep p → posixpath.split p = ("", p).
Proof.
  intros Hp. unfold posixpath.split. rewrite (rfind_none _ _ Hp).
  change (-1 + 1) with 0. by rewrite upto_0, from_0.
Qed.

Lemma split_sep h t :
  nosep t → posixpath.split (h +:+ "/" +:+ t) = (split_head (h +:+ "/"), t).
Proof.
  intros Ht. unfold posixpath.split.
  change (h +:+ "/" +:+ t) with (h +:+ String posixpath.sep t).
  rewrite (rfind_last _ _ _ Ht).
  change (h +:+ String posixpath.sep t) with (h +:+ "/" +:+ t).
  rewrite <-app_assoc.
  replace (pystr.len h + 1) with (pystr.len (h +:+ "/"))
    by (rewrite len_app; reflexivity).
  by rewrite upto_app, from_app.
Qed.

Lemma basename_nosep p : nosep p → posixpath.basename p = p.
Proof.
  intros Hp. unfold posixpath.basename. rewrite (rfind_none _ _ Hp).
  change (-1 + 1) with 0. by rewrite from_0.
Qed.

Lemma basename_sep h t : nosep t → posixpath.basename (h +:+ "/" +:+ t) = t.
Proof.
  intros Ht. pose proof (split_sep h t Ht) as E.
  by apply (f_equal snd) in E.
Qed.

Lemma split_snd p : (posixpath.split p).2 = posixpath.basename p.
Proof. reflexivity. Qed.

(** Every path is a directory text followed by a name without separator. *)
Lemma path_cut p :
  (nosep p) ∨ ∃ h t, p = h +:+ "/" +:+ t ∧ nosep t.
Proof.
  destruct (pystr.contains p posixpath.sep) eqn:E; [right|by left].
  destruct (rfind_cut _ _ E) as (h & t & -> & Ht). by exists h, t.
Qed.

Lemma basename_nosep_result p : nosep (posixpath.basename p).
Proof.
  destruct (path_cut p) as [Hp|(h & t & -> & Ht)].
  - by rewrite basename_nosep.
  - by rewrite basename_sep.
Qed.

Lemma basename_app p t :
  nosep t → posixpath.basename (p +:+ t) = posixpath.basename p +:+ t.
Proof.
  intros Ht. destruct (path_cut p) as [Hp|(h & r & -> & Hr)].
  - rewrite (basename_nosep p Hp). apply basename_nosep.
    rewrite contains_app. by rewrite Hp, Ht.
  - rewrite (basename_sep h r Hr). rewrite !app_assoc.
    apply basename_sep. rewrite contains_app. by rewrite Hr, Ht.
Qed.

Lemma split_head_is_head h : is_head (split_head h).
Proof.
  unfold split_head, is_head.
  destruct (String.eqb_spec h "") as [->|Hne]; simpl; [by left|].
  destruct (String.eqb_spec h (pystr.times posixpath.sep (String.length h)))
    as [E|_]; simpl; [by left|].
  right. apply rstrip_by_idem.
Qed.

Lemma split_fst_is_head p : is_head (posixpath.split p).1.
Proof.
  destruct (path_cut p) as [Hp|(h & t & -> & Ht)].
  - rewrite (split_nosep p Hp). by left.
  - rewrite (split_sep h t Ht). apply split_head_is_head.
Qed.

Lemma nosep_startswith name : nosep name → pystr.startswith name "/" = false.
Proof.
  intros Hn. destruct (pystr.startswith name "/") eqn:E; [|done].
  apply (startswith_sep_contains name posixpath.sep) in E. congruence.
Qed.

End PathFacts.

Section JoinFacts.
Implicit Types (p h t d name : string).

Lemma join_relative d name :
  pystr.startswith name "/" = false →
  posixpath.join d name = join_prefix d +:+ name.
Proof.
  intros Hn. unfold posixpath.join, join_prefix. rewrite Hn.
  destruct (String.eqb d "" || pystr.endswith d "/"); [done|].
  by rewrite app_assoc.
Qed.

Lemma join_prefix_shape d :
  join_prefix d = "" ∨ ∃ h, join_prefix d = h +:+ "/".
Proof.
  unfold join_prefix.
  destruct (String.eqb_spec d "") as [->|Hne]; simpl; [by left|].
  destruct (pystr.endswith d "/") eqn:E; right.
  - by apply endswith_inv in E.
  - by exists d.
Qed.

Lemma basename_prefixed h name :
  (h = "" ∨ ∃ h', h = h' +:+ "/") →
  posixpath.basename (h +:+ name) = posixpath.basename name.
Proof.
  intros [->|[h' ->]]; [done|].
  destruct (path_cut name) as [Hn|(k & t & -> & Ht)].
  - rewrite app_assoc, (basename_sep h' name Hn). by rewrite basename_nosep.
  - rewrite (basename_sep k t Ht).
    rewrite <-(app_assoc (h' +:+ "/") k). by apply basename_sep.
Qed.

Lemma basename_join d name :
  posixpath.basename (posixpath.join d name) = posixpath.basename name.
Proof.
  destruct (pystr.startswith name "/") eqn:E.
  - unfold posixpath.join. by rewrite E.
  - rewrite (join_relative d name E).
    apply basename_prefixed, join_prefix_shape.
Qed.

Lemma times_sep_endswith n :
  pystr.endswith (pystr.times posixpath.sep (S n)) "/" = true.
Proof. rewrite <-times_snoc. apply endswith_app. Qed.

Lemma split_join d name :
  is_head d → nosep name → posixpath.split (posixpath.join d name) = (d, name).
Proof.
  intros Hd Hn. rewrite (join_relative d name (nosep_startswith name Hn)).
  unfold join_prefix.
  destruct (String.eqb_spec d "") as [->|Hne]; simpl.
  { by apply split_nosep. }
  destruct (String.eqb_spec d (pystr.times posixpath.sep (String.length d)))
    as [E|NE].
  - destruct (String.length d) as [|n] eqn:L; [by destruct d|].
    assert (pystr.endswith d "/" = true) as ->
      by (rewrite E; apply times_sep_endswith).
    assert (d = pystr.times posixpath.sep n +:+ "/") as Hd'
      by (rewrite times_snoc; exact E).
    rewrite Hd' at 1. rewrite app_assoc, (split_sep _ name Hn). f_equal.
    rewrite <-Hd'. unfold split_head.
    rewrite L, <-E, String.eqb_refl. by rewrite andb_false_r.
  - destruct Hd as [Hd|Hd]; [done|].
    assert (pystr.endswith d "/" = false) as ->
      by exact (rstrip_fixed_endswith d posixpath.sep Hd Hne).
    rewrite app_assoc, (split_sep d name Hn). f_equal.
    unfold split_head.
    destruct (String.eqb_spec (d +:+ "/") "") as [E0|_].
    { by destruct d. }
    destruct (String.eqb_spec (d +:+ "/")
                (pystr.times posixpath.sep (String.length (d +:+ "/")))) as [E1|_].
    + exfalso. rewrite length_app in E1. simpl in E1.
      rewrite Nat.add_1_r, <-times_snoc in E1.
      apply app_inv_tail in E1. contradiction.
    + simpl. unfold pystr.rstrip. by rewrite rstrip_by_app_drop.
Qed.

End JoinFacts.

(** ** Decimal numbers *)

Section DecimalFacts.

Lemma pretty_N_go_contains x s c :
  not_digit c →
  pystr.contains (pretty_N_go x s) c = pystr.contains s c.
Proof.
  intros Hc. revert s.
  induction (N.lt_wf_0 x) as [x _ IH]; intros s.
  destruct (decide (x = 0)%N) as [->|Hx].
  - by rewrite pretty_N_go_0.
  - rewrite pretty_N_go_step by lia.
    rewrite IH by (apply N.div_lt; lia).
    simpl. by rewrite Hc.
Qed.

Lemma pretty_N_contains (x : N) c :
  not_digit c → pystr.contains (pretty x) c = false.
Proof.
  intros Hc. unfold pretty, pretty_N. case_decide.
  - simpl. specialize (Hc 0%N). simpl in Hc. by rewrite Hc.
  - by rewrite pretty_N_go_contains.
Qed.

Lemma pretty_Z_contains (x : Z) c :
  not_digit c → c ≠ "-"%char → pystr.contains (pretty x) c = false.
Proof.
  intros Hc Hm. destruct x as [|q|q].
  - change (pretty 0) with "0". simpl.
    specialize (Hc 0%N). simpl in Hc. by rewrite Hc.
  - change (pretty (Z.pos q)) with (pretty (N.pos q)).
    by apply pretty_N_contains.
  - change (pretty (Z.neg q)) with (String "-" (pretty (N.pos q))).
    rewrite contains_cons, (pretty_N_contains (N.pos q) c Hc).
    destruct (Ascii.eqb_spec "-" c); [congruence|done].
Qed.

Lemma sep_not_digit : not_digit posixpath.sep.
Proof. intros n. unfold pretty_N_char. by repeat case_match. Qed.

Lemma pretty_nosep (i : Z) : nosep (pretty i).
Proof. apply pretty_Z_contains; [apply sep_not_digit|done]. Qed.

End DecimalFacts.

(** ** The loop of [ensure_unique_path] *)

Section Unique.
Implicit Types (fs : gmap string node) (d stem ext r : string) (i j k : Z).

Lemma path_exists_dom fs p : os.path_exists fs p = true → p ∈ dom fs.
Proof.
  unfold os.path_exists. rewrite elem_of_dom.
  destruct (fs !! p) as [n|]; [by eauto|done].
Qed.

Lemma startswith_char_app s t c :
  s ≠ "" → pystr.startswith (s +:+ t) (String c "") = pystr.startswith s (String c "").
Proof.
  intros Hs. destruct s as [|a s]; [done|]. by rewrite app_cons.
Qed.

(** Every candidate is one fixed text, the number, and the extension. *)
Lemma candidate_form d stem ext :
  ∃ P, ∀ i, candidate d stem ext i = P +:+ pretty i +:+ ext.
Proof.
  assert (stem +:+ "-" ≠ "") as Hne by (by destruct stem).
  destruct (pystr.startswith (stem +:+ "-") "/") eqn:B.
  - exists (stem +:+ "-"). intros i. unfold candidate, posixpath.join.
    rewrite <-(app_assoc stem "-").
    rewrite (startswith_char_app _ _ _ Hne), B. by rewrite ?app_assoc.
  - exists (join_prefix d +:+ stem +:+ "-"). intros i. unfold candidate.
    rewrite join_relative.
    + by rewrite !app_assoc.
    + rewrite <-(app_assoc stem "-").
      by rewrite (startswith_char_app _ _ _ Hne).
Qed.

Lemma candidate_inj d stem ext i j :
  candidate d stem ext i = candidate d stem ext j → i = j.
Proof.
  destruct (candidate_form d stem ext) as [P HP]. rewrite !HP.
  intros E%(inj (String.app P))%app_inv_tail.
  by apply (inj pretty).
Qed.

Lemma loop_sound fuel fs d stem ext i r :
  ensure_unique_loop fuel fs d stem ext i = Some r →
  ∃ j, i ≤ j < i + Z.of_nat fuel ∧ r = candidate d stem ext j
       ∧ os.path_exists fs r = false
       ∧ ∀ k, i ≤ k < j → os.path_exists fs (candidate d stem ext k) = true.
Proof.
  revert i. induction fuel as [|fuel IH]; intros i; simpl; [done|].
  destruct (os.path_exists fs (candidate d stem ext i)) eqn:E; simpl.
  - intros (j & Hj & -> & Hfree & Hbusy)%IH.
    exists j. repeat split; [lia|lia|done|].
    intros k Hk. destruct (decide (k = i)) as [->|]; [done|].
    apply Hbusy. lia.
  - intros [= <-]. exists i. repeat split; [lia|lia|done|]. intros k; lia.
Qed.

Lemma loop_none fuel fs d stem ext i :
  ensure_unique_loop fuel fs d stem ext i = None →
  ∀ k, i ≤ k < i + Z.of_nat fuel →
       os.path_exists fs (candidate d stem ext k) = true.
Proof.
  revert i. induction fuel as [|fuel IH]; intros i; simpl; [lia|].
  destruct (os.path_exists fs (candidate d stem ext i)) eqn:E; simpl; [|done].
  intros Hn k Hk. destruct (decide (k = i)) as [->|]; [done|].
  apply (IH _ Hn). lia.
Qed.

(** The loop returns before it has probed more names than there are
    paths in the file system. *)
Lemma loop_total fuel fs d stem ext i :
  (size fs < fuel)%nat → is_Some (ensure_unique_loop fuel fs d stem ext i).
Proof.
  intros Hfuel.
  destruct (ensure_unique_loop fuel fs d stem ext i) eqn:E; [by eauto|].
  exfalso. pose proof (loop_none _ _ _ _ _ _ E) as Hbusy.
  set (names := candidate d stem ext <$> seqZ i (Z.of_nat fuel)).
  assert (NoDup names) as Hnd.
  { apply NoDup_fmap_2; [|apply NoDup_seqZ].
    intros ?? ?. by eapply candidate_inj. }
  assert ((list_to_set names : gset string) ⊆ dom fs) as Hsub.
  { intros p [k [-> Hk]]%elem_of_list_to_set%list_elem_of_fmap.
    apply path_exists_dom, Hbusy. apply elem_of_seqZ in Hk. lia. }
  apply subseteq_size in Hsub.
  rewrite size_list_to_set, size_dom in Hsub by done.
  unfold names in Hsub. rewrite length_fmap, length_seqZ in Hsub. lia.
Qed.

Lemma loop_more_fuel fuel fuel' fs d stem ext i r :
  ensure_unique_loop fuel fs d stem ext i = Some r → (fuel ≤ fuel')%nat →
  ensure_unique_loop fuel' fs d stem ext i = Some r.
Proof.
  revert fuel' i. induction fuel as [|fuel IH]; intros fuel' i; simpl; [done|].
  intros Hr Hle. destruct fuel' as [|fuel']; [lia|]. simpl.
  destruct (os.path_exists fs (candidate d stem ext i)); simpl in *; [|done].
  apply IH; [done|lia].
Qed.

End Unique.

(** ** The platform [utc] *)

Lemma utc_directive_uniform d d' c :
  is_Some (utc.directive d c) → is_Some (utc.directive d' c).
Proof.
  destruct c as [[] [] [] [] [] [] [] []]; simpl; intros [? ?]; by eauto.
Qed.

Lemma utc_strftime_uniform d d' pattern :
  is_ok (utc.strftime d pattern) = true → is_ok (utc.strftime d' pattern) = true.
Proof.
  remember (String.length pattern) as n eqn:Hn.
  revert pattern Hn. induction (lt_wf n) as [n _ IH]; intros pattern ->.
  destruct pattern as [|a rest]; [done|]. simpl.
  destruct (Ascii.eqb a "%").
  - destruct rest as [|c rest']; [done|].
    destruct (utc.directive d c) as [s|] eqn:Hd; [|done].
    destruct (utc_directive_uniform d d' c) as [s' ->]; [by rewrite Hd|].
    destruct (utc.strftime d rest') eqn:E; [|done]. intros _.
    assert (is_ok (utc.strftime d' rest') = true) as Hok.
    { eapply (IH (String.length rest')); [simpl; lia|done|by rewrite E]. }
    by destruct (utc.strftime d' rest').
  - destruct (utc.strftime d rest) eqn:E; [|done]. intros _.
    assert (is_ok (utc.strftime d' rest) = true) as Hok.
    { eapply (IH (String.length rest)); [simpl; lia|done|by rewrite E]. }
    by destruct (utc.strftime d' rest).
Qed.

Lemma utc_uniform : @Uniform utc_platform.
Proof. exact utc_strftime_uniform. Qed.

(** ** Collision resolution *)

Section UniquePath.
Implicit Types (fs : gmap string node).

Lemma ensure_unique_path_total fuel fs target_path :
  (size fs < fuel)%nat → is_Some (ensure_unique_path fuel fs target_path).
Proof.
  intros Hfuel. unfold ensure_unique_path.
  destruct (os.path_exists fs target_path); cbn [negb]; [|by eauto].
  destruct (posixpath.split target_path) as [directory filename].
  destruct (posixpath.splitext filename) as [stem ext].
  by apply loop_total.
Qed.

Lemma ensure_unique_path_free fuel fs target_path r :
  ensure_unique_path fuel fs target_path = Some r → os.path_exists fs r = false.
Proof.
  unfold ensure_unique_path.
  destruct (os.path_exists fs target_path) eqn:E; cbn [negb].
  - destruct (posixpath.split target_path) as [directory filename].
    destruct (posixpath.splitext filename) as [stem ext].
    by intros (j & _ & _ & Hfree & _)%loop_sound.
  - by intros [= <-].
Qed.

Lemma ensure_unique_path_more_fuel fuel fuel' fs target_path r :
  ensure_unique_path fuel fs target_path = Some r → (fuel ≤ fuel')%nat →
  ensure_unique_path fuel' fs target_path = Some r.
Proof.
  unfold ensure_unique_path.
  destruct (os.path_exists fs target_path); cbn [negb]; [|done].
  destruct (posixpath.split target_path) as [directory filename].
  destruct (posixpath.splitext filename) as [stem ext].
  apply loop_more_fuel.
Qed.

(** The loop returns the candidate after [m] taken ones, and not before. *)
Lemma loop_exact (m : nat) fs d stem ext i :
  (∀ k, i ≤ k < i + Z.of_nat m →
        os.path_exists fs (candidate d stem ext k) = true) →
  os.path_exists fs (candidate d stem ext (i + Z.of_nat m)) = false →
  ensure_unique_loop m fs d stem ext i = None
  ∧ ensure_unique_loop (S m) fs d stem ext i
    = Some (candidate d stem ext (i + Z.of_nat m)).
Proof.
  revert i. induction m as [|m IH]; intros i Hbusy Hfree.
  - simpl. rewrite Z.add_0_r in Hfree. rewrite Hfree. simpl.
    by rewrite Z.add_0_r.
  - destruct (IH (i + 1)) as [IH1 IH2].
    { intros k Hk. apply Hbusy. lia. }
    { replace (i + 1 + Z.of_nat m) with (i + Z.of_nat (S m)) by lia. done. }
    assert (os.path_exists fs (candidate d stem ext i) = true) as Hi
      by (apply Hbusy; lia).
    split.
    + simpl. by rewrite Hi.
    + change (ensure_unique_loop (S (S m)) fs d stem ext i)
        with (if negb (os.path_exists fs (candidate d stem ext i))
              then Some (candidate d stem ext i)
              else ensure_unique_loop (S m) fs d stem ext (i + 1)).
      rewrite Hi. simpl negb. cbv iota. rewrite IH2. do 2 f_equal. lia.
Qed.

End UniquePath.

Lemma crowded_exists (n : nat) (k : Z) :
  os.path_exists (crowded n) ("a-" +:+ pretty k) = true ↔ 1 ≤ k ≤ Z.of_nat n.
Proof.
  induction n as [|n IH].
  - unfold os.path_exists. simpl crowded.
    rewrite lookup_singleton_ne; [split; [done|lia]|].
    intros E. apply (f_equal String.length) in E. simpl in E. lia.
  - unfold os.path_exists in *. simpl crowded.
    destruct (decide (k = Z.of_nat (S n))) as [->|Hk].
    + rewrite lookup_insert_eq. split; [lia|done].
    + rewrite lookup_insert_ne.
      * rewrite IH. lia.
      * intros E%(inj (String.app "a-")). by apply (inj pretty) in E.
Qed.

Lemma crowded_files (n : nat) p x : crowded n !! p = Some x → x = File 0.
Proof.
  induction n as [|n IH]; simpl crowded.
  - by intros [_ <-]%lookup_singleton_Some.
  - intros [[_ <-]|[_ ?]]%lookup_insert_Some; [done|by apply IH].
Qed.

Lemma crowded_size (n : nat) : size (crowded n) = S n.
Proof.
  induction n as [|n IH]; [apply map_size_singleton|].
  simpl crowded. rewrite map_size_insert_None; [by rewrite IH|].
  pose proof (crowded_exists n (Z.of_nat (S n))) as E.
  unfold os.path_exists in E.
  destruct (crowded n !! ("a-" +:+ pretty (Z.of_nat (S n)))) as [x|] eqn:L; [|done].
  apply crowded_files in L as ->.
  destruct E as [E _]. specialize (E eq_refl). lia.
Qed.

(** C1: [ensure_unique_path] returns the candidate path unchanged when
    nothing exists at it; otherwise it returns the first of
    [<stem>-1<ext>], [<stem>-2<ext>], ... (in the directory of the
    candidate) at which nothing exists; the path it returns never exists.
    For [photo.jpg] of 2024-03-05 14:30:00 and the default pattern the
    name is [2024-03-05-14-30-00_photo.jpg], and
    [2024-03-05-14-30-00_photo-1.jpg] when that one is taken. *)
Theorem ensure_unique_path_first_free :
  (∀ (fuel : nat) (fs : gmap string node) (target_path : string),
     (size fs < fuel)%nat →
     ∃ r, ensure_unique_path fuel fs target_path = Some r
        ∧ os.path_exists fs r = false
        ∧ (os.path_exists fs target_path = false → r = target_path)
        ∧ (os.path_exists fs target_path = true →
           ∃ i, 1 ≤ i
              ∧ r = posixpath.join (posixpath.split target_path).1
                      ((posixpath.splitext (posixpath.split target_path).2).1
                       +:+ "-" +:+ pretty i
                       +:+ (posixpath.splitext (posixpath.split target_path).2).2)
              ∧ ∀ k, 1 ≤ k < i →
                  os.path_exists fs
                    (posixpath.join (posixpath.split target_path).1
                       ((posixpath.splitext (posixpath.split target_path).2).1
                        +:+ "-" +:+ pretty k
                        +:+ (posixpath.splitext (posixpath.split target_path).2).2))
                  = true))
  ∧ @get_modification_prefix utc_platform w_photo "photo.jpg" "%Y-%m-%d-%H-%M-%S"
    = Ok "2024-03-05-14-30-00"
  ∧ ensure_unique_path 2 (fs w_photo)
      (build_prefixed_name "photo.jpg" "2024-03-05-14-30-00")
    = Some "2024-03-05-14-30-00_photo.jpg"
  ∧ ensure_unique_path 3
      (<[ "2024-03-05-14-30-00_photo.jpg" := File 1600000000 ]> (fs w_photo))
      (build_prefixed_name "photo.jpg" "2024-03-05-14-30-00")
    = Some "2024-03-05-14-30-00_photo-1.jpg".
Proof.
  split; [|by vm_compute].
  intros fuel fs target_path Hfuel.
  destruct (ensure_unique_path_total fuel fs target_path Hfuel) as [r Hr].
  exists r. split; [done|]. split; [by eapply ensure_unique_path_free|].
  unfold ensure_unique_path in Hr.
  destruct (os.path_exists fs target_path) eqn:E; cbn [negb] in Hr.
  - split; [done|]. intros _.
    destruct (posixpath.split target_path) as [directory filename].
    cbn [fst snd].
    destruct (posixpath.splitext filename) as [stem ext]. cbn [fst snd].
    apply loop_sound in Hr as (j & Hj & -> & _ & Hbusy).
    exists j. split; [lia|]. split; [done|].
    intros k Hk. by apply Hbusy.
  - injection Hr as <-. split; [done|]. intros ?. congruence.
Qed.

Lemma ensure_unique_path_first_free_witness :
  (size (<[ "b.txt" := File 7 ]> ({[ "a.txt" := File 5 ]} : gmap string node)) < 3)%nat
  ∧ ∃ r, ensure_unique_path 3 (<[ "b.txt" := File 7 ]> {[ "a.txt" := File 5 ]}) "a.txt"
         = Some r
       ∧ os.path_exists (<[ "b.txt" := File 7 ]> {[ "a.txt" := File 5 ]}) r = false.
Proof.
  assert (size (<[ "b.txt" := File 7 ]> ({[ "a.txt" := File 5 ]} : gmap string node)) < 3)%nat
    as Hsize by (vm_compute; lia).
  split; [exact Hsize|].
  destruct (proj1 ensure_unique_path_first_free 3%nat _ "a.txt" Hsize)
    as (r & Hr & Hfree & _).
  exists r. by split.
Defined.

(** C9: the loop of [ensure_unique_path] terminates: after more probes
    than there are paths in the file system it has returned, whatever the
    candidate; and the counter has no bound of its own: with [n] numbered
    variants taken (a file system of [n + 1] paths) the loop is still
    running after [n] probes and returns the suffix [n + 1]. *)
Theorem ensure_unique_path_terminates :
  (∀ (fs : gmap string node) (target_path : string),
     ∃ r, ∀ fuel : nat, (size fs < fuel)%nat →
          ensure_unique_path fuel fs target_path = Some r)
  ∧ (∀ n : nat,
       size (crowded n) = S n
       ∧ ensure_unique_path n (crowded n) "a" = None
       ∧ ensure_unique_path (S n) (crowded n) "a"
         = Some ("a-" +:+ pretty (Z.of_nat n + 1))).
Proof.
  split.
  - intros fs target_path.
    destruct (ensure_unique_path_total (S (size fs)) fs target_path) as [r Hr]; [lia|].
    exists r. intros fuel Hfuel.
    eapply ensure_unique_path_more_fuel; [exact Hr|lia].
  - intros n. split; [apply crowded_size|].
    assert (∀ k, candidate "" "a" "" k = "a-" +:+ pretty k) as Hc.
    { intros k. unfold candidate. rewrite join_relative by done.
      change (join_prefix "") with "". by rewrite app_nil_r. }
    assert (os.path_exists (crowded n) "a" = true) as Ha.
    { clear. induction n as [|n IH]; [done|].
      unfold os.path_exists in *. simpl crowded.
      rewrite lookup_insert_ne; [done|].
      intros E. apply (f_equal String.length) in E.
      change ("a-" +:+ pretty (Z.of_nat (S n)))
        with (String "a" (String "-" (pretty (Z.of_nat (S n))))) in E.
      simpl in E. lia. }
    destruct (loop_exact n (crowded n) "" "a" "" 1) as [E1 E2].
    { intros k Hk. rewrite Hc. apply crowded_exists. lia. }
    { rewrite Hc.
      destruct (os.path_exists (crowded n) ("a-" +:+ pretty (1 + Z.of_nat n)))
        eqn:E; [|done].
      apply crowded_exists in E. lia. }
    unfold ensure_unique_path. rewrite Ha. cbn [negb].
    change (posixpath.split "a") with ("", "a"). cbv iota.
    change (posixpath.splitext "a") with ("a", "").
    cbv iota. rewrite E1, E2, Hc. split; [done|].
    by replace (1 + Z.of_nat n) with (Z.of_nat n + 1) by lia.
Qed.

Lemma ensure_unique_path_terminates_witness :
  (size (crowded 2) < 4)%nat
  ∧ ∃ r, ensure_unique_path 4 (crowded 2) "a" = Some r.
Proof.
  assert (size (crowded 2) < 4)%nat as Hsize by (vm_compute; lia).
  split; [exact Hsize|].
  destruct (proj1 ensure_unique_path_terminates (crowded 2) "a") as [r Hr].
  exists r. by apply Hr.
Defined.

(** ** The skip rule and the new name *)

(** C4: [should_skip_already_prefixed] is true exactly when the file name
    starts with the prefix followed by one underscore; it reads the two
    strings and nothing else. *)
Theorem should_skip_iff_textual_prefix (filename prefix : string) :
  should_skip_already_prefixed filename prefix = true
  ↔ ∃ rest, filename = prefix +:+ "_" +:+ rest.
Proof.
  unfold should_skip_already_prefixed. rewrite startswith_iff.
  split; intros [rest ->]; exists rest; by rewrite ?app_assoc.
Qed.

Lemma build_prefixed_name_unfold path prefix :
  build_prefixed_name path prefix
  = posixpath.join (posixpath.split path).1
      (prefix +:+ "_" +:+ (posixpath.split path).2).
Proof.
  unfold build_prefixed_name. by destruct (posixpath.split path).
Qed.

Lemma split_build_prefixed_name path prefix :
  nosep prefix →
  posixpath.split (build_prefixed_name path prefix)
  = ((posixpath.split path).1, prefix +:+ "_" +:+ (posixpath.split path).2).
Proof.
  intros Hp. rewrite build_prefixed_name_unfold.
  apply split_join; [apply split_fst_is_head|].
  rewrite !contains_app, Hp, split_snd, basename_nosep_result. done.
Qed.

(** C5, as the code has it: for a prefix without a path separator,
    [build_prefixed_name] yields a path in the directory of the original
    whose file name is the prefix, one underscore, and the original file
    name unchanged. *)
Theorem build_prefixed_name_in_place (path prefix : string) :
    nosep prefix → prefixed_in_place path prefix.
Proof.
  intros Hp. unfold prefixed_in_place. by apply split_build_prefixed_name.
Qed.

Lemma build_prefixed_name_in_place_witness :
  nosep "2024-03-05" ∧ prefixed_in_place "dir/sub/photo.jpg" "2024-03-05".
Proof.
  split; [reflexivity|].
  apply (build_prefixed_name_in_place "dir/sub/photo.jpg" "2024-03-05").
  reflexivity.
Defined.

(** C5 fails for a prefix with a separator: the pattern [%Y/%m] gives the
    prefix [2024/03], which sends the file to another directory, under
    another name. *)
Lemma build_prefixed_name_separator :
  @get_modification_prefix utc_platform w_sep "top/a.jpg" "%Y/%m" = Ok "2024/03"
  ∧ build_prefixed_name "top/a.jpg" "2024/03" = "top/2024/03_a.jpg"
  ∧ posixpath.split (build_prefixed_name "top/a.jpg" "2024/03")
    = ("top/2024", "03_a.jpg")
  ∧ ¬ prefixed_in_place "top/a.jpg" "2024/03".
Proof.
  split; [by vm_compute|]. split; [done|]. split; [done|].
  unfold prefixed_in_place. by vm_compute.
Qed.

(** ** The extension filter *)

Lemma lower_char_idem a : pystr.lower_char (pystr.lower_char a) = pystr.lower_char a.
Proof. by destruct a as [[] [] [] [] [] [] [] []]. Qed.

Lemma lower_idem s : pystr.lower (pystr.lower s) = pystr.lower s.
Proof. induction s as [|a s IH]; simpl; [done|]. by rewrite lower_char_idem, IH. Qed.

Lemma normalize_ext_lower ext : pystr.lower (normalize_ext ext) = normalize_ext ext.
Proof.
  unfold normalize_ext. destruct (String.eqb _ ""); [done|]. apply lower_idem.
Qed.

Lemma normalize_ext_dot ext :
  normalize_ext ext = "" ∨ pystr.startswith (normalize_ext ext) "." = true.
Proof.
  unfold normalize_ext. destruct (String.eqb _ ""); [by left|right].
  destruct (pystr.startswith (pystr.strip ext) ".") eqn:E; cbn [negb].
  - apply startswith_inv in E as [r ->].
    by change ("." +:+ r) with (String "." r).
  - by change ("." +:+ pystr.strip ext) with (String "." (pystr.strip ext)).
Qed.

(** C2: an enumerated path is a target exactly when it is a regular file
    and its extension, in lower case, is the configured filter, which is
    itself in lower case and starts with a dot; with the filter [.jpg] the
    files [a.jpg] and [b.JPG] are targets, [c.png] and [e.jpeg] are not. *)
Theorem collect_targets_iff :
  (∀ (fs : gmap string node) (en : enumerator) (directory raw_ext : string)
     (recursive : bool) (path : string),
     let ext := normalize_ext raw_ext in
     (path ∈ _collect_targets fs en directory ext recursive
      ↔ path ∈ iter_files en directory recursive
        ∧ os.path_isfile fs path = true
        ∧ pystr.lower (posixpath.splitext path).2 = pystr.lower ext)
     ∧ pystr.lower ext = ext
     ∧ (ext = "" ∨ pystr.startswith ext "." = true))
  ∧ normalize_ext "jpg" = ".jpg"
  ∧ _collect_targets fs_photos en_photos "d" ".jpg" true = ["d/a.jpg"; "d/b.JPG"]
  ∧ _collect_targets fs_photos en_photos "d" ".jpg" false = ["d/a.jpg"; "d/b.JPG"].
Proof.
  split; [|by vm_compute].
  intros fs en directory raw_ext recursive path ext.
  split; [|split; [apply normalize_ext_lower|apply normalize_ext_dot]].
  unfold _collect_targets, is_target. rewrite list_elem_of_filter.
  unfold ext at 2. rewrite normalize_ext_lower. fold ext.
  rewrite andb_true_iff, String.eqb_eq. tauto.
Qed.

(** ** Normalised paths *)

Section NormFacts.
Implicit Types (p h n : string) (acc cs : list string).

Lemma pysplit_nonempty s c : pystr.split s c ≠ [].
Proof.
  induction s as [|a s IH]; simpl; [done|].
  destruct (Ascii.eqb a c); [done|]. by destruct (pystr.split s c).
Qed.

Lemma pysplit_nosep n : nosep n → pystr.split n posixpath.sep = [n].
Proof.
  induction n as [|a n IH]; [done|]. rewrite contains_cons.
  intros [Ha Hn]%orb_false_iff. simpl. rewrite Ha, (IH Hn). done.
Qed.

Lemma pysplit_app h n :
  nosep n →
  pystr.split (h +:+ "/" +:+ n) posixpath.sep = pystr.split h posixpath.sep ++ [n].
Proof.
  intros Hn. induction h as [|a h IH].
  - change ("" +:+ "/" +:+ n) with (String "/" n). simpl.
    by rewrite (pysplit_nosep n Hn).
  - rewrite app_cons. simpl. rewrite IH.
    destruct (Ascii.eqb a posixpath.sep); [done|].
    pose proof (pysplit_nonempty h posixpath.sep).
    by destruct (pystr.split h posixpath.sep).
Qed.

Lemma normpath_step_entry k acc n :
  is_entry_name n = true → posixpath.normpath_step k acc n = acc ++ [n].
Proof.
  unfold is_entry_name, posixpath.normpath_step.
  intros [[[H1 H2]%andb_true_iff H3]%andb_true_iff _]%andb_true_iff.
  apply negb_true_iff in H1, H2, H3. by rewrite H1, H2, H3.
Qed.

Lemma pyjoin_snoc sep acc n :
  pystr.join sep (acc ++ [n])
  = match acc with
    | [] => n
    | _ => pystr.join sep acc +:+ sep +:+ n
    end.
Proof.
  induction acc as [|w acc IH]; [done|].
  assert (pystr.join sep ((w :: acc) ++ [n])
          = w +:+ sep +:+ pystr.join sep (acc ++ [n])) as ->.
  { simpl. by destruct acc. }
  rewrite IH. destruct acc as [|w' acc']; [done|].
  change (pystr.join sep (w :: w' :: acc'))
    with (w +:+ sep +:+ pystr.join sep (w' :: acc')).
  by rewrite !app_assoc.
Qed.

Lemma normpath_basename p :
  is_entry_name (posixpath.basename p) = true →
  posixpath.basename (posixpath.normpath p) = posixpath.basename p.
Proof.
  intros Hn.
  assert (∃ cs, pystr.split p posixpath.sep = cs ++ [posixpath.basename p])
    as [cs Hcs].
  { destruct (path_cut p) as [Hp|(h & t & -> & Ht)].
    - rewrite (basename_nosep p Hp). exists []. by apply pysplit_nosep.
    - rewrite (basename_sep h t Ht). eexists. by apply pysplit_app. }
  assert (p ≠ "") as Hp.
  { intros ->. by vm_compute in Hn. }
  unfold posixpath.normpath.
  destruct (String.eqb_spec p "") as [|_]; [done|].
  set (k := if pystr.startswith p "/" then _ else _).
  rewrite Hcs, fold_left_app. simpl fold_left.
  rewrite (normpath_step_entry _ _ _ Hn), pyjoin_snoc.
  set (acc := fold_left (posixpath.normpath_step k) cs []).
  set (n := posixpath.basename p) in *.
  assert (nosep n) as Hsep by apply basename_nosep_result.
  assert (n ≠ "") as Hne by (by intros E; rewrite E in Hn).
  assert (∃ x, pystr.times posixpath.sep (Z.to_nat k)
               +:+ match acc with
                   | [] => n
                   | _ :: _ => pystr.join "/" acc +:+ "/" +:+ n
                   end = x +:+ n ∧ (x = "" ∨ ∃ y, x = y +:+ "/")) as (x & -> & Hx).
  { destruct acc as [|w acc'].
    - exists (pystr.times posixpath.sep (Z.to_nat k)). split; [done|].
      destruct (Z.to_nat k) as [|m]; [by left|right].
      exists (pystr.times posixpath.sep m). by rewrite times_snoc.
    - exists (pystr.times posixpath.sep (Z.to_nat k)
              +:+ pystr.join "/" (w :: acc') +:+ "/").
      split; [by rewrite !app_assoc|]. right.
      exists (pystr.times posixpath.sep (Z.to_nat k) +:+ pystr.join "/" (w :: acc')).
      by rewrite !app_assoc. }
  destruct (String.eqb_spec (x +:+ n) "") as [E|_].
  { apply (f_equal String.length) in E. rewrite length_app in E.
    destruct n; [done|]. simpl in E. lia. }
  rewrite (basename_prefixed x n Hx). by apply basename_nosep.
Qed.

Lemma abspath_basename cwd p :
  is_entry_name (posixpath.basename p) = true →
  posixpath.basename (posixpath.abspath cwd p) = posixpath.basename p.
Proof.
  intros Hn. unfold posixpath.abspath.
  destruct (posixpath.isabs p); cbn [negb].
  - by apply normpath_basename.
  - rewrite normpath_basename; rewrite basename_join; done.
Qed.

End NormFacts.

(** ** Extensions *)

Section SplitextFacts.
Implicit Types (p : string).

Lemma splitext_cases p :
  posixpath.splitext p = (p, "")
  ∨ (0 ≤ pystr.rfind p posixpath.extsep
     ∧ pystr.rfind p posixpath.sep < pystr.rfind p posixpath.extsep
     ∧ posixpath.splitext p
       = (pystr.upto p (pystr.rfind p posixpath.extsep),
          pystr.from p (pystr.rfind p posixpath.extsep))).
Proof.
  unfold posixpath.splitext.
  destruct (Z.ltb_spec (pystr.rfind p posixpath.sep) (pystr.rfind p posixpath.extsep))
    as [Hlt|_]; cbn [andb].
  - destruct (posixpath.splitext_scan _ _ _).
    + right. pose proof (rfind_lower p posixpath.sep). repeat split; [lia|done].
    + left. by rewrite upto_0.
  - left. by rewrite upto_0.
Qed.

Lemma splitext_app p : (posixpath.splitext p).1 +:+ (posixpath.splitext p).2 = p.
Proof.
  destruct (splitext_cases p) as [->|(_ & _ & ->)]; cbn [fst snd].
  - apply app_nil_r.
  - apply upto_from.
Qed.

Lemma splitext_nosep p :
  nosep p → nosep (posixpath.splitext p).1 ∧ nosep (posixpath.splitext p).2.
Proof.
  intros Hp. destruct (splitext_cases p) as [->|(_ & _ & ->)]; cbn [fst snd].
  - done.
  - split; [by apply contains_take|by apply contains_drop].
Qed.

(** A path with an extension has a dot in its last component. *)
Lemma splitext_ext_dot p :
  (posixpath.splitext p).2 ≠ "" →
  pystr.contains (posixpath.basename p) posixpath.extsep = true.
Proof.
  destruct (splitext_cases p) as [->|(H0 & Hlt & _)]; [cbn [snd]; congruence|].
  intros _.
  destruct (path_cut p) as [Hp|(h & t & -> & Ht)].
  - rewrite (basename_nosep p Hp).
    destruct (pystr.contains p posixpath.extsep) eqn:E; [done|].
    apply rfind_none in E. lia.
  - rewrite (basename_sep h t Ht).
    destruct (pystr.contains t posixpath.extsep) eqn:E; [done|]. exfalso.
    change (h +:+ "/" +:+ t) with (h +:+ String posixpath.sep t) in Hlt.
    rewrite (rfind_last _ _ _ Ht) in Hlt.
    change (h +:+ String posixpath.sep t) with (h +:+ "/" +:+ t) in Hlt.
    rewrite <-app_assoc, (rfind_app_l _ _ _ E) in Hlt.
    rewrite (rfind_app_l h "/" posixpath.extsep) in Hlt by done.
    pose proof (rfind_upper h posixpath.extsep). lia.
Qed.

End SplitextFacts.

(** ** The prefix and the steps of a run *)

Section Steps.
Context `{Platform}.
Implicit Types (w : world) (self : App) (path pattern prefix : string).

Lemma get_modification_prefix_unfold w path pattern :
  get_modification_prefix w path pattern
  = format_timestamp
      match os.path_getmtime (fs w) path with
      | Ok ts => ts
      | Raise _ => clock w
      end pattern.
Proof.
  unfold get_modification_prefix, os.path_getmtime.
  by destruct (fs w !! path ≫= node_mtime).
Qed.

Lemma format_timestamp_ok `{!Uniform} ts ts' pattern :
  is_ok (format_timestamp ts pattern) = true →
  is_ok (fromtimestamp ts') = true →
  is_ok (format_timestamp ts' pattern) = true.
Proof.
  unfold format_timestamp.
  destruct (fromtimestamp ts) as [d|]; [|done].
  destruct (fromtimestamp ts') as [d'|]; [|done].
  intros Hv _. by apply (strftime_uniform d d').
Qed.

Lemma rename_one_unfold fuel skip pattern path self w :
  rename_one fuel skip pattern path self w
  = (prefix <~ call (get_modification_prefix w path pattern);;
     if skip && should_skip_already_prefixed (posixpath.split path).2 prefix then
       ret (Skipped, self, w)
     else
       target <~ looping (ensure_unique_path fuel (fs w)
                            (build_prefixed_name path prefix));;
       if String.eqb (posixpath.abspath (cwd w) path)
                     (posixpath.abspath (cwd w) target)
       then ret (Skipped, self, w)
       else
         fs' <~ call (os.rename (fs w) (clock w) path target);;
         ret (Renamed,
              _log self ("RENAMED: " +:+ (posixpath.split path).2 +:+ " -> "
                         +:+ posixpath.basename target),
              set_fs w fs')).
Proof. unfold rename_one. by destruct (posixpath.split path). Qed.

(** C8, as the code has it: with a pattern that formats the current
    instant, [get_modification_prefix] returns the formatted modification
    time of the file whenever [datetime.fromtimestamp] can convert that
    time, and the formatted current time when the modification time cannot
    be read: a failure of the reading raises nothing.  A modification time
    that [datetime.fromtimestamp] cannot convert raises out of
    [get_modification_prefix]; an exception of the [try] block of
    [_on_rename] is that one, or one of [os.rename]. *)
Theorem get_modification_prefix_falls_back `{!Uniform} w path pattern :
  is_ok (format_timestamp (clock w) pattern) = true →
  (∀ ts, os.path_getmtime (fs w) path = Ok ts →
     match fromtimestamp ts with
     | Ok dt => ∃ prefix, strftime dt pattern = Ok prefix
                        ∧ get_modification_prefix w path pattern = Ok prefix
     | Raise e => get_modification_prefix w path pattern = Raise e
     end)
  ∧ (∀ e, os.path_getmtime (fs w) path = Raise e →
       ∃ prefix, format_timestamp (clock w) pattern = Ok prefix
               ∧ get_modification_prefix w path pattern = Ok prefix)
  ∧ ∀ fuel skip self e,
      rename_one fuel skip pattern path self w = Some (Raise e) →
      (∃ ts, os.path_getmtime (fs w) path = Ok ts ∧ fromtimestamp ts = Raise e)
      ∨ (∃ target, os.rename (fs w) (clock w) path target = Raise e).
Proof.
  intros Hv.
  assert (∀ ts, os.path_getmtime (fs w) path = Ok ts →
            match fromtimestamp ts with
            | Ok dt => ∃ prefix, strftime dt pattern = Ok prefix
                               ∧ get_modification_prefix w path pattern = Ok prefix
            | Raise e => get_modification_prefix w path pattern = Raise e
            end) as Hread.
  { intros ts Hts. rewrite get_modification_prefix_unfold, Hts.
    pose proof (format_timestamp_ok _ ts _ Hv) as Hok.
    unfold format_timestamp in *.
    destruct (fromtimestamp ts) as [dt|e]; [|done].
    destruct (strftime dt pattern) as [prefix|]; [by eauto|].
    by specialize (Hok eq_refl). }
  assert (∀ e, os.path_getmtime (fs w) path = Raise e →
            ∃ prefix, format_timestamp (clock w) pattern = Ok prefix
                    ∧ get_modification_prefix w path pattern = Ok prefix) as Hfail.
  { intros e He. rewrite get_modification_prefix_unfold, He.
    destruct (format_timestamp (clock w) pattern) as [prefix|]; [by eauto|done]. }
  split; [done|]. split; [done|].
  intros fuel skip self e. rewrite rename_one_unfold.
  destruct (os.path_getmtime (fs w) path) as [ts|e'] eqn:Hm.
  - specialize (Hread ts eq_refl).
    destruct (fromtimestamp ts) as [dt|e''] eqn:Hdt.
    + destruct Hread as (prefix & _ & ->). simpl.
      destruct (skip && _); [done|].
      destruct (ensure_unique_path fuel (fs w) _) as [target|]; simpl; [|done].
      destruct (String.eqb _ _); [done|].
      destruct (os.rename (fs w) (clock w) path target) eqn:E; simpl; [done|].
      intros [= ->]. right. by exists target.
    + rewrite Hread. simpl. intros [= ->]. left. by exists ts.
  - destruct (Hfail e' eq_refl) as (prefix & _ & ->). simpl.
    destruct (skip && _); [done|].
    destruct (ensure_unique_path fuel (fs w) _) as [target|]; simpl; [|done].
    destruct (String.eqb _ _); [done|].
    destruct (os.rename (fs w) (clock w) path target) eqn:E; simpl; [done|].
    intros [= ->]. right. by exists target.
Qed.

End Steps.

Lemma get_modification_prefix_falls_back_witness :
  is_ok (@format_timestamp utc_platform (clock w_photo) DEFAULT_PATTERN) = true
  ∧ ∀ e, os.path_getmtime (fs w_photo) "gone.jpg" = Raise e →
      ∃ prefix,
        @format_timestamp utc_platform (clock w_photo) DEFAULT_PATTERN = Ok prefix
        ∧ @get_modification_prefix utc_platform w_photo "gone.jpg" DEFAULT_PATTERN
          = Ok prefix.
Proof.
  assert (is_ok (@format_timestamp utc_platform (clock w_photo) DEFAULT_PATTERN) = true)
    as Hv by (vm_compute; reflexivity).
  split; [exact Hv|].
  exact (proj1 (proj2 (@get_modification_prefix_falls_back utc_platform utc_uniform
                         w_photo "gone.jpg" DEFAULT_PATTERN Hv))).
Defined.

Example get_modification_prefix_unreadable :
  os.path_getmtime (fs w_photo) "gone.jpg"
  = Raise (OSError 2 "No such file or directory" "gone.jpg" None)
  ∧ @get_modification_prefix utc_platform w_photo "gone.jpg" DEFAULT_PATTERN
    = Ok "2023-11-14-22-13-20".
Proof. by vm_compute. Qed.

(** C8 fails as the specification has it: the modification time of
    [p/e00.jpg] lies in the year 10000, [datetime.fromtimestamp] raises
    [ValueError], which [get_modification_prefix] does not catch, and the
    run logs it as the error of that file. *)
Lemma get_modification_prefix_far_future :
  os.path_getmtime (fs w_far) "p/e00.jpg" = Ok 253402300800
  ∧ is_ok (@format_timestamp utc_platform (clock w_far) DEFAULT_PATTERN) = true
  ∧ @get_modification_prefix utc_platform w_far "p/e00.jpg" DEFAULT_PATTERN
    = Raise (ValueError "year 10000 is out of range")
  ∧ @rename_loop utc_platform 20 true ".jpg" DEFAULT_PATTERN ["p/e00.jpg"]
      (Tally 0 0 0) app_flat w_far
    = Some (Tally 0 0 1,
            logged app_flat ["ERROR: p/e00.jpg: year 10000 is out of range"], w_far).
Proof. by vm_compute. Qed.

(** ** The target differs from the original *)

Section Target.
Implicit Types (fs : gmap string node) (path prefix target : string).

Lemma basename_build_prefixed_name path prefix :
  posixpath.basename (build_prefixed_name path prefix)
  = posixpath.basename prefix +:+ "_" +:+ posixpath.basename path.
Proof.
  rewrite build_prefixed_name_unfold, basename_join, split_snd.
  rewrite <-app_assoc, basename_app by apply basename_nosep_result.
  rewrite basename_app by done. by rewrite app_assoc.
Qed.

Lemma ensure_unique_path_basename fuel fs t r :
  ensure_unique_path fuel fs t = Some r →
  r = t
  ∨ ∃ (i : Z) stem ext,
      stem +:+ ext = posixpath.basename t
      ∧ (posixpath.split r).1 = (posixpath.split t).1
      ∧ posixpath.basename r = stem +:+ "-" +:+ pretty i +:+ ext.
Proof.
  unfold ensure_unique_path.
  destruct (os.path_exists fs t); cbn [negb]; [|by intros [= <-]; left].
  pose proof (split_fst_is_head t) as Hhead.
  pose proof (split_snd t) as Hsnd.
  destruct (posixpath.split t) as [directory filename]. cbn [fst snd] in *.
  pose proof (splitext_app filename) as Happ.
  destruct (splitext_nosep filename) as [Hs He].
  { rewrite Hsnd. apply basename_nosep_result. }
  destruct (posixpath.splitext filename) as [stem ext]. cbn [fst snd] in *.
  intros (j & _ & -> & _)%loop_sound. right.
  exists j, stem, ext. split; [by rewrite Happ|].
  assert (nosep (stem +:+ "-" +:+ pretty j +:+ ext)) as Hn.
  { rewrite !contains_app, Hs, He, pretty_nosep. done. }
  unfold candidate. rewrite (split_join _ _ Hhead Hn). split; [done|].
  rewrite basename_join. by apply basename_nosep.
Qed.

Lemma contains_true_neq s c t :
  pystr.contains s c = true → pystr.contains t c = false → s ≠ t.
Proof. intros Hs Ht ->. congruence. Qed.

(** The last component of a target: longer than the original name, and
    the name of a directory entry. *)
Lemma target_basename fuel fs path prefix target :
  ensure_unique_path fuel fs (build_prefixed_name path prefix) = Some target →
  (String.length (posixpath.basename path)
   < String.length (posixpath.basename target))%nat
  ∧ is_entry_name (posixpath.basename target) = true.
Proof.
  intros [->|(i & stem & ext & Happ & _ & Hb)]%ensure_unique_path_basename.
  - rewrite basename_build_prefixed_name. split.
    + rewrite !length_app. simpl. lia.
    + assert (pystr.contains (posixpath.basename prefix +:+ "_"
                              +:+ posixpath.basename path) "_" = true) as Hu.
      { rewrite contains_app. change ("_" +:+ ?x) with (String "_" x).
        rewrite contains_cons. simpl. by rewrite orb_true_r. }
      unfold is_entry_name. rewrite !andb_true_iff, !negb_true_iff.
      repeat split.
      * apply String.eqb_neq. by apply (contains_true_neq _ "_").
      * apply String.eqb_neq. by apply (contains_true_neq _ "_").
      * apply String.eqb_neq. by apply (contains_true_neq _ "_").
      * rewrite !contains_app, !basename_nosep_result. done.
  - rewrite basename_build_prefixed_name in Happ.
    assert (pystr.contains (posixpath.basename target) "-" = true) as Hd.
    { rewrite Hb, contains_app. change ("-" +:+ ?x) with (String "-" x).
      rewrite contains_cons. simpl. by rewrite orb_true_r. }
    split.
    + apply (f_equal String.length) in Happ. rewrite Hb.
      rewrite !length_app in *. simpl in *. lia.
    + unfold is_entry_name. rewrite !andb_true_iff, !negb_true_iff.
      repeat split.
      * apply String.eqb_neq. by apply (contains_true_neq _ "-").
      * apply String.eqb_neq. by apply (contains_true_neq _ "-").
      * apply String.eqb_neq. by apply (contains_true_neq _ "-").
      * apply basename_nosep_result.
Qed.

Lemma target_abspath fuel fs cwd path prefix target :
  is_entry_name (posixpath.basename path) = true →
  ensure_unique_path fuel fs (build_prefixed_name path prefix) = Some target →
  posixpath.abspath cwd path ≠ posixpath.abspath cwd target.
Proof.
  intros Hn [Hlen Ht]%target_basename E.
  apply (f_equal posixpath.basename) in E.
  rewrite !abspath_basename in E by done. rewrite E in Hlen. lia.
Qed.

End Target.

Section NoOp.
Context `{Platform}.

(** C10: for an enumerated path (its last component is the name of a
    directory entry) that is not skipped as already prefixed, the target
    differs from the original: its last component is strictly longer, so
    the two absolute paths differ and the no-op branch of [_on_rename]
    is never taken; a path is skipped only as already prefixed. *)
Theorem noop_branch_unreachable (fuel : nat) (skip : bool)
    (pattern path : string) (self : App) (w : world) :
  is_entry_name (posixpath.basename path) = true →
  (∀ prefix target,
     ensure_unique_path fuel (fs w) (build_prefixed_name path prefix) = Some target →
     (String.length (posixpath.basename path)
      < String.length (posixpath.basename target))%nat
     ∧ target ≠ path
     ∧ posixpath.abspath (cwd w) path ≠ posixpath.abspath (cwd w) target)
  ∧ (∀ self' w',
       rename_one fuel skip pattern path self w = Some (Ok (Skipped, self', w')) →
       skip = true
       ∧ ∃ prefix,
           get_modification_prefix w path pattern = Ok prefix
           ∧ should_skip_already_prefixed (posixpath.split path).2 prefix = true).
Proof.
  intros Hn. split.
  - intros prefix target Ht.
    pose proof (target_basename _ _ _ _ _ Ht) as [Hlen _].
    pose proof (target_abspath _ _ (cwd w) _ _ _ Hn Ht) as Habs.
    split; [done|]. split; [|done]. intros ->. lia.
  - intros self' w'. rewrite rename_one_unfold.
    destruct (get_modification_prefix w path pattern) as [prefix|e]; simpl; [|done].
    destruct (skip && should_skip_already_prefixed _ prefix) eqn:Hs.
    + intros _. apply andb_true_iff in Hs as [-> Hs]. split; [done|].
      by exists prefix.
    + destruct (ensure_unique_path fuel (fs w) _) as [target|] eqn:Ht; simpl; [|done].
      destruct (String.eqb_spec (posixpath.abspath (cwd w) path)
                  (posixpath.abspath (cwd w) target)) as [E|_].
      * by destruct (target_abspath _ _ (cwd w) _ _ _ Hn Ht).
      * by destruct (os.rename (fs w) (clock w) path target).
Qed.

End NoOp.

Lemma noop_branch_unreachable_witness :
  is_entry_name (posixpath.basename "photo.jpg") = true
  ∧ ∀ target,
      ensure_unique_path 2 (fs w_photo)
        (build_prefixed_name "photo.jpg" "2024-03-05-14-30-00") = Some target →
      posixpath.abspath (cwd w_photo) "photo.jpg"
      ≠ posixpath.abspath (cwd w_photo) target.
Proof.
  split; [reflexivity|]. intros target Ht.
  destruct (@noop_branch_unreachable utc_platform 2%nat true DEFAULT_PATTERN
              "photo.jpg"
              {| dir_var := "/home/u"; ext_var := "jpg"; pattern_var := "";
                 recursive_var := false; skip_already_prefixed_var := true;
                 log := [] |} w_photo eq_refl) as [Hgen _].
  by destruct (Hgen _ _ Ht) as (_ & _ & Habs).
Defined.

(** ** What the [os] calls do *)

Section OsFacts.
Context `{Platform}.
Implicit Types (fs : gmap string node) (d p src dst : string) (now : Z).

Lemma touch_lookup_ne fs d now p : p ≠ d → os.touch fs d now !! p = fs !! p.
Proof.
  intros Hne. unfold os.touch.
  destruct (fs !! d) as [[?|? ?|?|]|]; try done. by rewrite lookup_insert_ne.
Qed.

Lemma touch_kept fs d now p n :
  fs !! p = Some n → ∃ n', os.touch fs d now !! p = Some n' ∧ kept n n'.
Proof.
  intros Hp. destruct (decide (p = d)) as [->|Hne].
  - unfold os.touch. rewrite Hp. destruct n as [m|m b|m|].
    + by exists (File m).
    + exists (Dir now b). rewrite lookup_insert_eq. split; [done|]. by exists now.
    + by exists (Special m).
    + by exists Broken.
  - rewrite touch_lookup_ne by done. exists n. split; [done|].
    destruct n; try done. by eexists.
Qed.

Lemma touch_lookup_file fs d now p m :
  os.touch fs d now !! p = Some (File m) ↔ fs !! p = Some (File m).
Proof.
  destruct (decide (p = d)) as [->|Hne]; [|by rewrite touch_lookup_ne].
  unfold os.touch. destruct (fs !! d) as [[?|? ?|?|]|] eqn:E; rewrite ?E; try done.
  rewrite lookup_insert_eq. split; intros [=].
Qed.

Lemma touch_isfile fs d now p :
  os.path_isfile (os.touch fs d now) p = os.path_isfile fs p.
Proof.
  unfold os.path_isfile.
  destruct (fs !! p) as [[m|m b|m|]|] eqn:E.
  - by rewrite (proj2 (touch_lookup_file fs d now p m) E).
  - destruct (touch_kept fs d now p _ E) as (n' & -> & [m' ->]). done.
  - by destruct (touch_kept fs d now p _ E) as (n' & -> & ->).
  - by destruct (touch_kept fs d now p _ E) as (n' & -> & ->).
  - destruct (os.touch fs d now !! p) as [[m| | |]|] eqn:E'; try done.
    apply touch_lookup_file in E'. congruence.
Qed.

Lemma touch_exists fs d now p :
  os.path_exists (os.touch fs d now) p = os.path_exists fs p.
Proof.
  unfold os.path_exists.
  destruct (decide (p = d)) as [->|Hne]; [|by rewrite touch_lookup_ne].
  unfold os.touch. destruct (fs !! d) as [[?|? ?|?|]|] eqn:E; rewrite ?E; try done.
  by rewrite lookup_insert_eq.
Qed.

Lemma touch_size fs d now : size (os.touch fs d now) = size fs.
Proof.
  unfold os.touch. destruct (fs !! d) as [[?|? ?|?|]|] eqn:E; try done.
  rewrite map_size_insert, E. simpl.
  assert (size fs ≠ 0)%nat; [|lia].
  intros E0%map_size_empty_iff. by rewrite E0, lookup_empty in E.
Qed.

Lemma files_of_insert fs p n :
  fs !! p = None →
  files_of (<[p := n]> fs)
  ≡ₚ match n with File m => [m] | _ => [] end ++ files_of fs.
Proof.
  intros Hp. unfold files_of. rewrite (map_to_list_insert fs p n Hp).
  rewrite fmap_cons. cbn [omap list_omap snd]. by destruct n.
Qed.

Lemma files_of_delete fs p n :
  fs !! p = Some n →
  files_of fs ≡ₚ match n with File m => [m] | _ => [] end ++ files_of (delete p fs).
Proof.
  intros Hp. rewrite <-(files_of_insert (delete p fs) p n) by apply lookup_delete_eq.
  by rewrite insert_delete_eq, insert_id.
Qed.

Lemma touch_files_of fs d now : files_of (os.touch fs d now) ≡ₚ files_of fs.
Proof.
  unfold os.touch. destruct (fs !! d) as [[?|m b|?|]|] eqn:E; try done.
  rewrite (files_of_delete fs d _ E), <-insert_delete_eq.
  by rewrite files_of_insert by apply lookup_delete_eq.
Qed.

(** What a rename that succeeds did. *)
Lemma os_rename_inv fs now src dst fs' :
  os.rename fs now src dst = Ok fs' →
  ∃ m, fs !! src = Some (File m)
       ∧ os.path_isdir fs dst = false
       ∧ (String.length (posixpath.basename dst) ≤ os.NAME_MAX)%nat
       ∧ fs' = os.touch (os.touch (<[dst := File m]> (delete src fs))
                           (posixpath.split src).1 now)
                 (posixpath.split dst).1 now.
Proof.
  unfold os.rename. destruct (fs !! src) as [[m|m b|m|]|]; try done.
  destruct (os.check_dir fs _ src dst); [|done].
  destruct (os.check_dir fs _ src dst); [|done].
  destruct (Nat.ltb_spec os.NAME_MAX (String.length (posixpath.basename dst)));
    [done|].
  unfold os.path_isdir.
  destruct (fs !! dst) as [[?|? ?|?|]|]; try done;
    (destruct (refuses fs src dst); [done|]); intros [= <-]; by exists m.
Qed.

Lemma rename_size fs now src dst fs' :
  os.rename fs now src dst = Ok fs' → (size fs' ≤ size fs)%nat.
Proof.
  intros (m & Hs & _ & _ & ->)%os_rename_inv. rewrite !touch_size.
  rewrite map_size_insert, map_size_delete, Hs.
  assert (size fs ≠ 0)%nat.
  { intros E0%map_size_empty_iff. by rewrite E0, lookup_empty in Hs. }
  destruct (delete src fs !! dst); simpl; lia.
Qed.

End OsFacts.

(** ** The rename run *)

Lemma log_logged self msg : _log self msg = logged self [msg].
Proof. reflexivity. Qed.

Lemma logged_nil self : logged self [] = self.
Proof. destruct self. unfold logged. simpl. by rewrite List.app_nil_r. Qed.

Lemma logged_logged self a b : logged (logged self a) b = logged self (a ++ b).
Proof. unfold logged. simpl. by rewrite <-(assoc_L (++)). Qed.

Lemma number_cons f o l :
  report.number f (o :: l) = (if f o then 1 else 0) + report.number f l.
Proof.
  unfold report.number. rewrite filter_cons.
  destruct (f o) eqn:E.
  - rewrite decide_True by done. simpl length. lia.
  - rewrite decide_False by congruence. lia.
Qed.

Section Run.
Context `{Platform}.
Implicit Types (w : world) (self : App) (t : tally) (paths lines : list string).

(** A round of the loop of [_on_rename] is the step of the specification
    for the candidate, with its line in the log. *)
Lemma rename_one_process fuel skip pattern path self w :
  match process fuel skip pattern w path with
  | None => rename_one fuel skip pattern path self w = None
  | Some (report.Renamed from to, w') =>
      rename_one fuel skip pattern path self w
      = Some (Ok (Renamed, logged self (report.line (report.Renamed from to)), w'))
  | Some (report.Skipped _ _, w') =>
      rename_one fuel skip pattern path self w = Some (Ok (Skipped, self, w'))
  | Some (report.Errored p message, w') =>
      p = path ∧ w' = w
      ∧ ∃ e, message = str_exn e
             ∧ rename_one fuel skip pattern path self w = Some (Raise e)
  end.
Proof.
  rewrite rename_one_unfold. unfold process. rewrite split_snd.
  destruct (get_modification_prefix w path pattern) as [prefix|e]; simpl;
    [|by eauto].
  destruct (skip && _); [done|].
  destruct (ensure_unique_path fuel (fs w) _) as [target|]; simpl; [|done].
  destruct (String.eqb _ _); [done|].
  destruct (os.rename (fs w) (clock w) path target) as [fs'|e]; simpl; [done|].
  by eauto.
Qed.

Lemma process_total fuel skip pattern w path :
  (size (fs w) < fuel)%nat →
  ∃ o w', process fuel skip pattern w path = Some (o, w')
          ∧ (size (fs w') ≤ size (fs w))%nat.
Proof.
  intros Hfuel. unfold process.
  destruct (get_modification_prefix w path pattern) as [prefix|e]; [|by eauto].
  destruct (skip && _); [by eauto|].
  destruct (ensure_unique_path_total fuel (fs w) (build_prefixed_name path prefix) Hfuel)
    as [target ->].
  destruct (String.eqb _ _); [by eauto|].
  destruct (os.rename (fs w) (clock w) path target) as [fs'|e] eqn:E; [|by eauto].
  eexists _, _. split; [done|]. simpl. by eapply rename_size.
Qed.

(** The loop of [_on_rename] runs to the end of the listing; its counters
    and its log are those of the outcomes of the specification. *)
Lemma rename_loop_outcomes fuel skip ext pattern paths : ∀ t self w,
  (size (fs w) < fuel)%nat →
  ∃ l w',
    outcomes fuel skip ext pattern paths w = Some (l, w')
    ∧ rename_loop fuel skip ext pattern paths t self w
      = Some (Tally (count t + report.number report.is_renamed l)
                (skipped t + report.number report.is_skipped l)
                (errors t + report.number report.is_errored l),
              logged self (flat_map report.line l), w')
    ∧ (size (fs w') ≤ size (fs w))%nat.
Proof.
  induction paths as [|path rest IH]; intros t self w Hfuel.
  - exists [], w. cbn [outcomes rename_loop flat_map]. rewrite logged_nil.
    unfold report.number. simpl. rewrite !Z.add_0_r. by destruct t.
  - cbn [outcomes rename_loop].
    destruct (is_target (fs w) ext path); cbn [negb]; [|by apply IH].
    pose proof (rename_one_process fuel skip pattern path self w) as Hone.
    destruct (process_total fuel skip pattern w path Hfuel) as (o & w1 & Hp & Hsz).
    rewrite Hp in Hone |- *.
    assert (size (fs w1) < fuel)%nat as Hfuel1 by lia.
    destruct o as [from to|p why|p message].
    + rewrite Hone.
      destruct (IH (Tally (count t + 1) (skipped t) (errors t))
                  (logged self (report.line (report.Renamed from to))) w1 Hfuel1)
        as (l & w' & -> & -> & Hsz').
      eexists _, w'. split; [done|]. split; [|lia].
      rewrite !number_cons, logged_logged. cbn [count skipped errors flat_map].
      cbn [report.is_renamed report.is_skipped report.is_errored].
      do 3 f_equal. f_equal; lia.
    + rewrite Hone.
      destruct (IH (Tally (count t) (skipped t + 1) (errors t)) self w1 Hfuel1)
        as (l & w' & -> & -> & Hsz').
      eexists _, w'. split; [done|]. split; [|lia].
      rewrite !number_cons. cbn [count skipped errors flat_map report.line app].
      cbn [report.is_renamed report.is_skipped report.is_errored].
      do 3 f_equal. f_equal; lia.
    + destruct Hone as (-> & -> & e & -> & ->).
      destruct (IH (Tally (count t) (skipped t) (errors t + 1))
                  (_log self ("ERROR: " +:+ path +:+ ": " +:+ str_exn e)) w Hfuel)
        as (l & w' & -> & -> & Hsz').
      eexists _, w'. split; [done|]. split; [|lia].
      rewrite !number_cons, log_logged, logged_logged.
      cbn [count skipped errors flat_map report.line].
      cbn [report.is_renamed report.is_skipped report.is_errored].
      do 3 f_equal. f_equal; lia.
Qed.

Lemma rename_loop_total fuel skip ext pattern paths t self w :
  (size (fs w) < fuel)%nat →
  ∃ t' self' w', rename_loop fuel skip ext pattern paths t self w = Some (t', self', w').
Proof.
  intros Hfuel.
  destruct (rename_loop_outcomes fuel skip ext pattern paths t self w Hfuel)
    as (l & w' & _ & -> & _).
  by eauto.
Qed.

End Run.

Section RunCompletes.
Context `{Platform}.

(** C6, as the code has it: a rename run gives every candidate its
    outcome, in the order of the listing: a failure of the rename of one
    file is the outcome [Errored] with the message of the exception, it
    is logged as [ERROR: <path>: <message>] and counted, and the run goes
    on with the next candidate.  Once the inputs are validated the run
    ends with the line [Done. Renamed: <n>, Skipped: <n>, Errors: <n>],
    whose numbers are those of the outcomes, when the listing of the
    directory does not fail; an exception of the listing ends the run
    without that line. *)
Theorem rename_errors_do_not_abort (fuel : nat) (en : enumerator)
      (self : App) (w : world) (directory ext pattern : string) :
  (size (fs w) < fuel)%nat →
  _validate_inputs self w = (true, directory, ext, pattern) →
  ∃ l w',
    outcomes fuel (skip_already_prefixed_var self) ext pattern
      (iter_files en directory (recursive_var self)) w = Some (l, w')
    ∧ _on_rename fuel en self w
      = match iter_files_raises en directory (recursive_var self) with
        | None =>
            Some (Ok (logged self
                        (("Starting rename in " +:+ directory +:+ " (recursive="
                          +:+ pystr.of_bool (recursive_var self)
                          +:+ ") for extension " +:+ ext
                          +:+ " with pattern '" +:+ pattern +:+ "'")
                         :: flat_map report.line l ++ [report.summary l]), w'))
        | Some e => Some (Raise e)
        end.
Proof.
  intros Hfuel Hval. unfold _on_rename. rewrite Hval. cbn [negb].
  set (self1 := _log self _).
  destruct (rename_loop_outcomes fuel (skip_already_prefixed_var self1) ext pattern
              (iter_files en directory (recursive_var self))
              (Tally 0 0 0) self1 w Hfuel) as (l & w' & Hout & -> & _).
  exists l, w'. split; [exact Hout|].
  cbn [bind looping].
  destruct (iter_files_raises en directory (recursive_var self)); [done|].
  cbn [bind exhausted ret]. do 3 f_equal.
  unfold self1. rewrite !log_logged, !logged_logged. f_equal.
Qed.

End RunCompletes.

Lemma rename_errors_do_not_abort_witness :
  ∃ l w',
    @outcomes utc_platform 6 true ".jpg" DEFAULT_PATTERN
      (iter_files en_mixed "top" true) w_mixed = Some (l, w')
    ∧ @_on_rename utc_platform 6 en_mixed app_mixed w_mixed
      = Some (Ok (logged app_mixed
                    ("Starting rename in top (recursive=True) for extension .jpg with pattern '%Y-%m-%d-%H-%M-%S'"
                     :: flat_map report.line l ++ [report.summary l]), w')).
Proof.
  assert (size (fs w_mixed) < 6)%nat as Hsize by (vm_compute; lia).
  assert (@_validate_inputs utc_platform app_mixed w_mixed
          = (true, "top", ".jpg", DEFAULT_PATTERN)) as Hval by (vm_compute; reflexivity).
  exact (@rename_errors_do_not_abort utc_platform 6%nat en_mixed app_mixed w_mixed
           "top" ".jpg" DEFAULT_PATTERN Hsize Hval).
Defined.

(** The run over the tree with a read-only directory: the first rename
    fails, the second is made, and the summary counts both. *)
Example rename_run_mixed :
  ∃ self' w',
    @outcomes utc_platform 6 true ".jpg" DEFAULT_PATTERN
      (iter_files en_mixed "top" true) w_mixed
    = Some ([ report.Errored "top/ro/a.jpg"
                "[Errno 13] Permission denied: 'top/ro/a.jpg' -> 'top/ro/2024-03-05-14-30-00_a.jpg'";
              report.Renamed "top/rw/b.jpg" "top/rw/2024-03-05-14-30-00_b.jpg" ], w')
    ∧ @_on_rename utc_platform 6 en_mixed app_mixed w_mixed = Some (Ok (self', w'))
    ∧ log self'
      = [ "Starting rename in top (recursive=True) for extension .jpg with pattern '%Y-%m-%d-%H-%M-%S'";
          "ERROR: top/ro/a.jpg: [Errno 13] Permission denied: 'top/ro/a.jpg' -> 'top/ro/2024-03-05-14-30-00_a.jpg'";
          "RENAMED: b.jpg -> 2024-03-05-14-30-00_b.jpg";
          "Done. Renamed: 1, Skipped: 0, Errors: 1" ]
    ∧ os.path_isfile (fs w') "top/ro/a.jpg" = true
    ∧ os.path_isfile (fs w') "top/rw/2024-03-05-14-30-00_b.jpg" = true
    ∧ os.path_exists (fs w') "top/rw/b.jpg" = false
    ∧ fs w' !! "top/rw" = Some (Dir 1700000000 true).
Proof.
  eexists _, _. split; [vm_compute; reflexivity|].
  split; [vm_compute; reflexivity|]. by vm_compute.
Qed.

(** C6 fails as the specification has it: the directory passes the
    validation, [os.scandir] cannot read it, and the exception, raised by
    the [for] statement outside of the [try] block, ends the run: no
    summary is logged.  An entry that cannot be examined ends the run in
    the same way after the renames already made. *)
Lemma rename_run_unreadable :
  @_validate_inputs utc_platform app_flat w_fifteen = (true, "p", ".jpg", DEFAULT_PATTERN)
  ∧ (size (fs w_fifteen) < 17)%nat
  ∧ @_on_rename utc_platform 17 en_unreadable app_flat w_fifteen
    = Some (Raise (OSError 13 "Permission denied" "p" None))
  ∧ ∃ self1 w1,
      @rename_loop utc_platform 17 true ".jpg" DEFAULT_PATTERN
        (iter_files en_stale "p" false) (Tally 0 0 0) app_flat w_fifteen
      = Some (Tally 2 0 0, self1, w1)
      ∧ os.path_isfile (fs w1) "p/20240305_f01.jpg" = false
      ∧ os.path_isfile (fs w1) "p/2024-03-05-14-30-00_f01.jpg" = true
      ∧ @_on_rename utc_platform 17 en_stale app_flat w_fifteen
        = Some (Raise (OSError 116 "Stale file handle" "p/f03.jpg" None)).
Proof.
  split; [vm_compute; reflexivity|]. split; [vm_compute; lia|].
  split; [vm_compute; reflexivity|].
  eexists _, _. split; [vm_compute; reflexivity|]. by vm_compute.
Qed.

(** ** The preview *)

Section Preview.
Context `{Platform}.
Implicit Types (w : world) (self : App) (targets entries : list string).

Lemma preview_loop_unfold fuel skip pattern w path rest preview_count self :
  preview_loop fuel skip pattern w (path :: rest) preview_count self
  = (prefix <~ call (get_modification_prefix w path pattern);;
     if skip && should_skip_already_prefixed (posixpath.split path).2 prefix then
       preview_loop fuel skip pattern w rest preview_count self
     else
       unique_path <~ looping (ensure_unique_path fuel (fs w)
                                 (build_prefixed_name path prefix));;
       if 10 <=? preview_count + 1 then
         ret (preview_count + 1,
              _log self ((posixpath.split path).2 +:+ " -> "
                         +:+ posixpath.basename unique_path
                         +:+ (if negb (String.eqb unique_path
                                         (build_prefixed_name path prefix))
                              then " (collision -> will use unique name)" else "")))
       else
         preview_loop fuel skip pattern w rest (preview_count + 1)
           (_log self ((posixpath.split path).2 +:+ " -> "
                       +:+ posixpath.basename unique_path
                       +:+ (if negb (String.eqb unique_path
                                       (build_prefixed_name path prefix))
                            then " (collision -> will use unique name)" else "")))).
Proof. simpl. by destruct (posixpath.split path). Qed.

Lemma preview_loop_spec fuel skip pattern w :
  (size (fs w) < fuel)%nat →
  ∀ targets (preview_count : Z) self,
    Forall (λ path, is_ok (get_modification_prefix w path pattern) = true) targets →
    0 ≤ preview_count < 10 →
    ∃ entries,
      preview_loop fuel skip pattern w targets preview_count self
      = Some (Ok (preview_count + Z.of_nat (length entries), logged self entries))
      ∧ Forall2 (preview_entry fuel pattern w)
          (take (Z.to_nat (10 - preview_count))
                (filter (λ path, preview_qualifies skip pattern w path = true) targets))
          entries.
Proof.
  intros Hfuel. induction targets as [|path rest IH]; intros n self Hall Hn.
  - exists []. rewrite logged_nil. split; [simpl; by rewrite Z.add_0_r|].
    rewrite filter_nil, take_nil. constructor.
  - apply Forall_cons in Hall as [Hok Hall].
    rewrite preview_loop_unfold, filter_cons.
    destruct (get_modification_prefix w path pattern) as [prefix|] eqn:Hp; [|done].
    assert (preview_qualifies skip pattern w path
            = negb (skip && should_skip_already_prefixed (posixpath.split path).2 prefix))
      as Hq by (unfold preview_qualifies; by rewrite Hp).
    simpl.
    destruct (skip && should_skip_already_prefixed _ prefix); cbn [negb] in *.
    + rewrite decide_False by (by rewrite Hq). by apply IH.
    + rewrite decide_True by done.
      destruct (ensure_unique_path_total fuel (fs w) (build_prefixed_name path prefix)
                  Hfuel) as [unique_path Hu].
      rewrite Hu. simpl.
      set (line := _ +:+ " -> " +:+ _).
      assert (preview_entry fuel pattern w path line) as Hline
        by (by exists prefix, unique_path).
      replace (Z.to_nat (10 - n)) with (S (Z.to_nat (10 - (n + 1)))) by lia.
      rewrite firstn_cons.
      destruct (Z.leb_spec 10 (n + 1)) as [Hlast|Hmore].
      * exists [line]. rewrite log_logged. split; [done|].
        replace (Z.to_nat (10 - (n + 1))) with 0%nat by lia.
        rewrite take_0. by repeat constructor.
      * destruct (IH (n + 1) (_log self line)) as (entries & -> & Hents); [done|lia|].
        exists (line :: entries). rewrite log_logged, logged_logged. split.
        { do 3 f_equal. simpl length. lia. }
        by constructor.
Qed.

(** With enough fuel the loop of the preview returns, or raises. *)
Lemma preview_loop_total fuel skip pattern w :
  (size (fs w) < fuel)%nat →
  ∀ targets (preview_count : Z) self,
    ∃ r, preview_loop fuel skip pattern w targets preview_count self = Some r.
Proof.
  intros Hfuel. induction targets as [|path rest IH]; intros n self; [by eexists|].
  rewrite preview_loop_unfold.
  destruct (get_modification_prefix w path pattern) as [prefix|e];
    cbn [bind call]; [|by eexists].
  destruct (skip && should_skip_already_prefixed _ prefix); [by apply IH|].
  destruct (ensure_unique_path_total fuel (fs w) (build_prefixed_name path prefix)
              Hfuel) as [unique_path ->].
  cbn [bind looping]. destruct (10 <=? n + 1); [by eexists|by apply IH].
Qed.

End Preview.

Section PreviewRun.
Context `{Platform}.

Lemma validate_inputs_ok self w directory ext pattern :
  _validate_inputs self w = (true, directory, ext, pattern) →
  is_ok (format_timestamp (clock w) pattern) = true
  ∧ ext = normalize_ext (ext_var self) ∧ ext ≠ ""
  ∧ os.path_isdir (fs w) directory = true.
Proof.
  unfold _validate_inputs, format_timestamp.
  destruct (String.eqb (pystr.strip (dir_var self)) ""); [done|].
  destruct (os.path_isdir (fs w) (pystr.strip (dir_var self))) eqn:Hd; [|done].
  cbn [negb].
  destruct (String.eqb_spec (normalize_ext (ext_var self)) "") as [|Hne]; [done|].
  destruct (fromtimestamp (clock w)) as [now|]; [|done].
  destruct (strftime _ _) eqn:Hs; [|done].
  intros [= <- <- <-]. by rewrite Hs.
Qed.

(** The preview has no call that changes the file system: with enough
    fuel it returns the world it was given, or raises. *)
Lemma on_preview_world fuel en self w :
  (size (fs w) < fuel)%nat →
  (∃ self', _on_preview fuel en self w = Some (Ok (self', w)))
  ∨ (∃ e, _on_preview fuel en self w = Some (Raise e)).
Proof.
  intros Hfuel. unfold _on_preview.
  destruct (_validate_inputs self w) as [[[ok directory] ext] pattern].
  destruct ok; cbn [negb]; [|left; by eexists].
  set (self1 := _log self _).
  destruct (preview_loop_total fuel (skip_already_prefixed_var self1) pattern w Hfuel
              (_collect_targets (fs w) en directory ext (recursive_var self)) 0 self1)
    as [[[n self2]|e] ->]; cbn [bind]; [|right; by eexists].
  destruct (10 <=? n); cbn [bind ret].
  - left. destruct (n =? 0); by eexists.
  - destruct (iter_files_raises _ _ _); cbn [bind exhausted]; [right; by eexists|].
    left. destruct (n =? 0); by eexists.
Qed.


End PreviewRun.


(** The preview of the fifteen pictures: ten lines, and the same world. *)
Example preview_fifteen :
  ∃ self',
    @_on_preview utc_platform 17 en_fifteen app_fifteen w_fifteen
    = Some (Ok (self', w_fifteen))
    ∧ log self'
      = [ "Preview (first 10) for directory=p, ext=.jpg, pattern='%Y%m%d', recursive=False";
          "f01.jpg -> 20240305_f01.jpg"; "f02.jpg -> 20240305_f02.jpg";
          "f03.jpg -> 20240305_f03.jpg"; "f04.jpg -> 20240305_f04.jpg";
          "f05.jpg -> 20240305_f05.jpg"; "f06.jpg -> 20240305_f06.jpg";
          "f07.jpg -> 20240305_f07.jpg"; "f08.jpg -> 20240305_f08.jpg";
          "f09.jpg -> 20240305_f09.jpg"; "f10.jpg -> 20240305_f10.jpg" ].
Proof. eexists. split; by vm_compute. Qed.

(** The preview of an empty listing. *)
Example preview_nothing :
  ∃ self',
    @_on_preview utc_platform 17 {| walk := λ _, []; scandir := λ _, ([], None) |}
      app_fifteen w_fifteen
    = Some (Ok (self', w_fifteen))
    ∧ log self'
      = [ "Preview (first 10) for directory=p, ext=.jpg, pattern='%Y%m%d', recursive=False";
          "No matching files found for preview." ].
Proof. eexists. split; by vm_compute. Qed.


(** ** Two runs in a row *)

Section RenameFacts.
Implicit Types (fs : gmap string node) (path prefix target : string).

Lemma is_target_inv fs ext path :
  is_target fs ext path = true →
  ∃ m, fs !! path = Some (File m)
       ∧ pystr.lower (posixpath.splitext path).2 = ext.
Proof.
  unfold is_target, os.path_isfile.
  intros [Hf He%String.eqb_eq]%andb_true_iff.
  destruct (fs !! path) as [[m|? ?|?|]|]; try done. by exists m.
Qed.

Lemma is_target_lookup fs fs' ext path :
  fs' !! path = fs !! path → is_target fs' ext path = is_target fs ext path.
Proof. unfold is_target, os.path_isfile. by intros ->. Qed.

(** The stem of a prefixed name with a dotted file name keeps the prefix. *)
Lemma splitext_prefixed prefix filename :
  pystr.contains filename posixpath.extsep = true →
  pystr.startswith (posixpath.splitext (prefix +:+ "_" +:+ filename)).1
    (prefix +:+ "_") = true.
Proof.
  intros Hdot. rewrite <-app_assoc.
  destruct (splitext_cases ((prefix +:+ "_") +:+ filename)) as [->|(_ & _ & ->)];
    cbn [fst].
  - apply startswith_app.
  - rewrite (rfind_app_r _ _ _ Hdot).
    pose proof (rfind_some _ _ Hdot) as H0.
    pose proof (rfind_upper filename posixpath.extsep) as H1.
    unfold pystr.upto. rewrite clip_inside.
    2:{ unfold pystr.len in *. rewrite !length_app. lia. }
    rewrite take_app_ge.
    2:{ unfold pystr.len. lia. }
    apply startswith_app.
Qed.

(** Where the target of a file lies, and how its name starts. *)
Lemma target_settles fuel fs path prefix target :
  nosep prefix →
  pystr.contains (posixpath.basename path) posixpath.extsep = true →
  ensure_unique_path fuel fs (build_prefixed_name path prefix) = Some target →
  (posixpath.split target).1 = (posixpath.split path).1
  ∧ should_skip_already_prefixed (posixpath.split target).2 prefix = true.
Proof.
  intros Hp Hdot. pose proof (split_build_prefixed_name path prefix Hp) as Hsplit.
  unfold ensure_unique_path, should_skip_already_prefixed.
  destruct (os.path_exists fs _); cbn [negb].
  - rewrite Hsplit.
    pose proof (splitext_prefixed prefix (posixpath.split path).2 Hdot) as Hstem.
    destruct (splitext_nosep (prefix +:+ "_" +:+ (posixpath.split path).2))
      as [Hs He].
    { rewrite !contains_app, Hp, split_snd, basename_nosep_result. done. }
    destruct (posixpath.splitext _) as [stem ext]. cbn [fst snd] in *.
    intros (j & _ & -> & _)%loop_sound.
    assert (nosep (stem +:+ "-" +:+ pretty j +:+ ext)) as Hn.
    { rewrite !contains_app, Hs, He, pretty_nosep. done. }
    unfold candidate.
    rewrite (split_join _ _ (split_fst_is_head path) Hn). cbn [fst snd].
    split; [done|]. by apply startswith_app_l.
  - intros [= <-]. rewrite Hsplit. cbn [fst snd]. split; [done|].
    rewrite <-app_assoc. apply startswith_app.
Qed.

End RenameFacts.

Section Twice.
Context `{Platform}.
Variables (ext pattern : string) (w0 : world).
Hypothesis ext_nonempty : ext ≠ "".
Hypothesis prefix_nosep :
  ∀ ts prefix, format_timestamp ts pattern = Ok prefix → nosep prefix.
Implicit Types (fs : gmap string node) (w : world) (self : App) (t : tally).

Lemma get_modification_prefix_file w p m :
  fs w !! p = Some (File m) →
  get_modification_prefix w p pattern = format_timestamp m pattern.
Proof.
  intros Hp. rewrite get_modification_prefix_unfold.
  unfold os.path_getmtime. by rewrite Hp.
Qed.

Lemma settled_lookup fs fs' p :
  (∀ m, fs !! p = Some (File m) → fs' !! p = Some (File m)) →
  settled pattern fs p → settled pattern fs' p.
Proof. intros E (m & prefix & ? & ? & ?). exists m, prefix. by rewrite (E m). Qed.

(** A settled file does not need its prefix. *)
Lemma settled_needs_prefix w p :
  settled pattern (fs w) p → needs_prefix ext pattern w p = false.
Proof.
  intros (m & prefix & Hfile & Hfmt & Hskip). unfold needs_prefix, preview_qualifies.
  rewrite (get_modification_prefix_file w p m Hfile), Hfmt, Hskip.
  apply andb_false_r.
Qed.

Lemma needs_prefix_lookup w w' p :
  fs w' !! p = fs w !! p → is_target (fs w) ext p = true →
  needs_prefix ext pattern w' p = needs_prefix ext pattern w p.
Proof.
  intros E Ht. destruct (is_target_inv _ _ _ Ht) as (m & Hfile & _).
  unfold needs_prefix, preview_qualifies.
  rewrite (is_target_lookup _ _ _ _ E).
  rewrite (get_modification_prefix_file w p m Hfile).
  rewrite (get_modification_prefix_file w' p m) by (by rewrite E). done.
Qed.

Lemma twice_inv_start : twice_inv ext pattern (fs w0) [] (fs w0).
Proof.
  split; [|done]. intros p _. right. split; [done|]. apply not_elem_of_nil.
Qed.

Lemma twice_inv_pass reached w path :
  twice_inv ext pattern (fs w0) reached (fs w) → is_target (fs w) ext path = false →
  twice_inv ext pattern (fs w0) (reached ++ [path]) (fs w).
Proof.
  intros [Ht Hs] Hnot. split.
  - intros p Hp. destruct (Ht p Hp) as [?|[? Hnew]]; [by left|right].
    split; [done|]. rewrite elem_of_app, list_elem_of_singleton.
    intros [? | ->]; [done|congruence].
  - intros p Hp Hnew. apply Hs; [done|]. intros ?. apply Hnew.
    apply elem_of_app. by left.
Qed.

(** A path that the run has not reached and that needs its prefix at the
    start is a target when the run reaches it. *)
Lemma needs_prefix_reached reached w path :
  twice_inv ext pattern (fs w0) reached (fs w) → path ∉ reached →
  needs_prefix ext pattern w0 path = true →
  is_target (fs w) ext path = true ∧ needs_prefix ext pattern w path = true.
Proof.
  intros Hinv Hnew Hneeds.
  assert (is_target (fs w0) ext path = true) as Ht0
    by (unfold needs_prefix in Hneeds; by apply andb_true_iff in Hneeds as [? _]).
  pose proof (inv_start Hinv path Ht0 Hnew) as E.
  split; [by rewrite (is_target_lookup _ _ _ _ E)|].
  by rewrite (needs_prefix_lookup w0 w path E Ht0).
Qed.

(** One round of the first run on a target: an error, or a skip of a file
    that does not need its prefix, or the rename of one that needs it to
    a name that carries it. *)
Lemma first_run_step fuel reached path self w :
  twice_inv ext pattern (fs w0) reached (fs w) → (size (fs w) < fuel)%nat →
  is_entry_name (posixpath.basename path) = true →
  is_target (fs w) ext path = true →
  (∃ e, rename_one fuel true pattern path self w = Some (Raise e))
  ∨ (rename_one fuel true pattern path self w = Some (Ok (Skipped, self, w))
     ∧ needs_prefix ext pattern w path = false
     ∧ twice_inv ext pattern (fs w0) (reached ++ [path]) (fs w))
  ∨ (∃ target w',
       rename_one fuel true pattern path self w
       = Some (Ok (Renamed, logged self [renamed_line path target], w'))
       ∧ needs_prefix ext pattern w path = true
       ∧ (size (fs w') ≤ size (fs w))%nat
       ∧ settled pattern (fs w') target
       ∧ twice_inv ext pattern (fs w0) (reached ++ [path]) (fs w')).
Proof.
  intros Hinv Hfuel Hname Htarget.
  destruct (is_target_inv _ _ _ Htarget) as (m & Hfile & Hext).
  assert (pystr.contains (posixpath.basename path) posixpath.extsep = true) as Hdot.
  { apply splitext_ext_dot. intros E. rewrite E in Hext. by apply ext_nonempty. }
  unfold needs_prefix, preview_qualifies. rewrite Htarget.
  rewrite rename_one_unfold, (get_modification_prefix_file w path m Hfile).
  destruct (format_timestamp m pattern) as [prefix|e] eqn:Hfmt; [|left; by exists e].
  pose proof (prefix_nosep _ _ Hfmt) as Hsep.
  cbn [bind call ret looping andb].
  destruct (should_skip_already_prefixed (posixpath.split path).2 prefix) eqn:Hskip.
  - right; left. split; [done|]. split; [done|]. destruct Hinv as [Ht Hs]. split.
    + intros p Hp. destruct (decide (p = path)) as [->|Hne].
      * left. by exists m, prefix.
      * destruct (Ht p Hp) as [?|[? Hnew]]; [by left|right]. split; [done|].
        rewrite elem_of_app, list_elem_of_singleton. by intros [?|?].
    + intros p Hp Hnew. apply Hs; [done|]. intros ?. apply Hnew.
      apply elem_of_app. by left.
  - destruct (ensure_unique_path_total fuel (fs w) (build_prefixed_name path prefix)
                Hfuel) as [target Htarget'].
    rewrite Htarget'. cbn [bind call ret looping].
    destruct (String.eqb_spec (posixpath.abspath (cwd w) path)
                (posixpath.abspath (cwd w) target)) as [E|_].
    { by destruct (target_abspath _ _ (cwd w) _ _ _ Hname Htarget'). }
    destruct (target_settles _ _ _ _ _ Hsep Hdot Htarget') as [Hsame Hstart].
    pose proof (ensure_unique_path_free _ _ _ _ Htarget') as Hfree.
    destruct (os.rename (fs w) (clock w) path target) as [fs'|e] eqn:Hmv;
      cbn [bind call ret]; [|left; by exists e].
    right; right. exists target, (set_fs w fs'). split; [done|]. split; [done|].
    split; [cbn [fs set_fs]; by eapply rename_size|].
    apply os_rename_inv in Hmv as (m' & Hm' & _ & _ & ->).
    assert (m' = m) as -> by congruence.
    assert (target ≠ path) as Hdiff.
    { intros ->. unfold os.path_exists in Hfree. by rewrite Hfile in Hfree. }
    cbn [fs set_fs].
    set (fs1 := <[target:=File m]> (delete path (fs w))).
    set (fs2 := os.touch (os.touch fs1 _ _) _ _).
    assert (∀ p x, fs2 !! p = Some (File x) ↔ fs1 !! p = Some (File x)) as Hfiles.
    { intros p x. unfold fs2. by rewrite !touch_lookup_file. }
    assert (∀ p x, p ≠ path → fs w !! p = Some (File x) → fs2 !! p = Some (File x))
      as Hkeep.
    { intros p x Hp Hx. apply Hfiles. unfold fs1.
      rewrite lookup_insert_ne.
      - by rewrite lookup_delete_ne.
      - intros <-. unfold os.path_exists in Hfree. by rewrite Hx in Hfree. }
    assert (settled pattern fs2 target) as Hsettled.
    { exists m, prefix. split; [|done]. apply Hfiles. unfold fs1.
      by rewrite lookup_insert_eq. }
    split; [done|].
    destruct Hinv as [Ht Hs]. split.
    + intros p Hp. apply is_target_inv in Hp as (x & Hx & Hpext).
      apply Hfiles in Hx. unfold fs1 in Hx.
      destruct (decide (p = target)) as [->|Hpt]; [by left|].
      rewrite lookup_insert_ne in Hx by done.
      destruct (decide (p = path)) as [->|Hpp].
      { by rewrite lookup_delete_eq in Hx. }
      rewrite lookup_delete_ne in Hx by done.
      assert (is_target (fs w) ext p = true) as Hp'.
      { unfold is_target, os.path_isfile. rewrite Hx, Hpext. by rewrite String.eqb_refl. }
      destruct (Ht p Hp') as [Hset|[Hold Hnew]].
      * left. eapply settled_lookup; [|exact Hset]. intros y Hy. by apply Hkeep.
      * right. split; [by rewrite <-Hold, Hx, (Hkeep p x)|].
        rewrite elem_of_app, list_elem_of_singleton. by intros [?|?].
    + intros p Hp Hnew.
      assert ((p ∉ reached) ∧ p ≠ path) as [Hnew' Hpp].
      { split; [intros ?|intros ->]; apply Hnew; apply elem_of_app;
          [by left|right; by apply list_elem_of_singleton]. }
      specialize (Hs p Hp Hnew').
      apply is_target_inv in Hp as (x & Hx & _). rewrite Hx in Hs |- *.
      by apply Hkeep.
Qed.

Lemma rename_loop_errors fuel skip paths : ∀ t self w t' self' w',
  rename_loop fuel skip ext pattern paths t self w = Some (t', self', w') →
  errors t ≤ errors t'.
Proof.
  induction paths as [|path rest IH]; intros t self w t' self' w'.
  { by intros [= <- _ _]. }
  cbn [rename_loop]. destruct (is_target (fs w) ext path); cbn [negb]; [|by apply IH].
  destruct (rename_one fuel skip pattern path self w) as [[[[[] ?] ?]|?]|];
    [| | |done]; intros Hloop%IH; cbn [errors] in Hloop; lia.
Qed.

(** A run with the skip option leaves a settled file where it is. *)
Lemma settled_persists fuel q : ∀ paths t self w t' self' w',
  rename_loop fuel true ext pattern paths t self w = Some (t', self', w') →
  settled pattern (fs w) q → settled pattern (fs w') q.
Proof.
  induction paths as [|path rest IH]; intros t self w t' self' w'.
  { by intros [= _ _ <-]. }
  cbn [rename_loop]. destruct (is_target (fs w) ext path); cbn [negb]; [|by apply IH].
  destruct (rename_one fuel true pattern path self w) as [[[[v self1] w1]|e]|] eqn:E;
    [| |done].
  2:{ apply IH. }
  assert (settled pattern (fs w) q → settled pattern (fs w1) q) as Hstep.
  { intros (m & prefix & Hfile & Hfmt & Hskip).
    revert E. rewrite rename_one_unfold. cbn [bind call ret looping andb].
    destruct (decide (q = path)) as [->|Hne].
    { rewrite (get_modification_prefix_file w path m Hfile), Hfmt, Hskip.
      intros [= _ _ <-]. by exists m, prefix. }
    destruct (get_modification_prefix w path pattern) as [prefix'|]; [|done].
    destruct (should_skip_already_prefixed _ prefix');
      [intros [= _ _ <-]; by exists m, prefix|].
    destruct (ensure_unique_path fuel (fs w) _) as [target|] eqn:Ht;
      cbn [bind looping]; [|done].
    destruct (String.eqb _ _); [intros [= _ _ <-]; by exists m, prefix|].
    destruct (os.rename (fs w) (clock w) path target) as [fs'|] eqn:Hmv;
      cbn [bind call ret]; [|done].
    intros [= _ _ <-]. apply os_rename_inv in Hmv as (m' & _ & _ & _ & ->).
    exists m, prefix. split; [|done]. cbn [fs set_fs].
    rewrite !touch_lookup_file, lookup_insert_ne.
    - by rewrite lookup_delete_ne.
    - intros <-. apply ensure_unique_path_free in Ht.
      unfold os.path_exists in Ht. by rewrite Hfile in Ht. }
  destruct v; intros Hloop Hq; by apply (IH _ _ _ _ _ _ Hloop), Hstep.
Qed.

(** A first run that counts no error renames the files that need their
    prefix, each once, and leaves every target settled. *)
Lemma first_run fuel : ∀ paths reached t self w t' self' w',
  twice_inv ext pattern (fs w0) reached (fs w) → (size (fs w) < fuel)%nat →
  Forall (λ p, is_entry_name (posixpath.basename p) = true) paths →
  NoDup paths → (∀ p, p ∈ paths → p ∉ reached) →
  rename_loop fuel true ext pattern paths t self w = Some (t', self', w') →
  errors t' = errors t →
  twice_inv ext pattern (fs w0) (reached ++ paths) (fs w')
  ∧ count t'
    = count t
      + Z.of_nat (length (filter (λ p, needs_prefix ext pattern w0 p = true) paths))
  ∧ ∃ lines,
      self' = logged self lines
      ∧ Forall2 (λ p line, ∃ target, line = renamed_line p target
                                     ∧ settled pattern (fs w') target)
          (filter (λ p, needs_prefix ext pattern w0 p = true) paths) lines.
Proof.
  induction paths as [|path rest IH];
    intros reached t self w t' self' w' Hinv Hfuel Hnames Hnd Hnew.
  - intros [= <- <- <-] _. rewrite List.app_nil_r. split; [done|].
    split; [simpl; lia|]. exists []. by rewrite logged_nil.
  - apply Forall_cons in Hnames as [Hname Hnames].
    apply NoDup_cons in Hnd as [Hfresh Hnd].
    assert (path ∉ reached) as Hpath by (apply Hnew; by left).
    assert (∀ p, p ∈ rest → p ∉ reached ++ [path]) as Hnew'.
    { intros p Hp. rewrite elem_of_app, list_elem_of_singleton.
      intros [?| ->]; [|done]. by apply (Hnew p); [right|]. }
    replace (reached ++ path :: rest) with ((reached ++ [path]) ++ rest)
      by (by rewrite <-(assoc_L (++))).
    cbn [rename_loop]. rewrite filter_cons.
    destruct (is_target (fs w) ext path) eqn:Htarget; cbn [negb].
    + destruct (first_run_step fuel reached path self w Hinv Hfuel Hname Htarget)
        as [[e ->]|[(-> & Hneeds & Hinv')
                   |(target & w1 & -> & Hneeds & Hsz & Hset1 & Hinv')]].
      * intros Hloop%rename_loop_errors Herr. cbn [errors] in Hloop. lia.
      * assert (needs_prefix ext pattern w0 path = false) as Hneeds0.
        { destruct (needs_prefix ext pattern w0 path) eqn:E0; [|done].
          destruct (needs_prefix_reached reached w path Hinv Hpath E0). congruence. }
        rewrite decide_False by congruence.
        intros Hloop Herr.
        destruct (IH (reached ++ [path]) _ _ _ _ _ _ Hinv' Hfuel Hnames Hnd Hnew'
                    Hloop Herr) as (Hi & Hc & Hl).
        split; [done|]. split; [exact Hc|exact Hl].
      * assert (needs_prefix ext pattern w0 path = true) as Hneeds0.
        { destruct (inv_targets Hinv path Htarget) as [Hset|[Hold _]].
          - apply settled_needs_prefix in Hset. congruence.
          - rewrite <-Hneeds. symmetry. apply needs_prefix_lookup; [done|].
            by rewrite <-(is_target_lookup _ _ _ _ Hold). }
        rewrite decide_True by done.
        intros Hloop Herr.
        destruct (IH (reached ++ [path]) _ _ _ _ _ _ Hinv' ltac:(lia) Hnames Hnd Hnew'
                    Hloop Herr) as (Hi & Hc & lines & -> & Hl).
        split; [done|]. split.
        { rewrite Hc. cbn [count length]. lia. }
        exists (renamed_line path target :: lines). rewrite logged_logged.
        split; [done|]. constructor; [|done].
        exists target. split; [done|]. by eapply settled_persists.
    + assert (needs_prefix ext pattern w0 path = false) as Hneeds0.
      { destruct (needs_prefix ext pattern w0 path) eqn:E0; [|done].
        destruct (needs_prefix_reached reached w path Hinv Hpath E0). congruence. }
      rewrite decide_False by congruence.
      intros Hloop Herr.
      apply (IH (reached ++ [path]) _ _ _ _ _ _ (twice_inv_pass _ _ _ Hinv Htarget)
               Hfuel Hnames Hnd Hnew' Hloop Herr).
Qed.

(** A run over settled targets skips each of them and changes nothing. *)
Lemma second_run fuel : ∀ paths t self w,
  (∀ p, p ∈ paths → is_target (fs w) ext p = true → settled pattern (fs w) p) →
  rename_loop fuel true ext pattern paths t self w
  = Some (Tally (count t)
            (skipped t
             + Z.of_nat (length (filter (λ p, is_target (fs w) ext p = true) paths)))
            (errors t), self, w).
Proof.
  induction paths as [|path rest IH]; intros t self w Hall.
  - simpl. rewrite Z.add_0_r. by destruct t.
  - simpl rename_loop. rewrite filter_cons.
    destruct (is_target (fs w) ext path) eqn:Htarget; cbn [negb].
    + destruct (Hall path) as (m & prefix & Hfile & Hfmt & Hskip); [by left|done|].
      rewrite rename_one_unfold, (get_modification_prefix_file w path m Hfile), Hfmt.
      cbn [bind call ret looping andb]. rewrite Hskip. cbv [ret]. cbv beta iota.
      rewrite IH by (intros p Hp; apply Hall; by right).
      rewrite decide_True by done. cbn [length count skipped errors].
      set (n := length (filter _ rest)).
      by replace (skipped t + 1 + Z.of_nat n) with (skipped t + Z.of_nat (S n)) by lia.
    + rewrite decide_False by congruence.
      apply IH. intros p Hp. apply Hall. by right.
Qed.

End Twice.


Lemma times_nosep n : nosep (pystr.times "0" n).
Proof. induction n as [|n IH]; [done|]. simpl. by rewrite IH. Qed.

Lemma utc_directive_nosep d c s : utc.directive d c = Some s → nosep s.
Proof.
  unfold utc.directive.
  destruct c as [[] [] [] [] [] [] [] []]; try done; intros [= <-]; try done;
    unfold utc.zfill; by rewrite contains_app, times_nosep, pretty_nosep.
Qed.

(** On the platform [utc] a pattern without separator gives a prefix without one. *)
Lemma utc_strftime_nosep d pattern prefix :
  nosep pattern → utc.strftime d pattern = Ok prefix → nosep prefix.
Proof.
  remember (String.length pattern) as n eqn:Hn.
  revert pattern prefix Hn. induction (lt_wf n) as [n _ IH]; intros pattern prefix ->.
  destruct pattern as [|a rest]; [by intros _ [= <-]|].
  rewrite contains_cons. intros [Ha Hrest]%orb_false_iff. simpl.
  destruct (Ascii.eqb a "%").
  - destruct rest as [|c rest']; [done|].
    rewrite contains_cons in Hrest. apply orb_false_iff in Hrest as [_ Hrest'].
    destruct (utc.directive d c) as [s|] eqn:Hd; [|done].
    destruct (utc.strftime d rest') as [t|] eqn:E; [|done]. intros [= <-].
    rewrite contains_app, (utc_directive_nosep _ _ _ Hd).
    by rewrite (IH (String.length rest') ltac:(simpl; lia) rest' t eq_refl Hrest' E).
  - destruct (utc.strftime d rest) as [t|] eqn:E; [|done]. intros [= <-].
    rewrite contains_cons, Ha.
    by rewrite (IH (String.length rest) ltac:(simpl; lia) rest t eq_refl Hrest E).
Qed.

Lemma utc_format_nosep pattern ts prefix :
  nosep pattern → @format_timestamp utc_platform ts pattern = Ok prefix → nosep prefix.
Proof.
  intros Hp. unfold format_timestamp.
  destruct (@fromtimestamp utc_platform ts) as [dt|]; [|done].
  by apply utc_strftime_nosep.
Qed.


(** The two runs over [fs_photos]: two renames, then two skips. *)
Example rename_twice_photos :
  ∃ self1 w1,
    @rename_loop utc_platform 9 true ".jpg" DEFAULT_PATTERN
      (iter_files en_photos "d" true) (Tally 0 0 0) app_mixed
      (World fs_photos "/home/u" 1700000000)
    = Some (Tally 2 0 0, self1, w1)
    ∧ log self1 = [ "RENAMED: a.jpg -> 2024-03-05-14-30-00_a.jpg";
                    "RENAMED: b.JPG -> 2024-03-05-14-30-01_b.JPG" ]
    ∧ @rename_loop utc_platform 9 true ".jpg" DEFAULT_PATTERN
        paths_photos_after (Tally 0 0 0) self1 w1
      = Some (Tally 0 2 0, self1, w1).
Proof. eexists _, _. split; [by vm_compute|]. split; by vm_compute. Qed.


(** * Further properties *)

(** ** More on white space and case *)

Section StripMore.
Implicit Types (s t : string) (a c : ascii) (f : ascii → bool).

Lemma lstrip_by_idem f s :
  pystr.lstrip_by f (pystr.lstrip_by f s) = pystr.lstrip_by f s.
Proof.
  induction s as [|a s IH]; simpl; [done|].
  destruct (f a) eqn:E; [done|]. simpl. by rewrite E.
Qed.

Lemma lstrip_by_length f s :
  (String.length (pystr.lstrip_by f s) ≤ String.length s)%nat.
Proof.
  induction s as [|a s IH]; simpl; [done|]. destruct (f a); simpl; lia.
Qed.

Lemma lstrip_by_fixed_head f a s :
  pystr.lstrip_by f (String a s) = String a s → f a = false.
Proof.
  simpl. destruct (f a); [|done]. intros E%(f_equal String.length).
  pose proof (lstrip_by_length f s). simpl in E. lia.
Qed.

Lemma lstrip_by_length_eq f s :
  String.length (pystr.lstrip_by f s) = String.length s → pystr.lstrip_by f s = s.
Proof.
  destruct s as [|a s]; simpl; [done|]. destruct (f a); [|done].
  pose proof (lstrip_by_length f s). simpl. lia.
Qed.

Lemma lstrip_by_rstrip_by f s :
  pystr.lstrip_by f s = s →
  pystr.lstrip_by f (pystr.rstrip_by f s) = pystr.rstrip_by f s.
Proof.
  destruct s as [|a s]; [done|]. intros Ha%lstrip_by_fixed_head.
  simpl. rewrite Ha, andb_false_r. simpl. by rewrite Ha.
Qed.

Lemma strip_idem s : pystr.strip (pystr.strip s) = pystr.strip s.
Proof.
  unfold pystr.strip.
  rewrite (lstrip_by_rstrip_by _ _ (lstrip_by_idem _ s)). apply rstrip_by_idem.
Qed.

Lemma strip_fixed s :
  pystr.strip s = s →
  pystr.lstrip_by pystr.isspace s = s ∧ pystr.rstrip_by pystr.isspace s = s.
Proof.
  unfold pystr.strip. intros E.
  assert (pystr.lstrip_by pystr.isspace s = s) as El.
  { apply lstrip_by_length_eq.
    pose proof (lstrip_by_length pystr.isspace s).
    pose proof (rstrip_by_length pystr.isspace (pystr.lstrip_by pystr.isspace s)) as L.
    rewrite E in L. lia. }
  split; [done|]. by rewrite El in E.
Qed.

Lemma strip_dot s : pystr.strip s = s → pystr.strip ("." +:+ s) = "." +:+ s.
Proof.
  intros [_ Er]%strip_fixed. unfold pystr.strip.
  change ("." +:+ s) with (String "." s). simpl. by rewrite Er, andb_false_r.
Qed.

Lemma isspace_lower_char a : pystr.isspace (pystr.lower_char a) = pystr.isspace a.
Proof. by destruct a as [[] [] [] [] [] [] [] []]. Qed.

Lemma dot_lower_char a : Ascii.eqb (pystr.lower_char a) "." = Ascii.eqb a ".".
Proof. by destruct a as [[] [] [] [] [] [] [] []]. Qed.

Lemma lower_nil s : String.eqb (pystr.lower s) "" = String.eqb s "".
Proof. by destruct s. Qed.

Lemma lstrip_lower s :
  pystr.lstrip_by pystr.isspace (pystr.lower s)
  = pystr.lower (pystr.lstrip_by pystr.isspace s).
Proof.
  induction s as [|a s IH]; simpl; [done|]. rewrite isspace_lower_char.
  by destruct (pystr.isspace a).
Qed.

Lemma rstrip_lower s :
  pystr.rstrip_by pystr.isspace (pystr.lower s)
  = pystr.lower (pystr.rstrip_by pystr.isspace s).
Proof.
  induction s as [|a s IH]; simpl; [done|].
  rewrite IH, lower_nil, isspace_lower_char.
  by destruct (String.eqb _ "" && pystr.isspace a).
Qed.

Lemma strip_lower s : pystr.strip (pystr.lower s) = pystr.lower (pystr.strip s).
Proof. unfold pystr.strip. by rewrite lstrip_lower, rstrip_lower. Qed.

Lemma startswith_dot_lower s :
  pystr.startswith (pystr.lower s) "." = pystr.startswith s ".".
Proof. destruct s as [|a s]; simpl; [done|]. by rewrite dot_lower_char. Qed.

Lemma lower_dot s : pystr.lower ("." +:+ s) = "." +:+ pystr.lower s.
Proof. reflexivity. Qed.

Lemma contains_dot_lower s :
  pystr.contains (pystr.lower s) "." = pystr.contains s ".".
Proof.
  induction s as [|a s IH]; simpl; [done|]. by rewrite IH, dot_lower_char.
Qed.

(** What [normalize_ext] returns for a text that is not blank. *)
Lemma normalize_ext_value ext :
  pystr.strip ext ≠ "" →
  normalize_ext ext
  = pystr.lower (if pystr.startswith (pystr.strip ext) "." then pystr.strip ext
                 else "." +:+ pystr.strip ext).
Proof.
  intros Hne. unfold normalize_ext.
  destruct (String.eqb_spec (pystr.strip ext) ""); [done|].
  by destruct (pystr.startswith (pystr.strip ext) ".").
Qed.

Lemma normalize_ext_fixed r :
  pystr.strip r = r → pystr.startswith r "." = true → pystr.lower r = r →
  normalize_ext r = r.
Proof.
  intros Hs Hd Hl. rewrite normalize_ext_value; rewrite Hs.
  - by rewrite Hd.
  - intros ->. done.
Qed.

Lemma normalize_ext_stripped ext : pystr.strip (normalize_ext ext) = normalize_ext ext.
Proof.
  destruct (String.eqb_spec (pystr.strip ext) "") as [E|Hne].
  - unfold normalize_ext. by rewrite E.
  - rewrite (normalize_ext_value ext Hne), strip_lower. f_equal.
    destruct (pystr.startswith (pystr.strip ext) ".").
    + apply strip_idem.
    + apply strip_dot, strip_idem.
Qed.

End StripMore.

(** X1: [normalize_ext] is idempotent: a filter that was normalised is
    left as it is by a second normalisation. *)
Theorem normalize_ext_idempotent (ext : string) :
  normalize_ext (normalize_ext ext) = normalize_ext ext.
Proof.
  destruct (normalize_ext_dot ext) as [E|Hd].
  - rewrite E. reflexivity.
  - apply normalize_ext_fixed; [apply normalize_ext_stripped|done|apply normalize_ext_lower].
Qed.

(** X2: [normalize_ext] does not see the case of what was typed: the text
    and its lower-case form give the same filter. *)
Theorem normalize_ext_ignores_case (ext : string) :
  normalize_ext (pystr.lower ext) = normalize_ext ext.
Proof.
  unfold normalize_ext. rewrite strip_lower, lower_nil.
  destruct (String.eqb (pystr.strip ext) ""); [done|].
  rewrite startswith_dot_lower.
  destruct (pystr.startswith (pystr.strip ext) "."); cbn [negb].
  - apply lower_idem.
  - by rewrite !lower_dot, lower_idem.
Qed.

(** X3: the leading dot is optional: for a text without white space
    around it that is not empty and does not start with a dot,
    [normalize_ext] puts the dot before its lower-case form, and the text
    with a dot before it gives the same filter. *)
Theorem normalize_ext_dot_optional (s : string) :
  pystr.strip s = s → s ≠ "" → pystr.startswith s "." = false →
  normalize_ext s = "." +:+ pystr.lower s
  ∧ normalize_ext ("." +:+ s) = normalize_ext s.
Proof.
  intros Hs Hne Hd.
  assert (normalize_ext s = "." +:+ pystr.lower s) as E.
  { rewrite normalize_ext_value; rewrite Hs; [|done]. by rewrite Hd. }
  split; [done|]. rewrite E.
  rewrite normalize_ext_value; rewrite (strip_dot s Hs); [|done].
  done.
Qed.

Lemma normalize_ext_dot_optional_witness :
  normalize_ext "jpg" = ".jpg" ∧ normalize_ext ".jpg" = normalize_ext "jpg".
Proof. apply (normalize_ext_dot_optional "jpg"); done. Defined.

(** ** The shape of an extension *)

Section ExtFacts.
Implicit Types (p pre h a b t : string).

Lemma slice_one pre c t :
  pystr.slice (pre +:+ String c t) (pystr.len pre) (pystr.len pre + 1) = String c "".
Proof.
  unfold pystr.slice.
  assert (pystr.len (pre +:+ String c t) = pystr.len pre + 1 + pystr.len t) as L.
  { rewrite len_app. unfold pystr.len. simpl String.length. lia. }
  pose proof (len_nonneg pre). pose proof (len_nonneg t).
  rewrite !clip_inside by lia.
  replace (Z.to_nat (pystr.len pre)) with (String.length pre)
    by (unfold pystr.len; lia).
  rewrite drop_app_length.
  replace (Z.to_nat (pystr.len pre + 1) - String.length pre)%nat with 1%nat
    by (unfold pystr.len; lia).
  by destruct t.
Qed.

Lemma splitext_scan_app pre h t :
  posixpath.splitext_scan (pre +:+ h +:+ t) (pystr.len pre) (String.length h)
  = negb (dots_only h).
Proof.
  revert pre. induction h as [|c h IH]; intros pre; [done|].
  rewrite app_cons. simpl posixpath.splitext_scan. rewrite slice_one.
  change (String.eqb (String c "") ".") with (Ascii.eqb c "." && true).
  rewrite andb_true_r. simpl dots_only.
  destruct (Ascii.eqb c posixpath.extsep) eqn:E;
    change (Ascii.eqb c ".") with (Ascii.eqb c posixpath.extsep); rewrite E; [|done].
  cbn [negb andb].
  specialize (IH (pre +:+ String c "")).
  rewrite len_app in IH. change (pystr.len (String c "")) with 1 in IH.
  rewrite <-IH. f_equal. by rewrite app_assoc.
Qed.

(** Where the last separator of [pre ++ t] lies when [t] has none. *)
Lemma rfind_sep_prefixed pre t :
  is_dir_prefix pre → nosep t → pystr.rfind (pre +:+ t) posixpath.sep = pystr.len pre - 1.
Proof.
  intros [->|[h ->]] Ht.
  - change ("" +:+ t) with t. by rewrite (rfind_none _ _ Ht).
  - rewrite app_assoc. change ("/" +:+ t) with (String posixpath.sep t).
    rewrite (rfind_last _ _ _ Ht), len_app. change (pystr.len "/") with 1. lia.
Qed.

Lemma rfind_dot_prefix pre :
  is_dir_prefix pre → pystr.rfind pre posixpath.extsep < pystr.len pre - 1 ∨ pre = "".
Proof.
  intros [->|[h ->]]; [by right|left].
  rewrite (rfind_app_l h "/" posixpath.extsep) by done.
  rewrite len_app. change (pystr.len "/") with 1.
  pose proof (rfind_upper h posixpath.extsep). lia.
Qed.

Lemma splitext_undotted pre t :
  is_dir_prefix pre → nosep t → pystr.contains t posixpath.extsep = false →
  posixpath.splitext (pre +:+ t) = (pre +:+ t, "").
Proof.
  intros Hpre Ht Hdot. unfold posixpath.splitext.
  rewrite (rfind_sep_prefixed pre t Hpre Ht), (rfind_app_l pre t _ Hdot).
  assert ((pystr.len pre - 1 <? pystr.rfind pre posixpath.extsep) = false) as ->.
  { apply Z.ltb_ge. destruct (rfind_dot_prefix pre Hpre) as [?| ->]; [lia|done]. }
  cbn [andb]. by rewrite upto_0.
Qed.

Lemma splitext_dotted pre a b :
  is_dir_prefix pre → nosep a → nosep b → pystr.contains b posixpath.extsep = false →
  posixpath.splitext (pre +:+ a +:+ "." +:+ b)
  = if dots_only a then (pre +:+ a +:+ "." +:+ b, "") else (pre +:+ a, "." +:+ b).
Proof.
  intros Hpre Ha Hb Hdot. unfold posixpath.splitext.
  rewrite rfind_sep_prefixed; [|done|].
  2:{ rewrite !contains_app, Ha, Hb. done. }
  assert (pystr.rfind (pre +:+ a +:+ "." +:+ b) posixpath.extsep = pystr.len pre + pystr.len a)
    as ->.
  { rewrite <-app_assoc. change ("." +:+ b) with (String posixpath.extsep b).
    by rewrite (rfind_last _ _ _ Hdot), len_app. }
  pose proof (len_nonneg a).
  assert ((pystr.len pre - 1 <? pystr.len pre + pystr.len a) = true) as ->
    by (apply Z.ltb_lt; lia).
  replace (pystr.len pre - 1 + 1) with (pystr.len pre) by lia.
  replace (Z.to_nat (pystr.len pre + pystr.len a - pystr.len pre))
    with (String.length a) by (unfold pystr.len; lia).
  rewrite splitext_scan_app. cbn [andb].
  destruct (dots_only a); cbn [negb].
  - by rewrite upto_0.
  - rewrite <-len_app, <-app_assoc. by rewrite upto_app, from_app.
Qed.

(** A name without separator has no dot, or a last dot. *)
Lemma name_cut t :
  nosep t →
  pystr.contains t posixpath.extsep = false
  ∨ ∃ a b, t = a +:+ "." +:+ b ∧ nosep a ∧ nosep b
           ∧ pystr.contains b posixpath.extsep = false.
Proof.
  intros Ht. destruct (pystr.contains t posixpath.extsep) eqn:E; [right|by left].
  destruct (rfind_cut _ _ E) as (a & b & -> & Hb). exists a, b.
  rewrite contains_app in Ht. apply orb_false_iff in Ht as [Ha Hb'].
  rewrite contains_cons in Hb'. apply orb_false_iff in Hb' as [_ Hb'].
  done.
Qed.

(** A path is a directory prefix followed by its last component. *)
Lemma path_prefix p :
  ∃ pre, is_dir_prefix pre ∧ p = pre +:+ posixpath.basename p.
Proof.
  destruct (path_cut p) as [Hp|(h & t & -> & Ht)].
  - exists "". split; [by left|]. by rewrite basename_nosep.
  - exists (h +:+ "/"). split; [right; by exists h|].
    by rewrite (basename_sep h t Ht), app_assoc.
Qed.

Lemma join_prefix_is_dir_prefix d : is_dir_prefix (join_prefix d).
Proof. apply join_prefix_shape. Qed.

(** The extension of a path is the extension of its last component. *)
Lemma splitext_snd_prefixed pre t :
  is_dir_prefix pre → nosep t →
  (posixpath.splitext (pre +:+ t)).2 = (posixpath.splitext t).2.
Proof.
  intros Hpre Ht.
  destruct (name_cut t Ht) as [Hdot|(a & b & -> & Ha & Hb & Hdot)].
  - rewrite (splitext_undotted pre t Hpre Ht Hdot).
    pose proof (splitext_undotted "" t (or_introl eq_refl) Ht Hdot) as E.
    change ("" +:+ t) with t in E. by rewrite E.
  - rewrite (splitext_dotted pre a b Hpre Ha Hb Hdot).
    pose proof (splitext_dotted "" a b (or_introl eq_refl) Ha Hb Hdot) as E.
    change ("" +:+ a +:+ "." +:+ b) with (a +:+ "." +:+ b) in E.
    change ("" +:+ a) with a in E. rewrite E.
    by destruct (dots_only a).
Qed.

Lemma splitext_snd_basename p :
  (posixpath.splitext p).2 = (posixpath.splitext (posixpath.basename p)).2.
Proof.
  destruct (path_prefix p) as (pre & Hpre & E). rewrite E at 1.
  apply splitext_snd_prefixed; [done|apply basename_nosep_result].
Qed.

(** The two shapes of a name and its [splitext]. *)
Lemma splitext_name t :
  nosep t →
  (posixpath.splitext t = (t, ""))
  ∨ ∃ a b, t = a +:+ "." +:+ b ∧ dots_only a = false ∧ nosep a ∧ nosep b
           ∧ pystr.contains b posixpath.extsep = false
           ∧ posixpath.splitext t = (a, "." +:+ b).
Proof.
  intros Ht.
  destruct (name_cut t Ht) as [Hdot|(a & b & -> & Ha & Hb & Hdot)].
  - left. pose proof (splitext_undotted "" t (or_introl eq_refl) Ht Hdot) as E.
    by change ("" +:+ t) with t in E.
  - pose proof (splitext_dotted "" a b (or_introl eq_refl) Ha Hb Hdot) as E.
    change ("" +:+ a +:+ "." +:+ b) with (a +:+ "." +:+ b) in E.
    change ("" +:+ a) with a in E.
    destruct (dots_only a) eqn:Hd; [by left|right]. by exists a, b.
Qed.

Lemma dots_only_app a b : dots_only (a +:+ b) = dots_only a && dots_only b.
Proof.
  induction a as [|c a IH]; [done|]. rewrite app_cons. simpl.
  by rewrite IH, andb_assoc.
Qed.

Lemma dots_only_contains a c :
  pystr.contains a c = true → c ≠ posixpath.extsep → dots_only a = false.
Proof.
  intros Hc Hne. induction a as [|x a IH]; [done|]. simpl in *.
  destruct (Ascii.eqb_spec x posixpath.extsep) as [->|]; [|done]. simpl.
  apply IH. destruct (Ascii.eqb_spec posixpath.extsep c); [congruence|done].
Qed.

Lemma dot_not_digit : not_digit posixpath.extsep.
Proof. intros n. unfold pretty_N_char. by repeat case_match. Qed.

Lemma pretty_nodot (i : Z) : pystr.contains (pretty i) posixpath.extsep = false.
Proof. apply pretty_Z_contains; [apply dot_not_digit|done]. Qed.

End ExtFacts.

(** ** Names that keep their extension *)

Section ExtKept.
Implicit Types (fs : gmap string node) (p t r path prefix : string).

Lemma splitext_ext_shape p :
  (posixpath.splitext p).2 = ""
  ∨ ∃ a b, posixpath.basename p = a +:+ "." +:+ b ∧ dots_only a = false
           ∧ pystr.contains b posixpath.extsep = false
           ∧ (posixpath.splitext p).2 = "." +:+ b.
Proof.
  rewrite splitext_snd_basename.
  destruct (splitext_name (posixpath.basename p) (basename_nosep_result p))
    as [->|(a & b & E & Hd & _ & _ & Hdot & ->)]; [by left|right].
  by exists a, b.
Qed.

Lemma is_target_false_compound fs ext path :
  pystr.contains (pystr.drop 1 ext) posixpath.extsep = true →
  is_target fs ext path = false.
Proof.
  intros Hc. unfold is_target.
  destruct (String.eqb_spec (pystr.lower (posixpath.splitext path).2) ext) as [E|_];
    [|apply andb_false_r].
  exfalso. destruct (splitext_ext_shape path) as [E0|(a & b & _ & _ & Hdot & Eb)].
  - rewrite E0 in E. by rewrite <-E in Hc.
  - rewrite Eb in E. rewrite <-E in Hc. change (pystr.drop 1 (pystr.lower ("." +:+ b)))
      with (pystr.lower b) in Hc.
    rewrite contains_dot_lower in Hc. unfold posixpath.extsep in *. congruence.
Qed.

End ExtKept.

(** X9: a filter with a dot after its first character selects no path:
    the extension of a path holds one dot, its first character. *)
Theorem compound_filter_selects_nothing (fs : gmap string node) (en : enumerator)
    (directory ext : string) (recursive : bool) :
  pystr.contains (pystr.drop 1 ext) posixpath.extsep = true →
  _collect_targets fs en directory ext recursive = [].
Proof.
  intros Hc. unfold _collect_targets.
  induction (iter_files en directory recursive) as [|path rest IH]; [done|].
  rewrite filter_cons, decide_False; [done|].
  rewrite (is_target_false_compound fs ext path Hc). done.
Qed.

Lemma compound_filter_selects_nothing_witness :
  normalize_ext "tar.gz" = ".tar.gz"
  ∧ _collect_targets {[ "d/x.tar.gz" := File 5 ]}
      {| walk := λ base_dir, [ (base_dir, [], ["x.tar.gz"]) ]; scandir := λ _, ([], None) |}
      "d" (normalize_ext "tar.gz") true = [].
Proof.
  split; [reflexivity|].
  apply (compound_filter_selects_nothing _ _ "d" (normalize_ext "tar.gz") true).
  reflexivity.
Defined.

(** X10: the name of a target of a filter that is not empty is [a.b], where
    [a] holds a character that is not a dot, [b] holds no dot, and the
    filter is [.b] in lower case; a name whose dots all stand at its start
    is never a target. *)
Theorem target_name_shape (fs : gmap string node) (ext path : string) :
  is_target fs ext path = true → ext ≠ "" →
  ∃ a b, posixpath.basename path = a +:+ "." +:+ b
         ∧ dots_only a = false
         ∧ pystr.contains b posixpath.extsep = false
         ∧ ext = "." +:+ pystr.lower b.
Proof.
  intros (m & _ & Hext)%is_target_inv Hne.
  destruct (splitext_ext_shape path) as [E0|(a & b & Hb & Hd & Hdot & Eb)].
  - rewrite E0 in Hext. by destruct Hne.
  - exists a, b. by rewrite <-Hext, Eb.
Qed.

Lemma target_name_shape_witness :
  ∃ a b, posixpath.basename "d/a.JPG" = a +:+ "." +:+ b
         ∧ dots_only a = false
         ∧ pystr.contains b posixpath.extsep = false
         ∧ ".jpg" = "." +:+ pystr.lower b.
Proof.
  apply (target_name_shape {[ "d/a.JPG" := File 5 ]} ".jpg" "d/a.JPG");
    [reflexivity|done].
Defined.

(** The path that [ensure_unique_path] returns lies in the directory of
    the one it was given and has its extension. *)
Lemma unique_path_place (fuel : nat) (fs : gmap string node) (target_path r : string) :
  ensure_unique_path fuel fs target_path = Some r →
  (posixpath.split r).1 = (posixpath.split target_path).1
  ∧ (posixpath.splitext r).2 = (posixpath.splitext target_path).2.
Proof.
  unfold ensure_unique_path.
  destruct (os.path_exists fs target_path); cbn [negb]; [|by intros [= <-]].
  pose proof (split_fst_is_head target_path) as Hhead.
  pose proof (split_snd target_path) as Hsnd.
  rewrite (splitext_snd_basename target_path).
  destruct (posixpath.split target_path) as [directory filename].
  cbn [fst snd] in *. rewrite <-Hsnd.
  assert (nosep filename) as Hname by (rewrite Hsnd; apply basename_nosep_result).
  assert (∀ stem ext i, nosep stem → nosep ext →
            (posixpath.split (candidate directory stem ext i)).1 = directory
            ∧ (posixpath.splitext (candidate directory stem ext i)).2
              = (posixpath.splitext (stem +:+ "-" +:+ pretty i +:+ ext)).2) as Hcand.
  { intros stem ext i Hs He.
    assert (nosep (stem +:+ "-" +:+ pretty i +:+ ext)) as Hn.
    { rewrite !contains_app, Hs, He, pretty_nosep. done. }
    unfold candidate. rewrite (split_join _ _ Hhead Hn). split; [done|].
    rewrite (join_relative _ _ (nosep_startswith _ Hn)).
    apply splitext_snd_prefixed; [apply join_prefix_is_dir_prefix|done]. }
  destruct (splitext_name filename Hname)
    as [E|(a & b & -> & Hd & Ha & Hb & Hdot & E)]; rewrite E.
  - intros (j & _ & -> & _)%loop_sound.
    destruct (Hcand filename "" j Hname eq_refl) as [-> ->]. split; [done|].
    rewrite app_nil_r. cbn [snd].
    destruct (name_cut filename Hname) as [Hnd|(a & b & -> & Ha & Hb & Hdot)].
    + pose proof (splitext_undotted "" (filename +:+ "-" +:+ pretty j)
                    (or_introl eq_refl)) as E'.
      change ("" +:+ ?x) with x in E'. rewrite E'; [done| |].
      * rewrite !contains_app, Hname, pretty_nosep. done.
      * rewrite !contains_app, Hnd, pretty_nodot. done.
    + pose proof (splitext_dotted "" a b (or_introl eq_refl) Ha Hb Hdot) as E0.
      change ("" +:+ ?x) with x in E0. rewrite E0 in E.
      destruct (dots_only a) eqn:Hd; [|by injection E as _ ?].
      assert (nosep (b +:+ "-" +:+ pretty j)) as Hb'.
      { rewrite !contains_app, Hb, pretty_nosep. done. }
      assert (pystr.contains (b +:+ "-" +:+ pretty j) posixpath.extsep = false) as Hdot'.
      { rewrite !contains_app, Hdot, pretty_nodot. done. }
      pose proof (splitext_dotted "" a (b +:+ "-" +:+ pretty j)
                    (or_introl eq_refl) Ha Hb' Hdot') as E'.
      change ("" +:+ ?x) with x in E'. rewrite Hd in E'.
      rewrite ?app_assoc. rewrite ?app_assoc in E'. by rewrite E'.
  - intros (j & _ & -> & _)%loop_sound.
    assert (nosep ("." +:+ b)) as Hb2 by (by rewrite contains_app, Hb).
    destruct (Hcand a ("." +:+ b) j Ha Hb2) as [-> ->]. split; [done|]. cbn [snd].
    assert (nosep (a +:+ "-" +:+ pretty j)) as Ha'.
    { rewrite !contains_app, Ha, pretty_nosep. done. }
    pose proof (splitext_dotted "" (a +:+ "-" +:+ pretty j) b
                  (or_introl eq_refl) Ha' Hb Hdot) as E'.
    change ("" +:+ ?x) with x in E'.
    rewrite dots_only_app, Hd in E'. cbn [andb] in E'.
    rewrite ?app_assoc in E'. rewrite ?app_assoc. by rewrite E'.
Qed.

(** X7: the path that [ensure_unique_path] returns lies in the directory of
    the candidate and has the extension of the candidate: the number goes
    before the extension. *)
Theorem ensure_unique_path_keeps_place (fuel : nat) (fs : gmap string node)
    (target_path r : string) :
  ensure_unique_path fuel fs target_path = Some r →
  (posixpath.split r).1 = (posixpath.split target_path).1
  ∧ (posixpath.splitext r).2 = (posixpath.splitext target_path).2.
Proof. apply unique_path_place. Qed.

Lemma ensure_unique_path_keeps_place_witness :
  ∃ r, ensure_unique_path 3 {[ "d.x/a.tar.gz" := File 1 ]} "d.x/a.tar.gz" = Some r
       ∧ (posixpath.split r).1 = "d.x" ∧ (posixpath.splitext r).2 = ".gz".
Proof.
  exists "d.x/a.tar-1.gz". split; [reflexivity|].
  apply (ensure_unique_path_keeps_place 3 {[ "d.x/a.tar.gz" := File 1 ]} "d.x/a.tar.gz").
  reflexivity.
Defined.

(** The new name of a file with an extension has that extension. *)
Lemma prefixed_name_ext (path prefix : string) :
  (posixpath.splitext path).2 ≠ "" →
  (posixpath.splitext (build_prefixed_name path prefix)).2 = (posixpath.splitext path).2.
Proof.
  intros Hne.
  destruct (splitext_ext_shape path) as [E0|(a & b & Hb & Hd & Hdot & ->)]; [done|].
  rewrite splitext_snd_basename, basename_build_prefixed_name, Hb.
  assert (nosep (a +:+ "." +:+ b)) as Hn by (rewrite <-Hb; apply basename_nosep_result).
  rewrite !contains_app in Hn.
  apply orb_false_iff in Hn as [Ha Hn]. apply orb_false_iff in Hn as [_ Hb'].
  assert (nosep (posixpath.basename prefix +:+ "_" +:+ a)) as Ha'.
  { rewrite !contains_app, basename_nosep_result, Ha. done. }
  pose proof (splitext_dotted "" (posixpath.basename prefix +:+ "_" +:+ a) b
                (or_introl eq_refl) Ha' Hb' Hdot) as E'.
  change ("" +:+ ?x) with x in E'.
  rewrite !dots_only_app, Hd, !andb_false_r in E'.
  rewrite ?app_assoc in E'. rewrite ?app_assoc. by rewrite E'.
Qed.

(** X5: [build_prefixed_name] keeps the extension of a path that has one,
    whatever the prefix. *)
Theorem build_prefixed_name_keeps_ext (path prefix : string) :
  (posixpath.splitext path).2 ≠ "" →
  (posixpath.splitext (build_prefixed_name path prefix)).2 = (posixpath.splitext path).2.
Proof. apply prefixed_name_ext. Qed.

Lemma build_prefixed_name_keeps_ext_witness :
  (posixpath.splitext (build_prefixed_name "dir/photo.JPG" "2024.03")).2 = ".JPG".
Proof. by apply (build_prefixed_name_keeps_ext "dir/photo.JPG" "2024.03"). Defined.

(** ** New names, the skip rule and the listing *)

(** X6: with a prefix without separator, [build_prefixed_name] gives the
    same new path only to paths of the same directory and file name. *)
Theorem build_prefixed_name_injective (p1 p2 prefix : string) :
  nosep prefix →
  build_prefixed_name p1 prefix = build_prefixed_name p2 prefix →
  posixpath.split p1 = posixpath.split p2.
Proof.
  intros Hp E. apply (f_equal posixpath.split) in E.
  rewrite !split_build_prefixed_name in E by done.
  pose proof (f_equal fst E) as E1. pose proof (f_equal snd E) as E2.
  cbn [fst snd] in E1, E2.
  apply (inj (String.app prefix)), (inj (String.app "_")) in E2.
  rewrite (surjective_pairing (posixpath.split p1)),
    (surjective_pairing (posixpath.split p2)).
  by rewrite E1, E2.
Qed.

Lemma build_prefixed_name_injective_witness :
  build_prefixed_name "a//x.jpg" "2024" = build_prefixed_name "a/x.jpg" "2024"
  ∧ posixpath.split "a//x.jpg" = posixpath.split "a/x.jpg".
Proof.
  split; [reflexivity|].
  apply (build_prefixed_name_injective "a//x.jpg" "a/x.jpg" "2024"); reflexivity.
Defined.

(** X8: a name built with one prefix is skipped under a prefix of the same
    length exactly when the two prefixes are equal: once the modification
    time gives another prefix, the file is not taken as prefixed. *)
Theorem skip_needs_the_same_prefix (path p1 p2 : string) :
  nosep p1 → String.length p1 = String.length p2 →
  should_skip_already_prefixed (posixpath.split (build_prefixed_name path p1)).2 p2 = true
  ↔ p1 = p2.
Proof.
  intros Hp Hlen. rewrite (split_build_prefixed_name path p1 Hp). cbn [snd].
  unfold should_skip_already_prefixed. split.
  - intros [r E]%startswith_inv.
    apply (f_equal (pystr.take (String.length p1))) in E.
    rewrite take_app_length in E. rewrite Hlen, app_assoc, take_app_length in E. done.
  - intros <-. rewrite <-app_assoc. apply startswith_app.
Qed.

Lemma skip_needs_the_same_prefix_witness :
  should_skip_already_prefixed
    (posixpath.split (build_prefixed_name "d/a.jpg" "2024-03-05")).2 "2024-03-06" = true
  ↔ "2024-03-05" = "2024-03-06".
Proof.
  apply (skip_needs_the_same_prefix "d/a.jpg" "2024-03-05" "2024-03-06"); reflexivity.
Defined.

(** X4: in a recursive listing whose file names hold no separator, the
    name part that [os.path.split] finds in each path that [iter_files]
    yields is the name that [os.walk] listed, in the order of the walk. *)
Theorem iter_files_recursive_names (en : enumerator) (base_dir : string) :
  Forall (λ '(root, dirs, files), Forall (λ name, nosep name) files) (walk en base_dir) →
  (λ p, (posixpath.split p).2) <$> iter_files en base_dir true
  = flat_map (λ '(root, dirs, files), files) (walk en base_dir).
Proof.
  unfold iter_files. induction (walk en base_dir) as [|[[root dirs] files] rest IH];
    [done|].
  intros [Hfiles Hrest]%Forall_cons. simpl flat_map.
  rewrite fmap_app, (IH Hrest). f_equal.
  clear IH Hrest. induction files as [|name files IH]; [done|].
  apply Forall_cons in Hfiles as [Hn Hfiles]. cbn [map]. rewrite fmap_cons.
  rewrite split_snd, basename_join, (basename_nosep name Hn). f_equal.
  by apply IH.
Qed.

Lemma iter_files_recursive_names_witness :
  (λ p, (posixpath.split p).2) <$> iter_files en_photos "d/" true
  = ["a.jpg"; "b.JPG"; "c.png"; "e.jpeg"; "sock.jpg"].
Proof.
  apply (iter_files_recursive_names en_photos "d/").
  repeat constructor.
Defined.

(** ** What a run does to the file system *)

Section RunFacts.
Context `{Platform}.
Implicit Types (w : world) (self : App) (t : tally) (paths : list string)
  (fs : gmap string node).

Lemma rename_one_renamed fuel skip pattern path self w self' w' :
  rename_one fuel skip pattern path self w = Some (Ok (Renamed, self', w')) →
  ∃ prefix target m,
    get_modification_prefix w path pattern = Ok prefix
    ∧ skip && should_skip_already_prefixed (posixpath.split path).2 prefix = false
    ∧ ensure_unique_path fuel (fs w) (build_prefixed_name path prefix) = Some target
    ∧ fs w !! path = Some (File m) ∧ os.path_exists (fs w) target = false
    ∧ w' = set_fs w (os.touch (os.touch (<[target := File m]> (delete path (fs w)))
                                 (posixpath.split path).1 (clock w))
                       (posixpath.split target).1 (clock w))
    ∧ self' = _log self (renamed_line path target).
Proof.
  rewrite rename_one_unfold.
  destruct (get_modification_prefix w path pattern) as [prefix|e]; simpl; [|done].
  destruct (skip && should_skip_already_prefixed _ prefix) eqn:Hs; [done|].
  destruct (ensure_unique_path fuel (fs w) _) as [target|] eqn:Ht; simpl; [|done].
  destruct (String.eqb _ _); [done|].
  destruct (os.rename (fs w) (clock w) path target) as [fs'|e] eqn:E; simpl; [|done].
  intros [= <- <-]. apply os_rename_inv in E as (m & Hm & _ & _ & ->).
  exists prefix, target, m. repeat split; try done.
  by apply ensure_unique_path_free in Ht.
Qed.

Lemma rename_one_skipped fuel skip pattern path self w self' w' :
  rename_one fuel skip pattern path self w = Some (Ok (Skipped, self', w')) →
  self' = self ∧ w' = w.
Proof.
  rewrite rename_one_unfold.
  destruct (get_modification_prefix w path pattern) as [prefix|e]; simpl; [|done].
  destruct (skip && should_skip_already_prefixed _ prefix); [by intros [= <- <-]|].
  destruct (ensure_unique_path fuel (fs w) _) as [target|]; simpl; [|done].
  destruct (String.eqb _ _); [by intros [= <- <-]|].
  by destruct (os.rename (fs w) (clock w) path target).
Qed.

Lemma rename_one_size fuel skip pattern path self w v self' w' :
  rename_one fuel skip pattern path self w = Some (Ok (v, self', w')) →
  (size (fs w') ≤ size (fs w))%nat.
Proof.
  rewrite rename_one_unfold.
  destruct (get_modification_prefix w path pattern) as [prefix|e]; simpl; [|done].
  destruct (skip && should_skip_already_prefixed _ prefix); [by intros [= _ _ <-]|].
  destruct (ensure_unique_path fuel (fs w) _) as [target|]; simpl; [|done].
  destruct (String.eqb _ _); [by intros [= _ _ <-]|].
  destruct (os.rename (fs w) (clock w) path target) as [fs'|e] eqn:E; simpl; [|done].
  intros [= _ _ <-]. cbn [fs set_fs]. by eapply rename_size.
Qed.

Lemma move_weaken ext path paths now fs fs' :
  move ext paths now fs fs' → move ext (path :: paths) now fs fs'.
Proof. intros [src dst m ? ? ? ?]. constructor; [by right|done..]. Qed.

(** What the loop of [_on_rename] does to the file system is a sequence
    of moves of targets to paths at which nothing exists. *)
Lemma rename_loop_moves fuel skip ext pattern paths : ∀ t self w t' self' w',
  rename_loop fuel skip ext pattern paths t self w = Some (t', self', w') →
  rtc (move ext paths (clock w)) (fs w) (fs w') ∧ cwd w' = cwd w ∧ clock w' = clock w.
Proof.
  induction paths as [|path rest IH]; intros t self w t' self' w'.
  { by intros [= <- <- <-]. }
  assert (∀ t0 self0 w0,
            rename_loop fuel skip ext pattern rest t0 self0 w0 = Some (t', self', w') →
            rtc (move ext (path :: rest) (clock w0)) (fs w0) (fs w')
            ∧ cwd w' = cwd w0 ∧ clock w' = clock w0) as IH'.
  { intros t0 self0 w0 (Hm & ? & ?)%IH. split; [|done].
    eapply rtc_subrel; [|exact Hm]. intros ??. apply move_weaken. }
  simpl rename_loop.
  destruct (is_target (fs w) ext path) eqn:Htarget; cbn [negb]; [|by apply IH'].
  destruct (rename_one fuel skip pattern path self w) as [[[[[] self1] w1]|e]|] eqn:E;
    [| | |done].
  - apply rename_one_renamed in E as (prefix & target & m & _ & _ & _ & Hm & Hfree & -> & _).
    intros (Hmoves & Hc & Hk)%IH'. split; [|done].
    eapply rtc_l; [|exact Hmoves]. cbn [fs set_fs]. constructor; [by left|done..].
  - apply rename_one_skipped in E as [_ ->]. apply IH'.
  - apply IH'.
Qed.

Lemma move_files ext paths now fs fs' :
  move ext paths now fs fs' → files_of fs' ≡ₚ files_of fs.
Proof.
  intros [src dst m _ _ Hsrc Hdst]. rewrite !touch_files_of.
  assert (dst ≠ src) as Hne.
  { intros ->. unfold os.path_exists in Hdst. by rewrite Hsrc in Hdst. }
  rewrite (files_of_delete fs src _ Hsrc).
  rewrite <-insert_delete_eq, files_of_insert by apply lookup_delete_eq.
  apply Permutation_app_head.
  destruct (delete src fs !! dst) as [n|] eqn:E.
  - rewrite (files_of_delete _ dst _ E).
    rewrite lookup_delete_ne in E by done.
    unfold os.path_exists in Hdst. rewrite E in Hdst. by destruct n.
  - by rewrite delete_id.
Qed.

Lemma kept_trans (n1 n2 n3 : node) : kept n1 n2 → kept n2 n3 → kept n1 n3.
Proof.
  destruct n1; simpl.
  - by intros ->.
  - by intros [m' ->].
  - by intros ->.
  - by intros ->.
Qed.

Lemma kept_refl (n : node) : kept n n.
Proof. destruct n; simpl; try done. by eexists. Qed.

Lemma kept_isfile fs fs' p n n' :
  fs !! p = Some n → fs' !! p = Some n' → kept n n' →
  os.path_isfile fs' p = os.path_isfile fs p
  ∧ os.path_exists fs' p = os.path_exists fs p.
Proof.
  unfold os.path_isfile, os.path_exists. intros -> ->.
  destruct n; simpl; [by intros ->|by intros [? ->]|by intros ->|by intros ->].
Qed.

(** A move leaves what exists and is not a target where it is. *)
Lemma move_frame ext paths now fs fs' p n :
  move ext paths now fs fs' → fs !! p = Some n → os.path_exists fs p = true →
  p ∉ paths ∨ is_target fs ext p = false →
  ∃ n', fs' !! p = Some n' ∧ kept n n' ∧ os.path_exists fs' p = true
        ∧ (p ∉ paths ∨ is_target fs' ext p = false).
Proof.
  intros [src dst m Hin Htarget Hsrc Hdst] Hp Hex Hout.
  assert (<[dst:=File m]> (delete src fs) !! p = Some n) as E.
  { rewrite lookup_insert_ne by (intros ->; congruence).
    rewrite lookup_delete_ne; [done|]. intros ->. destruct Hout; [done|congruence]. }
  destruct (touch_kept _ (posixpath.split src).1 now p n E) as (n1 & E1 & K1).
  destruct (touch_kept _ (posixpath.split dst).1 now p n1 E1) as (n2 & E2 & K2).
  pose proof (kept_trans _ _ _ K1 K2) as K.
  destruct (kept_isfile fs _ p n n2 Hp E2 K) as [Hf He].
  exists n2. split; [done|]. split; [done|]. split; [by rewrite He|].
  destruct Hout as [?|Hnot]; [by left|right].
  unfold is_target in *. by rewrite Hf.
Qed.

Lemma moves_files ext paths now fs fs' :
  rtc (move ext paths now) fs fs' → files_of fs' ≡ₚ files_of fs.
Proof.
  induction 1 as [|fs fs1 fs' Hm _ IH]; [done|].
  by rewrite IH, (move_files _ _ _ _ _ Hm).
Qed.

Lemma moves_frame ext paths now fs fs' p n :
  rtc (move ext paths now) fs fs' → fs !! p = Some n → os.path_exists fs p = true →
  p ∉ paths ∨ is_target fs ext p = false →
  ∃ n', fs' !! p = Some n' ∧ kept n n'.
Proof.
  intros Hm. revert n. induction Hm as [fs|fs fs1 fs' Hm _ IH]; intros n Hp Hex Hout.
  { exists n. split; [done|apply kept_refl]. }
  destruct (move_frame _ _ _ _ _ _ _ Hm Hp Hex Hout) as (n1 & Hp1 & K1 & Hex1 & Hout1).
  destruct (IH n1 Hp1 Hex1 Hout1) as (n' & Hp' & K'). exists n'. split; [done|].
  by eapply kept_trans.
Qed.

(** What [_on_rename] returns: the state after the refusal of the inputs,
    or after the loop, the end of the listing and the summary. *)
Lemma on_rename_inv fuel en self w self' w' :
  _on_rename fuel en self w = Some (Ok (self', w')) →
  (∃ directory ext msg,
     _validate_inputs self w = (false, directory, ext, msg)
     ∧ self' = _log self msg ∧ w' = w)
  ∨ ∃ directory ext pattern start t self1,
      _validate_inputs self w = (true, directory, ext, pattern)
      ∧ rename_loop fuel (skip_already_prefixed_var self) ext pattern
          (iter_files en directory (recursive_var self)) (Tally 0 0 0)
          (_log self start) w = Some (t, self1, w')
      ∧ iter_files_raises en directory (recursive_var self) = None
      ∧ self' = _log self1 (summary t).
Proof.
  unfold _on_rename.
  destruct (_validate_inputs self w) as [[[ok directory] ext] pattern].
  destruct ok; cbn [negb].
  - set (self0 := _log self _).
    change (skip_already_prefixed_var self0) with (skip_already_prefixed_var self).
    destruct (rename_loop _ _ _ _ _ _ _ _) as [[[t self1] w1]|] eqn:E; simpl; [|done].
    destruct (iter_files_raises en directory (recursive_var self)) eqn:El; simpl;
      [done|].
    intros [= <- <-]. right. by eexists directory, ext, pattern, _, t, self1.
  - intros [= <- <-]. left. by exists directory, ext, pattern.
Qed.

End RunFacts.





(** The directory in which a file was renamed is modified at the time of
    the run; the read-only one, in which the rename failed, is not. *)
Example rename_run_mixed_dirs :
  ∃ self' w',
    @_on_rename utc_platform 6 en_mixed app_mixed w_mixed = Some (Ok (self', w'))
    ∧ fs w' !! "top/rw" = Some (Dir 1700000000 true)
    ∧ fs w' !! "top/ro" = Some (Dir 2 false)
    ∧ fs w' !! "top" = Some (Dir 1 true).
Proof. eexists _, _. split; [vm_compute; reflexivity|]. by vm_compute. Qed.

(** ** The counters of a run *)

Section Counters.
Context `{Platform}.
Implicit Types (w : world) (self : App) (t : tally) (paths : list string).

(** X18: the counters of the loop of [_on_rename] never go down, and they
    grow by at most one outcome for each listed path. *)
Theorem rename_loop_one_outcome_per_path (fuel : nat) (skip : bool)
    (ext pattern : string) (paths : list string) (t t' : tally)
    (self self' : App) (w w' : world) :
  rename_loop fuel skip ext pattern paths t self w = Some (t', self', w') →
  count t ≤ count t' ∧ skipped t ≤ skipped t' ∧ errors t ≤ errors t'
  ∧ (count t' - count t) + (skipped t' - skipped t) + (errors t' - errors t)
    ≤ Z.of_nat (length paths).
Proof.
  revert t self w. induction paths as [|path rest IH]; intros t self w.
  { intros [= <- <- <-]. simpl. lia. }
  simpl rename_loop.
  destruct (is_target (fs w) ext path); cbn [negb].
  - destruct (rename_one fuel skip pattern path self w) as [[[[[] self1] w1]|e]|] eqn:E;
      [| | |done].
    + intros Hloop%IH. cbn [count skipped errors length] in *. lia.
    + intros Hloop%IH. cbn [count skipped errors length] in *. lia.
    + intros Hloop%IH. cbn [count skipped errors length] in *. lia.
  - intros Hloop%IH. simpl length. lia.
Qed.

(** X19: without the skip option the loop of [_on_rename] skips nothing:
    over paths whose last component is the name of a directory entry, the
    counter of skipped files is left as it was. *)
Theorem no_skip_without_the_option (fuel : nat) (ext pattern : string)
    (paths : list string) (t t' : tally) (self self' : App) (w w' : world) :
  Forall (λ p, is_entry_name (posixpath.basename p) = true) paths →
  rename_loop fuel false ext pattern paths t self w = Some (t', self', w') →
  skipped t' = skipped t.
Proof.
  revert t self w. induction paths as [|path rest IH]; intros t self w Hnames.
  { by intros [= <- <- <-]. }
  apply Forall_cons in Hnames as [Hname Hnames].
  simpl rename_loop.
  destruct (is_target (fs w) ext path); cbn [negb]; [|by apply IH].
  destruct (rename_one fuel false pattern path self w) as [[[[[] self1] w1]|e]|] eqn:E;
    [| | |done].
  - intros Hloop%IH; done.
  - exfalso. rewrite rename_one_unfold in E.
    destruct (get_modification_prefix w path pattern) as [prefix|?]; simpl in E; [|done].
    destruct (ensure_unique_path fuel (fs w) _) as [target|] eqn:Ht; simpl in E; [|done].
    destruct (String.eqb_spec (posixpath.abspath (cwd w) path)
                (posixpath.abspath (cwd w) target)) as [Eabs|_].
    + by destruct (target_abspath _ _ (cwd w) _ _ _ Hname Ht).
    + by destruct (os.rename (fs w) (clock w) path target).
  - intros Hloop%IH; done.
Qed.

End Counters.

Lemma rename_loop_one_outcome_per_path_witness :
  ∃ t' self' w',
    @rename_loop utc_platform 6 true ".jpg" DEFAULT_PATTERN
      ["top/ro/a.jpg"; "top/rw/b.jpg"; "top/rw/c.png"] (Tally 0 0 0) app_mixed w_mixed
    = Some (t', self', w')
    ∧ (count t' - 0) + (skipped t' - 0) + (errors t' - 0) ≤ 3.
Proof.
  eexists _, _, _. split; [vm_compute; reflexivity|].
  refine (proj2 (proj2 (proj2
    (@rename_loop_one_outcome_per_path utc_platform 6 true ".jpg" DEFAULT_PATTERN
       ["top/ro/a.jpg"; "top/rw/b.jpg"; "top/rw/c.png"] (Tally 0 0 0) _
       app_mixed _ w_mixed _ _)))).
  vm_compute. reflexivity.
Defined.

Lemma no_skip_without_the_option_witness :
  ∃ t' self' w',
    @rename_loop utc_platform 6 false ".jpg" DEFAULT_PATTERN
      ["top/rw/b.jpg"; "top/rw/2024-03-05-14-30-00_b.jpg"] (Tally 0 0 0) app_mixed w_mixed
    = Some (t', self', w')
    ∧ skipped t' = 0.
Proof.
  eexists _, _, _. split; [vm_compute; reflexivity|].
  refine (@no_skip_without_the_option utc_platform 6 ".jpg" DEFAULT_PATTERN
            ["top/rw/b.jpg"; "top/rw/2024-03-05-14-30-00_b.jpg"] (Tally 0 0 0) _
            app_mixed _ w_mixed _ _ _).
  - by repeat constructor.
  - vm_compute. reflexivity.
Defined.

(** ** The inputs *)

Section Inputs.
Context `{Platform}.
Implicit Types (w : world) (self : App).

(** X12: when [_validate_inputs] refuses the inputs, [_on_rename] and
    [_on_preview] both log the one message of the refusal, which is not
    empty, and leave the file system as it is, whatever the listing; an
    empty directory field gives [Select a directory.], and a text that
    names no directory gives [Directory does not exist: <text>]. *)
Theorem refused_inputs_change_nothing (fuel : nat) (en : enumerator)
    (self : App) (w : world) :
  (_validate_inputs self w).1.1.1 = false →
  ∃ msg,
    _validate_inputs self w = (false, "", "", msg)
    ∧ msg ≠ ""
    ∧ _on_rename fuel en self w = Some (Ok (_log self msg, w))
    ∧ _on_preview fuel en self w = Some (Ok (_log self msg, w))
    ∧ (pystr.strip (dir_var self) = "" → msg = "Select a directory.")
    ∧ (pystr.strip (dir_var self) ≠ "" →
       os.path_isdir (fs w) (pystr.strip (dir_var self)) = false →
       msg = "Directory does not exist: " +:+ pystr.strip (dir_var self)).
Proof.
  intros Hno.
  assert (∃ msg, _validate_inputs self w = (false, "", "", msg) ∧ msg ≠ ""
                 ∧ (pystr.strip (dir_var self) = "" → msg = "Select a directory.")
                 ∧ (pystr.strip (dir_var self) ≠ "" →
                    os.path_isdir (fs w) (pystr.strip (dir_var self)) = false →
                    msg = "Directory does not exist: " +:+ pystr.strip (dir_var self)))
    as (msg & Hv & Hne & H1 & H2).
  { revert Hno. unfold _validate_inputs.
    destruct (String.eqb_spec (pystr.strip (dir_var self)) "") as [E|NE].
    { intros _. by eexists. }
    destruct (os.path_isdir (fs w) (pystr.strip (dir_var self))) eqn:Hd; cbn [negb].
    2:{ intros _. eexists. by repeat split. }
    destruct (String.eqb (normalize_ext (ext_var self)) "").
    { intros _. eexists. by repeat split. }
    destruct (fromtimestamp (clock w)) as [now|e].
    - destruct (strftime _ _) as [?|e]; [done|].
      intros _. eexists. by repeat split.
    - intros _. eexists. by repeat split. }
  exists msg. repeat split; try done.
  - unfold _on_rename. by rewrite Hv.
  - unfold _on_preview. by rewrite Hv.
Qed.

(** X11: the values that [_validate_inputs] accepts: the directory is the
    stripped text of the field, not empty, and names a directory; the
    filter is the normalised extension, starts with a dot, is in lower
    case and has no white space around it; the pattern is the stripped text
    of the field, or the default pattern when that is empty, is not empty
    and formats the current time. *)
Theorem validated_inputs_are_clean (self : App) (w : world)
    (directory ext pattern : string) :
  _validate_inputs self w = (true, directory, ext, pattern) →
  (directory = pystr.strip (dir_var self) ∧ directory ≠ ""
   ∧ pystr.strip directory = directory ∧ os.path_isdir (fs w) directory = true)
  ∧ (ext = normalize_ext (ext_var self) ∧ pystr.startswith ext "." = true
     ∧ pystr.lower ext = ext ∧ pystr.strip ext = ext)
  ∧ (pattern = (if String.eqb (pystr.strip (pattern_var self)) "" then DEFAULT_PATTERN
                else pystr.strip (pattern_var self))
     ∧ pattern ≠ "" ∧ pystr.strip pattern = pattern
     ∧ is_ok (format_timestamp (clock w) pattern) = true).
Proof.
  unfold _validate_inputs, format_timestamp.
  destruct (String.eqb_spec (pystr.strip (dir_var self)) "") as [|Hdir]; [done|].
  destruct (os.path_isdir (fs w) (pystr.strip (dir_var self))) eqn:Hd; [|done].
  cbn [negb].
  destruct (String.eqb_spec (normalize_ext (ext_var self)) "") as [|Hext]; [done|].
  destruct (fromtimestamp (clock w)) as [now|]; [|done].
  destruct (strftime _ _) eqn:Hs; [|done].
  intros [= <- <- <-]. split; [|split].
  - repeat split; try done. apply strip_idem.
  - repeat split.
    + by destruct (normalize_ext_dot (ext_var self)).
    + apply normalize_ext_lower.
    + apply normalize_ext_stripped.
  - repeat split.
    + by destruct (String.eqb_spec (pystr.strip (pattern_var self)) "").
    + destruct (String.eqb (pystr.strip (pattern_var self)) ""); [done|apply strip_idem].
    + by rewrite Hs.
Qed.

(** X20: when the inputs are accepted and no listed path is a target,
    [_on_rename] logs its first line and the summary [Done. Renamed: 0,
    Skipped: 0, Errors: 0], and leaves the file system as it is; when the
    listing ends with an exception, that exception ends the run. *)
Theorem rename_run_without_targets (fuel : nat) (en : enumerator)
    (self : App) (w : world) (directory ext pattern : string) :
  _validate_inputs self w = (true, directory, ext, pattern) →
  _collect_targets (fs w) en directory ext (recursive_var self) = [] →
  ∃ start,
    _on_rename fuel en self w
    = match iter_files_raises en directory (recursive_var self) with
      | None =>
          Some (Ok (logged self [start; "Done. Renamed: 0, Skipped: 0, Errors: 0"], w))
      | Some e => Some (Raise e)
      end.
Proof.
  intros Hv Hnone. unfold _on_rename. rewrite Hv. cbn [negb].
  set (self0 := _log self _).
  assert (∀ paths, filter (λ path, is_target (fs w) ext path = true) paths = [] →
            rename_loop fuel (skip_already_prefixed_var self0) ext pattern paths
              (Tally 0 0 0) self0 w = Some (Tally 0 0 0, self0, w)) as Hloop.
  { induction paths as [|path rest IH]; [done|].
    rewrite filter_cons. simpl rename_loop.
    destruct (is_target (fs w) ext path).
    - by rewrite decide_True.
    - rewrite decide_False by done. exact IH. }
  rewrite (Hloop _ Hnone). eexists. cbn [bind looping].
  destruct (iter_files_raises en directory (recursive_var self)); [done|].
  cbn [bind exhausted ret]. unfold self0.
  by rewrite !log_logged, logged_logged.
Qed.

End Inputs.

Lemma refused_inputs_change_nothing_witness :
  ∃ msg,
    @_on_rename utc_platform 0 en_photos _build_ui w_photo
    = Some (Ok (_log _build_ui msg, w_photo))
    ∧ @_on_preview utc_platform 0 en_photos _build_ui w_photo
      = Some (Ok (_log _build_ui msg, w_photo)).
Proof.
  destruct (@refused_inputs_change_nothing utc_platform 0 en_photos _build_ui w_photo eq_refl)
    as (msg & _ & _ & H1 & H2 & _).
  by exists msg.
Defined.

Lemma validated_inputs_are_clean_witness :
  @_validate_inputs utc_platform app_fifteen w_fifteen = (true, "p", ".jpg", "%Y%m%d")
  ∧ pystr.strip ".jpg" = ".jpg" ∧ pystr.strip "%Y%m%d" = "%Y%m%d".
Proof.
  assert (@_validate_inputs utc_platform app_fifteen w_fifteen
          = (true, "p", ".jpg", "%Y%m%d")) as Hv by (vm_compute; reflexivity).
  split; [exact Hv|].
  destruct (@validated_inputs_are_clean utc_platform app_fifteen w_fifteen "p" ".jpg"
              "%Y%m%d" Hv) as (_ & (_ & _ & _ & H1) & (_ & _ & H2 & _)).
  split; [exact H1|exact H2].
Defined.

Lemma rename_run_without_targets_witness :
  ∃ start,
    @_on_rename utc_platform 0 {| walk := λ _, []; scandir := λ _, ([], None) |}
      app_fifteen w_fifteen
    = Some (Ok (logged app_fifteen [start; "Done. Renamed: 0, Skipped: 0, Errors: 0"],
                w_fifteen)).
Proof.
  exact (@rename_run_without_targets utc_platform 0
           {| walk := λ _, []; scandir := λ _, ([], None) |}
           app_fifteen w_fifteen "p" ".jpg" "%Y%m%d" eq_refl eq_refl).
Defined.

(** X13: the state that [_build_ui] sets up is refused for want of a
    directory; once [_browse_dir] has stored the name of a directory, the
    defaults are accepted as the filter [.jpg] and the default pattern,
    where the platform formats that pattern; a cancelled dialog changes
    nothing. *)
Theorem default_inputs_are_valid `{Platform} (d : string) (w : world) :
  pystr.strip d ≠ "" →
  os.path_isdir (fs w) (pystr.strip d) = true →
  is_ok (format_timestamp (clock w) DEFAULT_PATTERN) = true →
  _validate_inputs _build_ui w = (false, "", "", "Select a directory.")
  ∧ _validate_inputs (_browse_dir d _build_ui) w
    = (true, pystr.strip d, ".jpg", DEFAULT_PATTERN)
  ∧ _browse_dir "" _build_ui = _build_ui.
Proof.
  intros Hd Hdir Hok. split; [done|]. split; [|done].
  assert (d ≠ "") as Hne by (by intros ->).
  unfold _browse_dir, _validate_inputs.
  destruct (String.eqb_spec d "") as [|_]; [done|]. cbn [negb dir_var].
  destruct (String.eqb_spec (pystr.strip d) "") as [|_]; [done|].
  rewrite Hdir. cbn [negb ext_var pattern_var _build_ui].
  change (normalize_ext "jpg") with ".jpg".
  change (String.eqb ".jpg" "") with false. cbv iota.
  change (pystr.strip DEFAULT_PATTERN) with DEFAULT_PATTERN.
  change (String.eqb DEFAULT_PATTERN "") with false. cbv iota.
  unfold format_timestamp in Hok.
  destruct (fromtimestamp (clock w)) as [now|]; [|done].
  by destruct (strftime _ _).
Qed.

Lemma default_inputs_are_valid_witness :
  @_validate_inputs utc_platform (_browse_dir " d " _build_ui)
    (World fs_photos "/home/u" 1700000000)
  = (true, "d", ".jpg", DEFAULT_PATTERN).
Proof.
  apply (@default_inputs_are_valid utc_platform " d " (World fs_photos "/home/u" 1700000000));
    [done|reflexivity|by vm_compute].
Defined.

(** ** A round of the run *)

Section StepFacts.
Context `{Platform}.
Implicit Types (w : world) (self : App).

(** X14: the preview names what the rename does: when the round of
    [_on_rename] for a path renames it on a file system, the preview of
    that path on the same file system logs the line of the rename without
    its [RENAMED: ] head, followed by the note of a collision or by
    nothing. *)
Theorem preview_names_the_rename (fuel : nat) (skip : bool) (pattern path : string)
    (self self' : App) (w w' : world) :
  rename_one fuel skip pattern path self w = Some (Ok (Renamed, self', w')) →
  ∃ line note,
    preview_loop fuel skip pattern w [path] 0 self
    = Some (Ok (1, _log self (line +:+ note)))
    ∧ log self' = log self ++ ["RENAMED: " +:+ line]
    ∧ (note = "" ∨ note = " (collision -> will use unique name)").
Proof.
  intros (prefix & target & m & Hp & Hs & Ht & _ & _ & _ & ->)%rename_one_renamed.
  exists ((posixpath.split path).2 +:+ " -> " +:+ posixpath.basename target).
  eexists. split; [|split; [reflexivity|]].
  - rewrite preview_loop_unfold, Hp. cbn [bind call ret looping].
    rewrite Hs, Ht. cbn [bind call ret looping].
    change (10 <=? 0 + 1) with false. cbv iota.
    cbn [preview_loop]. unfold ret. do 4 f_equal. by rewrite app_assoc, app_assoc.
  - destruct (negb _); [by right|by left].
Qed.


End StepFacts.

Lemma preview_names_the_rename_witness :
  ∃ self' w' line note,
    @rename_one utc_platform 2 true DEFAULT_PATTERN "photo.jpg" app_mixed w_photo
    = Some (Ok (Renamed, self', w'))
    ∧ @preview_loop utc_platform 2 true DEFAULT_PATTERN w_photo ["photo.jpg"] 0 app_mixed
      = Some (Ok (1, _log app_mixed (line +:+ note)))
    ∧ log self' = log app_mixed ++ ["RENAMED: " +:+ line].
Proof.
  assert (∃ self' w',
            @rename_one utc_platform 2 true DEFAULT_PATTERN "photo.jpg" app_mixed w_photo
            = Some (Ok (Renamed, self', w'))) as (self' & w' & Hrun)
    by (eexists _, _; vm_compute; reflexivity).
  destruct (@preview_names_the_rename utc_platform 2 true DEFAULT_PATTERN "photo.jpg"
              app_mixed self' w_photo w' Hrun) as (line & note & H1 & H2 & _).
  exists self', w', line, note. split; [exact Hrun|]. split; [exact H1|exact H2].
Defined.


(** ** The log *)

Section LogFacts.
Context `{Platform}.
Implicit Types (w : world) (self : App) (t : tally) (paths lines : list string).

(** A round reads nothing of the log: with another log it does the same
    and adds the same lines. *)
Lemma rename_one_relog fuel skip pattern path self self2 w :
  match rename_one fuel skip pattern path self w with
  | Some (Ok (v, self', w')) =>
      ∃ lines, self' = logged self lines
               ∧ rename_one fuel skip pattern path self2 w
                 = Some (Ok (v, logged self2 lines, w'))
  | r => rename_one fuel skip pattern path self2 w = r
  end.
Proof.
  rewrite !rename_one_unfold.
  destruct (get_modification_prefix w path pattern) as [prefix|e]; simpl; [|done].
  destruct (skip && should_skip_already_prefixed _ prefix).
  { exists []. by rewrite !logged_nil. }
  destruct (ensure_unique_path fuel (fs w) _) as [target|]; simpl; [|done].
  destruct (String.eqb _ _).
  { exists []. by rewrite !logged_nil. }
  destruct (os.rename (fs w) (clock w) path target) as [fs'|e]; simpl; [|done].
  eexists [_]. by rewrite !log_logged.
Qed.

Lemma rename_loop_relog fuel skip ext pattern paths : ∀ t self self2 w t' self' w',
  rename_loop fuel skip ext pattern paths t self w = Some (t', self', w') →
  ∃ lines, self' = logged self lines
           ∧ rename_loop fuel skip ext pattern paths t self2 w
             = Some (t', logged self2 lines, w').
Proof.
  induction paths as [|path rest IH]; intros t self self2 w t' self' w'.
  { intros [= <- <- <-]. exists []. by rewrite !logged_nil. }
  simpl rename_loop.
  destruct (is_target (fs w) ext path); cbn [negb]; [|by apply IH].
  pose proof (rename_one_relog fuel skip pattern path self self2 w) as Hone.
  destruct (rename_one fuel skip pattern path self w) as [[[[v self1] w1]|e]|];
    [| |done].
  - destruct Hone as (lines1 & -> & ->).
    assert (∀ t0, rename_loop fuel skip ext pattern rest t0 (logged self lines1) w1
                  = Some (t', self', w') →
                  ∃ lines, self' = logged self lines
                    ∧ rename_loop fuel skip ext pattern rest t0 (logged self2 lines1) w1
                      = Some (t', logged self2 lines, w')) as Hrest.
    { intros t0 (lines & -> & ->)%(IH _ _ (logged self2 lines1)).
      exists (lines1 ++ lines). by rewrite !logged_logged. }
    destruct v; apply Hrest.
  - rewrite Hone.
    change ("ERROR: " +:+ path +:+ ": " +:+ str_exn e) with (error_line path e).
    intros (lines & -> & ->)%(IH _ _ (_log self2 (error_line path e))).
    exists (error_line path e :: lines). by rewrite !log_logged, !logged_logged.
Qed.

(** X21: the log is only written: a rename run adds at least one line to
    the log, and the same run after [_clear_log] ends in the same file
    system with exactly the added lines in the log. *)
Theorem rename_run_ignores_the_log (fuel : nat) (en : enumerator)
    (self self' : App) (w w' : world) :
  _on_rename fuel en self w = Some (Ok (self', w')) →
  ∃ lines,
    log self' = log self ++ lines
    ∧ lines ≠ []
    ∧ ∃ cleared,
        _on_rename fuel en (_clear_log self) w = Some (Ok (cleared, w'))
        ∧ log cleared = lines.
Proof.
  unfold _on_rename. change (_validate_inputs (_clear_log self) w)
    with (_validate_inputs self w).
  destruct (_validate_inputs self w) as [[[ok directory] ext] pattern].
  destruct ok; cbn [negb].
  - change (recursive_var (_clear_log self)) with (recursive_var self).
    set (start := "Starting rename in " +:+ _).
    change (skip_already_prefixed_var (_log (_clear_log self) start))
      with (skip_already_prefixed_var (_log self start)).
    destruct (rename_loop _ _ _ _ _ _ (_log self start) w) as [[[t self1] w1]|] eqn:E;
      cbn [bind looping ret]; [|done].
    destruct (iter_files_raises en directory (recursive_var self));
      cbn [bind exhausted ret]; [done|].
    intros [= <- <-].
    apply (rename_loop_relog _ _ _ _ _ _ _ (_log (_clear_log self) start)) in E
      as (lines & -> & E).
    rewrite E. cbn [bind looping ret exhausted].
    exists (start :: lines ++ [summary t]). split; [|split; [done|]].
    + simpl. by rewrite <-!(assoc_L (++)).
    + eexists. split; [reflexivity|]. done.
  - intros [= <- <-]. exists [pattern]. split; [done|]. split; [done|].
    eexists. by split.
Qed.

End LogFacts.

Lemma rename_run_ignores_the_log_witness :
  ∃ self' w' cleared,
    @_on_rename utc_platform 6 en_mixed _build_ui w_mixed = Some (Ok (self', w'))
    ∧ @_on_rename utc_platform 6 en_mixed (_clear_log _build_ui) w_mixed
      = Some (Ok (cleared, w'))
    ∧ log self' = log _build_ui ++ log cleared.
Proof.
  assert (∃ self' w',
            @_on_rename utc_platform 6 en_mixed _build_ui w_mixed = Some (Ok (self', w')))
    as (self' & w' & Hrun) by (eexists _, _; vm_compute; reflexivity).
  destruct (@rename_run_ignores_the_log utc_platform 6 en_mixed _build_ui self' w_mixed w'
              Hrun) as (lines & H1 & _ & cleared & H2 & H3).
  exists self', w', cleared. split; [exact Hrun|]. split; [exact H2|].
  rewrite H3. exact H1.
Defined.

(** ** A second round *)

Section Again.
Context `{Platform}.
Implicit Types (w : world) (self : App) (fs : gmap string node).

(** X22: the preview passes over what the rename skips: for a path whose
    last component is the name of a directory entry, the round of
    [_on_rename] skips the path exactly when the preview of that path on
    the same file system logs nothing. *)
Theorem preview_skips_what_rename_skips (fuel : nat) (skip : bool)
    (pattern path : string) (self : App) (w : world) :
  is_entry_name (posixpath.basename path) = true →
  rename_one fuel skip pattern path self w = Some (Ok (Skipped, self, w))
  ↔ preview_loop fuel skip pattern w [path] 0 self = Some (Ok (0, self)).
Proof.
  intros Hname. rewrite rename_one_unfold, preview_loop_unfold.
  destruct (get_modification_prefix w path pattern) as [prefix|e];
    cbn [bind call ret looping]; [|done].
  destruct (skip && should_skip_already_prefixed _ prefix); [done|].
  destruct (ensure_unique_path fuel (fs w) _) as [target|] eqn:Ht;
    cbn [bind call ret looping]; [|done].
  destruct (String.eqb_spec (posixpath.abspath (cwd w) path)
              (posixpath.abspath (cwd w) target)) as [E|_].
  { by destruct (target_abspath _ _ (cwd w) _ _ _ Hname Ht). }
  change (10 <=? 0 + 1) with false. cbv iota. cbn [preview_loop]. unfold ret.
  split; [|done].
  by destruct (os.rename (fs w) (clock w) path target).
Qed.


End Again.

Lemma preview_skips_what_rename_skips_witness :
  @rename_one utc_platform 2 true DEFAULT_PATTERN "photo.jpg" app_mixed w_photo
  = Some (Ok (Skipped, app_mixed, w_photo))
  ↔ @preview_loop utc_platform 2 true DEFAULT_PATTERN w_photo ["photo.jpg"] 0 app_mixed
    = Some (Ok (0, app_mixed)).
Proof.
  apply (@preview_skips_what_rename_skips utc_platform 2 true DEFAULT_PATTERN "photo.jpg"
           app_mixed w_photo).
  reflexivity.
Defined.


(** The two rounds for [photo.jpg], and a name at the limit of the
    platform: the round for it fails, where the rule of the skip would
    have passed over it. *)
Example rename_again_photo :
  ∃ self1 w1 self2 w2,
    @rename_one utc_platform 2 false DEFAULT_PATTERN "photo.jpg" app_mixed w_photo
    = Some (Ok (Renamed, self1, w1))
    ∧ @rename_one utc_platform 2 false DEFAULT_PATTERN "2024-03-05-14-30-00_photo.jpg"
        self1 w1
      = Some (Ok (Renamed, self2, w2))
    ∧ os.path_isfile (fs w2) "2024-03-05-14-30-00_2024-03-05-14-30-00_photo.jpg" = true.
Proof.
  eexists _, _, _, _. split; [vm_compute; reflexivity|].
  split; [vm_compute; reflexivity|]. by vm_compute.
Qed.

Example rename_name_too_long :
  String.length ("2024-03-05-14-30-00_" +:+ pystr.times "a" 232 +:+ ".jpg") = 256%nat
  ∧ @rename_one utc_platform 2 false DEFAULT_PATTERN (pystr.times "a" 232 +:+ ".jpg")
      app_mixed
      (World {[ pystr.times "a" 232 +:+ ".jpg" := File 1709649000 ]} "/home/u" 1700000000)
    = Some (Raise (OSError 36 "File name too long" (pystr.times "a" 232 +:+ ".jpg")
                     (Some ("2024-03-05-14-30-00_" +:+ pystr.times "a" 232 +:+ ".jpg")))).
Proof. split; vm_compute; reflexivity. Qed.
